(** * NSP Agent Portal: the upload, poll, extract and cache pipeline

    A shallow embedding of [app.py], [simple_sow_service.py] and the
    orchestrator path of [sow_service.py], with the properties of the
    pipeline stated over it.

    Conventions of the embedding.
    - A Python [str] is a list of code points ([list N]); [bytes] is a list
      of [Byte.byte].  String constants of the source are written with
      [Py.lit], which reads the UTF-8 text of a Rocq string literal.
    - A Python [dict] with string keys is a [gmap string value].
    - The calls to the agent runtime, [asyncio.sleep] and the reads of the
      uploaded file are effects: every function that performs them returns
      its value together with the list of events it produced, in order.
      A raised exception is a [Raise] result carrying [str(e)].
    - [print] output is not part of the model.
    - [App.process_sow] takes a request whose multipart form Flask parses;
      [App.process_sow_incoming] adds the request whose form cannot be read
      (for instance a body over [MAX_CONTENT_LENGTH]), which raises at the
      first read of [request.files].
    - [os.path] is [posixpath]. *)

From Stdlib Require Import ZArith NArith String Ascii List Lia Bool.
From stdpp Require Import base gmap strings list fin_maps.
From Equations Require Import Equations.

(** ** Python strings and bytes *)

Module Py.

(** [bytes.decode("utf-8", errors="ignore")]: well-formed sequences give
    their code point, an ill-formed prefix is dropped up to the first byte
    that cannot continue it, and a sequence cut off by the end of the input
    is dropped whole. *)
Definition is_cont (b : N) : bool := ((0x80 <=? b) && (b <=? 0xBF))%N.

Definition second_ok (lead b : N) : bool :=
  (if lead =? 0xE0 then (0xA0 <=? b) && (b <=? 0xBF)
   else if lead =? 0xED then (0x80 <=? b) && (b <=? 0x9F)
   else if lead =? 0xF0 then (0x90 <=? b) && (b <=? 0xBF)
   else if lead =? 0xF4 then (0x80 <=? b) && (b <=? 0x8F)
   else is_cont b)%N.

Fixpoint utf8_ignore (bs : list N) : list N :=
  match bs with
  | [] => []
  | b0 :: r0 =>
    if (b0 <? 0x80)%N then b0 :: utf8_ignore r0
    else if ((b0 <? 0xC2) || (0xF4 <? b0))%N then utf8_ignore r0
    else
      match r0 with
      | [] => []
      | b1 :: r1 =>
        if negb (second_ok b0 b1) then utf8_ignore r0
        else if (b0 <? 0xE0)%N
        then ((b0 - 0xC0) * 64 + (b1 - 0x80))%N :: utf8_ignore r1
        else
          match r1 with
          | [] => []
          | b2 :: r2 =>
            if negb (is_cont b2) then utf8_ignore r1
            else if (b0 <? 0xF0)%N
            then ((b0 - 0xE0) * 4096 + (b1 - 0x80) * 64 + (b2 - 0x80))%N
                   :: utf8_ignore r2
            else
              match r2 with
              | [] => []
              | b3 :: r3 =>
                if negb (is_cont b3) then utf8_ignore r2
                else ((b0 - 0xF0) * 262144 + (b1 - 0x80) * 4096
                      + (b2 - 0x80) * 64 + (b3 - 0x80))%N :: utf8_ignore r3
              end
          end
      end
  end.

Definition decode_utf8_ignore (b : list Byte.byte) : list N :=
  utf8_ignore (map Byte.to_N b).

(** [str.encode("utf-8")].  A lone surrogate cannot be encoded ([None]);
    code points above 0x10FFFF do not occur in a [str] and are refused
    too. *)
Definition byte_of_N (n : N) : Byte.byte :=
  match Byte.of_N n with Some b => b | None => Byte.x00 end.

Definition is_surrogate (c : N) : bool := ((0xD800 <=? c) && (c <=? 0xDFFF))%N.

Definition encode_char (c : N) : option (list Byte.byte) :=
  (if c <? 0x80 then Some [byte_of_N c]
   else if c <? 0x800
   then Some [byte_of_N (0xC0 + c / 64); byte_of_N (0x80 + c mod 64)]
   else if is_surrogate c then None
   else if c <? 0x10000
   then Some [byte_of_N (0xE0 + c / 4096); byte_of_N (0x80 + (c / 64) mod 64);
              byte_of_N (0x80 + c mod 64)]
   else if c <? 0x110000
   then Some [byte_of_N (0xF0 + c / 262144);
              byte_of_N (0x80 + (c / 4096) mod 64);
              byte_of_N (0x80 + (c / 64) mod 64);
              byte_of_N (0x80 + c mod 64)]
   else None)%N.

Fixpoint encode_utf8 (s : list N) : option (list Byte.byte) :=
  match s with
  | [] => Some []
  | c :: r =>
    match encode_char c, encode_utf8 r with
    | Some b, Some br => Some (b ++ br)
    | _, _ => None
    end
  end.

(** A string constant of the source. *)
Definition lit (s : string) : list N :=
  decode_utf8_ignore (list_byte_of_string s).

(** [str.lower()].  Only the letters A to Z are mapped here; every other
    code point is left as it is.  The tests the source makes on a lowered
    name compare it with [.pdf], [.docx], [.doc] and [.txt] and look for
    [.] and [/].  Outside A to Z, the only code points whose lower case has
    an ASCII character are U+0130 and U+212A, which give [i] and [k]: none
    of the characters those tests look for, so they see the same answer.
    The extension echoed in the text [Unsupported file type] is lowered the
    same way: for an extension with upper-case letters outside A to Z that
    text differs from the source's in those letters. *)
Definition lower_char (c : N) : N :=
  if ((65 <=? c) && (c <=? 90))%N then (c + 32)%N else c.

Definition lower (s : list N) : list N := map lower_char s.

(** [s.endswith(suffix)] and [s.endswith((suffix1, suffix2, ...))]. *)
Definition endswith (s suffix : list N) : bool :=
  bool_decide (drop (length s - length suffix) s = suffix).

Definition endswith_any (s : list N) (suffixes : list (list N)) : bool :=
  existsb (endswith s) suffixes.

(** [str.isspace()] of one character, which is also what [\s] matches. *)
Definition isspace (c : N) : bool :=
  (((9 <=? c) && (c <=? 13)) || ((28 <=? c) && (c <=? 32))
   || (c =? 133) || (c =? 160) || (c =? 5760)
   || ((8192 <=? c) && (c <=? 8202)) || (c =? 8232) || (c =? 8233)
   || (c =? 8239) || (c =? 8287) || (c =? 12288))%N.

(** [str.strip()]. *)
Fixpoint lstrip (s : list N) : list N :=
  match s with
  | [] => []
  | c :: r => if isspace c then lstrip r else s
  end.

Definition rstrip (s : list N) : list N := rev (lstrip (rev s)).

Definition strip (s : list N) : list N := rstrip (lstrip s).

(** [re.sub(r"[^\x20-\x7E\n\r\t]", " ", s)]. *)
Definition printable (c : N) : bool :=
  (((0x20 <=? c) && (c <=? 0x7E)) || (c =? 10) || (c =? 13) || (c =? 9))%N.

Definition sub_nonprintable (s : list N) : list N :=
  map (fun c => if printable c then c else 32%N) s.

(** [re.sub(r"\s+", " ", s)]: every maximal run of white space becomes one
    space.  [in_run] tells that the previous character was white space. *)
Fixpoint sub_spaces_from (in_run : bool) (s : list N) : list N :=
  match s with
  | [] => []
  | c :: r =>
    if isspace c
    then (if in_run then sub_spaces_from true r
          else 32%N :: sub_spaces_from true r)
    else c :: sub_spaces_from false r
  end.

Definition sub_spaces (s : list N) : list N := sub_spaces_from false s.

(** [sep.join(items)]. *)
Fixpoint join (sep : list N) (items : list (list N)) : list N :=
  match items with
  | [] => []
  | [x] => x
  | x :: rest => x ++ sep ++ join sep rest
  end.

(** [s.rfind(c)] for a one-character [c]: the last index, or -1. *)
Fixpoint rfind_from (c : N) (s : list N) (i : Z) (found : Z) : Z :=
  match s with
  | [] => found
  | x :: r => rfind_from c r (i + 1) (if (x =? c)%N then i else found)
  end.

Definition rfind (c : N) (s : list N) : Z := rfind_from c s 0 (-1).

(** [os.path.splitext] of [posixpath]: the extension starts at the last dot
    of the last path component, unless that component has only leading
    dots before it. *)
Definition dot : N := 46%N.
Definition slash : N := 47%N.

Definition splitext (p : list N) : list N * list N :=
  let sepIndex := rfind slash p in
  let dotIndex := rfind dot p in
  if (sepIndex <? dotIndex)%Z then
    let between :=
      take (Z.to_nat (dotIndex - (sepIndex + 1)))
           (drop (Z.to_nat (sepIndex + 1)) p) in
    if existsb (fun c => negb (c =? dot)%N) between
    then (take (Z.to_nat dotIndex) p, drop (Z.to_nat dotIndex) p)
    else (p, [])
  else (p, []).

(** [str(n)] for a natural number, and four lower-case hexadecimal
    digits. *)
Fixpoint digits_of (fuel : nat) (n : N) (acc : list N) : list N :=
  match fuel with
  | O => acc
  | S f =>
    let acc' := (48 + n mod 10)%N :: acc in
    if (n / 10 =? 0)%N then acc' else digits_of f (n / 10)%N acc'
  end.

Definition str_of_N (n : N) : list N :=
  digits_of (S (N.to_nat (N.log2 n))) n [].

Definition hex_digit (d : N) : N :=
  if (d <? 10)%N then (48 + d)%N else (87 + d)%N.

Definition hex4 (c : N) : list N :=
  [hex_digit ((c / 4096) mod 16); hex_digit ((c / 256) mod 16);
   hex_digit ((c / 16) mod 16); hex_digit (c mod 16)]%N.

(** [str(e)] of the [UnicodeEncodeError] raised by [s.encode("utf-8")]: it
    names the first run of surrogates of [s]. *)
Fixpoint surrogate_run (s : list N) : N :=
  match s with
  | c :: r => if is_surrogate c then (1 + surrogate_run r)%N else 0%N
  | [] => 0%N
  end.

Fixpoint encode_error_from (s : list N) (i : N) : list N :=
  match s with
  | [] => []
  | c :: r =>
    if is_surrogate c then
      let n := surrogate_run s in
      if (n =? 1)%N
      then lit "'utf-8' codec can't encode character '\u" ++ hex4 c
           ++ lit "' in position " ++ str_of_N i
           ++ lit ": surrogates not allowed"
      else lit "'utf-8' codec can't encode characters in position "
           ++ str_of_N i ++ [45%N] ++ str_of_N (i + n - 1)
           ++ lit ": surrogates not allowed"
    else encode_error_from r (i + 1)%N
  end.

Definition encode_error (s : list N) : list N := encode_error_from s 0%N.

End Py.

(** ** Values, dictionaries and the agent runtime *)

(** The values the source puts in its dictionaries. *)
Inductive value : Type :=
| VStr (s : list N)
| VInt (n : Z)
| VList (items : list (list N)).

#[global] Instance value_eq_dec : EqDecision value.
Proof. solve_decision. Defined.

Definition value_to_sum (v : value) : list N + (Z + list (list N)) :=
  match v with
  | VStr s => inl s
  | VInt n => inr (inl n)
  | VList l => inr (inr l)
  end.

Definition value_of_sum (x : list N + (Z + list (list N))) : value :=
  match x with
  | inl s => VStr s
  | inr (inl n) => VInt n
  | inr (inr l) => VList l
  end.

#[global] Instance value_countable : Countable value.
Proof.
  refine (inj_countable' value_to_sum value_of_sum _).
  intros []; reflexivity.
Defined.

(** A dictionary display [{k1: v1, k2: v2, ...}]. *)
Definition dict_of (items : list (string * value)) : gmap string value :=
  list_to_map items.

(** Messages of a thread: [msg.role] and [msg.content], a list whose items
    are text or something else. *)
Inductive MessageContent : Type :=
| MessageTextContent (text_value : list N)
| MessageImageFileContent (file_id : list N).

Record ThreadMessage : Type := {
  role : list N;
  content : list MessageContent
}.

(** The object [messages.list] returns.  Iterating it yields the messages
    in the order of the listing.  The source iterates it twice; an
    iterator object ([one_shot]) yields nothing the second time, a
    sequence yields the same messages again. *)
Record MessageListing : Type := {
  items : list ThreadMessage;
  one_shot : bool
}.

Definition first_pass (l : MessageListing) : list ThreadMessage := items l.

Definition second_pass (l : MessageListing) : list ThreadMessage :=
  if one_shot l then [] else items l.

Record AgentThread : Type := { thread_id : list N }.

Record ThreadRun : Type := {
  run_id : list N;
  status : list N;
  last_error : option (list N)
}.

(** The result of a call that may raise: the value, or [str(e)]. *)
Inductive result (A : Type) : Type :=
| Ok (a : A)
| Raise (msg : list N).
Arguments Ok {A} a.
Arguments Raise {A} msg.

(** What the agent runtime answers during one request.  The runtime is an
    external service: its answers are given, one per call the source
    makes; [runs_get k] is the answer to the status query number [k]. *)
Record Runtime : Type := {
  threads_create : result AgentThread;
  messages_create : result unit;
  runs_create : result ThreadRun;
  runs_get : nat -> result ThreadRun;
  messages_list : result MessageListing
}.

(** The two readings of [datetime.now()] a request can use. *)
Record Clock : Type := {
  isoformat : list N;
  strftime_ymd_hm : list N
}.

(** The effects of a request, as they happen. *)
Inductive event : Type :=
| FileSeek (pos : Z)
| FileRead
| ThreadsCreate
| MessagesCreate (thread role_ content_ : list N)
| RunsCreate (thread agent_id additional_instructions : list N)
| Sleep (seconds : Z)
| RunsGet (thread run : list N)
| MessagesList (thread : list N).

(** Whether an event is a call to the agent runtime. *)
Definition is_runtime_call (e : event) : bool :=
  match e with
  | ThreadsCreate | MessagesCreate _ _ _ | RunsCreate _ _ _
  | RunsGet _ _ | MessagesList _ => true
  | FileSeek _ | FileRead | Sleep _ => false
  end.

(** A computation: its outcome and the events it produced. *)
Definition M (A : Type) : Type := (result A * list event)%type.

Definition ret {A} (a : A) : M A := (Ok a, []).

Definition bind {A B} (m : M A) (k : A -> M B) : M B :=
  match m with
  | (Ok a, evs) => let (r, evs') := k a in (r, evs ++ evs')
  | (Raise e, evs) => (Raise e, evs)
  end.

(** An effect with a given outcome. *)
Definition call {A} (e : event) (r : result A) : M A := (r, [e]).

(** An expression that may raise, without effects. *)
Definition eval {A} (r : result A) : M A := (r, []).

(** [try: m  except Exception as e: handler(str(e))]. *)
Definition try_except {A} (m : M A) (handler : list N -> M A) : M A :=
  match m with
  | (Ok a, evs) => (Ok a, evs)
  | (Raise e, evs) => let (r, evs') := handler e in (r, evs ++ evs')
  end.

#[global] Instance M_ret : MRet M := @ret.
#[global] Instance M_bind : MBind M := fun A B k m => bind m k.

(** [[f(x) for x in xs]] where [f] may raise. *)
Fixpoint for_each {A B} (f : A -> result B) (xs : list A) : result (list B) :=
  match xs with
  | [] => Ok []
  | x :: rest =>
    match f x with
    | Raise e => Raise e
    | Ok y =>
      match for_each f rest with
      | Raise e => Raise e
      | Ok ys => Ok (y :: ys)
      end
    end
  end.

(** [msg.content[0].text.value]. *)
Definition content0_text_value (msg : ThreadMessage) : result (list N) :=
  match content msg with
  | [] => Raise (Py.lit "list index out of range")
  | MessageTextContent v :: _ => Ok v
  | MessageImageFileContent _ :: _ =>
    Raise (Py.lit "'MessageImageFileContent' object has no attribute 'text'")
  end.

Definition is_assistant (msg : ThreadMessage) : bool :=
  bool_decide (role msg = Py.lit "assistant").

(** [x in [a, b, ...]]. *)
Definition in_list (x : list N) (l : list (list N)) : bool :=
  bool_decide (x ∈ l).

(** ** [simple_sow_service.py] *)

Module SimpleSowService.

(** The constant parts of the [analysis_message] f-string: before
    [{filename}], between it and [{document_text}], and after. *)
Definition analysis_message_head : list N := Py.lit "
I need you to analyze this SOW document and generate a comprehensive Azure upselling proposal.

DOCUMENT: ".

Definition analysis_message_mid : list N := Py.lit "
EXTRACTED CONTENT:
".

Definition analysis_message_tail : list N := Py.lit "

Please execute the complete workflow:

1. **Document Analysis**: Extract and structure key information:
   - Project objectives and business requirements
   - Current technology stack and infrastructure
   - Timeline, budget, and resource constraints
   - Technical specifications and performance requirements
   - Integration needs and compliance requirements

2. **Azure Opportunity Identification**: Identify specific Azure services that match the requirements:
   - Azure App Service for web applications
   - Azure SQL Database/Cosmos DB for data storage
   - Azure AI services for document processing/ML needs
   - Azure DevOps for CI/CD and project management
   - Azure Security Center for compliance and security
   - Azure Monitor for observability
   - Consider cost optimization opportunities

3. **Business Case Development**: 
   - Calculate potential cost savings vs current state
   - ROI projections with realistic timelines
   - Competitive advantages of Azure ecosystem
   - Risk mitigation through Azure's enterprise features

4. **Executive Proposal**: Generate a comprehensive proposal with:

   📋 **EXECUTIVE SUMMARY**
   - 2-3 key business impacts and financial benefits
   - Top 3 Azure service recommendations
   - Overall ROI and cost savings projection

   🎯 **AZURE SERVICE RECOMMENDATIONS**
   - Specific Azure services with business justification
   - Technical implementation approach
   - Cost analysis (monthly/annual estimates)
   - Implementation timeline for each service

   📊 **FINANCIAL ANALYSIS**
   - Current state costs vs Azure costs
   - Monthly and annual savings projections
   - ROI calculation over 12-24 months
   - TCO comparison

   🚀 **IMPLEMENTATION ROADMAP**
   - Phase 1: Quick wins (0-3 months)
   - Phase 2: Core migration (3-6 months)
   - Phase 3: Advanced features (6-12 months)
   - Resource requirements and timeline

   📈 **BUSINESS BENEFITS**
   - Operational efficiency improvements
   - Scalability and performance gains
   - Security and compliance advantages
   - Innovation enablement opportunities

   ✅ **NEXT STEPS**
   - Immediate action items
   - Decision timeline
   - Required stakeholder engagement
   - Technical proof of concept recommendations

**IMPORTANT**: Use the o3-deep-research capabilities to provide thorough analysis with specific, quantified recommendations. Include realistic cost estimates, implementation timelines, and measurable business benefits.

Generate a complete executive-ready proposal that demonstrates clear value proposition for Azure adoption.
            ".

Definition additional_instructions : list N := Py.lit "Use your orchestration capabilities to coordinate with specialized agents and provide comprehensive Azure service recommendations with specific cost estimates and implementation details.".

Record SOWProposalService : Type := { orchestrator_agent_id : list N }.

(** [_extract_text_content].  Decoding with [errors="ignore"] and the two
    substitutions cannot raise, so the [except] branch of the source is
    never taken and the function returns the text. *)
Definition _extract_text_content
    (file_content : list Byte.byte) (filename : list N) : list N :=
  if Py.endswith (Py.lower filename) (Py.lit ".txt")
  then Py.decode_utf8_ignore file_content
  else
    let text_content := Py.decode_utf8_ignore file_content in
    let text_content :=
      if Py.endswith_any (Py.lower filename) [Py.lit ".doc"; Py.lit ".docx"]
      then Py.strip (Py.sub_spaces (Py.sub_nonprintable text_content))
      else text_content in
    take (N.to_nat 10000) text_content.

Definition analysis_message (filename document_text : list N) : list N :=
  analysis_message_head ++ filename ++ analysis_message_mid
    ++ document_text ++ analysis_message_tail.

Definition max_wait_time : Z := 300.

Definition polled_statuses : list (list N) :=
  [Py.lit "queued"; Py.lit "in_progress"; Py.lit "requires_action"].

Definition inspect {A : Type} (a : A) : {b : A | a = b} := exist _ a eq_refl.

(** The [while] loop of [_process_with_orchestrator]: [run] and [wait_time]
    are the loop variables, [polls] counts the status queries made so far.
    The result is the pair of [run] and [wait_time] at the exit. *)
Equations? poll_loop (rt : Runtime) (thread : list N) (run : ThreadRun)
    (wait_time : Z) (polls : nat) : M (ThreadRun * Z)
    by wf (Z.to_nat (max_wait_time - wait_time)) lt :=
poll_loop rt thread run wait_time polls
  with inspect (in_list (status run) polled_statuses
                && (wait_time <? max_wait_time)%Z) := {
  | exist _ true _ =>
    call (Sleep 10) (Ok tt) ;;
    run' ← call (RunsGet thread (run_id run)) (runs_get rt polls);
    poll_loop rt thread run' (wait_time + 10)%Z (S polls)
  | exist _ false _ => mret (run, wait_time) }.
Proof.
  apply andb_true_iff in e as [_ e]. apply Z.ltb_lt in e. lia.
Qed.

(** One entry of [debug_messages]. *)
Definition debug_message (msg : ThreadMessage) : result (list N) :=
  match content0_text_value msg with
  | Raise e => Raise e
  | Ok v => Ok (role msg ++ Py.lit ": " ++ take 100 v ++ Py.lit "...")
  end.

Definition failure_message (run : ThreadRun) (wait_time : Z) : list N :=
  let error_msg := Py.lit "GPT-4o processing failed with status: " ++ status run in
  match last_error run with
  | Some e => error_msg ++ Py.lit " - " ++ e
  | None =>
    if (max_wait_time <=? wait_time)%Z
    then error_msg ++ Py.lit " - Processing timeout (5 minutes exceeded)"
    else error_msg
  end.

Definition _process_with_orchestrator (self : SOWProposalService)
    (rt : Runtime) (now : Clock)
    (file_content : list Byte.byte) (filename : list N)
    : M (gmap string value) :=
  try_except
    (let document_text := _extract_text_content file_content filename in
     thread ← call ThreadsCreate (threads_create rt);
     call (MessagesCreate (thread_id thread) (Py.lit "user")
             (analysis_message filename document_text))
          (messages_create rt) ;;
     run ← call (RunsCreate (thread_id thread) (orchestrator_agent_id self)
                   additional_instructions)
                (runs_create rt);
     '(run, wait_time) ← poll_loop rt (thread_id thread) run 0 0;
     if bool_decide (status run = Py.lit "completed") then
       messages ← call (MessagesList (thread_id thread)) (messages_list rt);
       match find is_assistant (rev (first_pass messages)) with
       | None =>
         debug_messages ←
           eval (for_each debug_message (second_pass messages));
         mret (dict_of
           [("status", VStr (Py.lit "error"));
            ("error", VStr (Py.lit "No assistant response found in thread"));
            ("debug_messages", VList debug_messages)])
       | Some proposal_message =>
         proposal_text ← eval (content0_text_value proposal_message);
         mret (dict_of
           [("status", VStr (Py.lit "success"));
            ("proposal", VStr proposal_text);
            ("thread_id", VStr (thread_id thread));
            ("processing_time", VInt wait_time);
            ("timestamp", VStr (isoformat now));
            ("agent_used", VStr (Py.lit "orchestrator_gpt4o"));
            ("model_used", VStr (Py.lit "gpt-4o"));
            ("filename", VStr filename);
            ("document_length", VInt (Z.of_nat (length document_text)))])
       end
     else
       mret (dict_of
         [("status", VStr (Py.lit "error"));
          ("error", VStr (failure_message run wait_time));
          ("processing_time", VInt wait_time);
          ("run_status", VStr (status run));
          ("model_used", VStr (Py.lit "gpt-4o"))]))
    (fun e => mret (dict_of
       [("status", VStr (Py.lit "error"));
        ("error", VStr (Py.lit "Orchestrator processing failed: " ++ e))])).

Definition process_sow_document (self : SOWProposalService)
    (rt : Runtime) (now : Clock)
    (file_content : list Byte.byte) (filename : list N)
    : M (gmap string value) :=
  try_except
    (_process_with_orchestrator self rt now file_content filename)
    (fun e => mret (dict_of
       [("status", VStr (Py.lit "error"));
        ("error", VStr (Py.lit "Processing failed: " ++ e));
        ("timestamp", VStr (isoformat now))])).

(** The constant parts of the proposal f-string of the mock service: before
    [{filename}], between it and the formatted date, and after. *)
Definition mock_proposal_head : list N := Py.lit "📋 COMPREHENSIVE AZURE UPSELLING PROPOSAL - o3 DEEP RESEARCH ANALYSIS

Document Analyzed: ".

Definition mock_proposal_mid : list N := Py.lit "
Analysis Date: ".

Definition mock_proposal_tail : list N := Py.lit "
Model: o3-deep-research
Analysis Depth: Comprehensive Enterprise Assessment

📋 EXECUTIVE SUMMARY

Based on comprehensive analysis using o3-deep-research capabilities, we've identified transformational Azure opportunities with projected annual savings of $420,000 (38% cost reduction) and operational efficiency improvements of 65%.

Strategic Recommendations:
• Complete infrastructure modernization to Azure - $25K/month savings
• AI-powered document processing pipeline - 85% automation increase  
• Enterprise-grade security and compliance - Risk mitigation worth $2M annually
• DevOps transformation - 10x faster delivery cycles

Total Investment: $180,000 | 24-Month ROI: 340% | Payback Period: 8 months

🎯 TOP AZURE SERVICE RECOMMENDATIONS

1. **AZURE APP SERVICE + CONTAINER APPS**
   Business Impact: $300K annual infrastructure savings, 99.99% SLA
   Technical Benefits: Auto-scaling, zero-downtime deployments, integrated CI/CD
   Monthly Cost: $4,200 (vs current $12,500)
   Implementation: 8 weeks
   Risk Level: Low

2. **AZURE COGNITIVE SERVICES + DOCUMENT INTELLIGENCE**
   Business Impact: Process 2,000 documents/day vs current 100/day capacity
   ROI: $180K annually from labor cost savings
   Technical Benefits: 95% accuracy, multi-format support, custom models
   Monthly Cost: $1,800
   Implementation: 6 weeks
   Risk Level: Low

3. **AZURE SYNAPSE ANALYTICS + POWER BI**
   Business Impact: Real-time insights, 75% faster reporting
   ROI: $120K annually from improved decision making
   Technical Benefits: Unified analytics, AI integration, enterprise scale
   Monthly Cost: $3,500
   Implementation: 12 weeks
   Risk Level: Medium

4. **AZURE SECURITY CENTER + SENTINEL**
   Business Impact: Enterprise security posture, compliance automation
   Risk Mitigation: Potential breach cost avoidance ($2M average)
   Technical Benefits: AI-powered threat detection, automated response
   Monthly Cost: $2,200
   Implementation: 6 weeks
   Risk Level: Low

5. **AZURE DEVOPS + GITHUB ENTERPRISE**
   Business Impact: 10x faster deployment cycles (2 weeks → 2 hours)
   Productivity Gain: 40% developer efficiency improvement
   Technical Benefits: End-to-end automation, integrated security scanning
   Monthly Cost: $1,200
   Implementation: 4 weeks
   Risk Level: Low

📊 COMPREHENSIVE FINANCIAL ANALYSIS

Current State Costs (Annual):
- Infrastructure & Hosting: $150,000
- Manual Processing Labor: $240,000  
- Security & Compliance: $80,000
- Development & Operations: $180,000
- TOTAL: $650,000

Proposed Azure Solution (Annual):
- Azure Services: $156,000
- Implementation & Training: $60,000 (one-time)
- Ongoing Support: $14,000
- TOTAL: $230,000 (Year 1: $290,000)

Financial Benefits:
- Year 1 Net Savings: $360,000
- Year 2+ Annual Savings: $420,000
- 24-Month ROI: 340%
- Break-even Point: 8 months

🚀 PHASED IMPLEMENTATION ROADMAP

**PHASE 1: FOUNDATION (Months 1-3)**
- Azure App Service migration
- Basic security implementation
- Cost Optimization: $8K/month immediate savings
- Resources: 2 cloud architects, 3 developers

**PHASE 2: INTELLIGENCE (Months 4-6)**  
- Document Intelligence deployment
- Power BI analytics implementation
- Productivity Gains: 40% process automation
- Resources: 1 AI specialist, 2 analysts

**PHASE 3: OPTIMIZATION (Months 7-12)**
- Advanced security features
- DevOps transformation
- Performance Gains: 65% overall efficiency improvement
- Resources: 1 DevOps engineer, ongoing support

📈 QUANTIFIED BUSINESS BENEFITS

Operational Efficiency:
- Document processing: 85% reduction in manual effort
- Deployment cycles: 95% time reduction
- System uptime: 99.99% SLA vs current 98%
- Security incidents: 90% reduction through AI monitoring

Strategic Advantages:
- Scalability: Handle 500% growth without infrastructure investment
- Innovation: AI/ML capabilities enable new product features
- Compliance: Automated compliance reporting saves 200 hours/month
- Talent: Access to Azure's extensive developer ecosystem

Competitive Position:
- Market responsiveness: 10x faster feature delivery
- Data insights: Real-time analytics vs quarterly reports
- Cost structure: 38% lower operational costs than competitors
- Risk profile: Enterprise-grade security and disaster recovery

✅ IMMEDIATE NEXT STEPS

1. **Executive Decision (Week 1)**
   - Present proposal to C-suite
   - Secure $290K Year 1 budget approval
   - Designate internal Azure champion

2. **Technical Validation (Weeks 2-4)**
   - Azure architecture review workshop
   - Proof-of-concept deployment
   - Performance benchmarking

3. **Implementation Planning (Weeks 5-8)**
   - Detailed migration planning
   - Team training program
   - Vendor partnerships and support agreements

4. **Phase 1 Kickoff (Month 2)**
   - Project team assignment
   - Azure environment provisioning
   - Migration execution begins

🎯 DECISION FRAMEWORK

This proposal provides a comprehensive pathway to Azure transformation with quantified benefits and realistic implementation timelines. The combination of immediate cost savings, operational improvements, and strategic capabilities positions your organization for sustained competitive advantage.

**Recommendation**: Proceed with Executive Decision phase immediately to capitalize on identified opportunities and begin realizing benefits within 60 days.

*This analysis leverages o3-deep-research capabilities for comprehensive assessment of technical and business factors.*
            ".

(** [MockSOWService.process_sow_document]. *)
Definition mock_process_sow_document (now : Clock)
    (file_content : list Byte.byte) (filename : list N)
    : M (gmap string value) :=
  call (Sleep 8) (Ok tt) ;;
  mret (dict_of
    [("status", VStr (Py.lit "success"));
     ("proposal", VStr (mock_proposal_head ++ filename ++ mock_proposal_mid
                        ++ strftime_ymd_hm now ++ mock_proposal_tail));
     ("thread_id", VStr (Py.lit "mock-o3-123"));
     ("processing_time", VInt 8);
     ("timestamp", VStr (isoformat now));
     ("agent_used", VStr (Py.lit "mock_o3"));
     ("model_used", VStr (Py.lit "o3-deep-research"));
     ("filename", VStr filename);
     ("document_length", VInt (Z.of_nat (length file_content)))]).

End SimpleSowService.

(** ** [sow_service.py]: the branch taken when the run is completed *)

Module SowService.

(** [next(msg for msg in messages if msg.role == "assistant")]; without a
    match [next] raises [StopIteration], whose [str] is empty. *)
Definition next_assistant (messages : list ThreadMessage)
    : result ThreadMessage :=
  match find is_assistant messages with
  | Some msg => Ok msg
  | None => Raise []
  end.

(** The [if run.status == "completed"] branch of
    [_process_with_orchestrator], under the [except Exception] of that
    function. *)
Definition completed_branch (rt : Runtime) (now : Clock)
    (thread file_id : list N) (wait_time : Z) : M (gmap string value) :=
  try_except
    (messages ← call (MessagesList thread) (messages_list rt);
     proposal_message ← eval (next_assistant (first_pass messages));
     proposal_text ← eval (content0_text_value proposal_message);
     mret (dict_of
       [("status", VStr (Py.lit "success"));
        ("proposal", VStr proposal_text);
        ("thread_id", VStr thread);
        ("file_id", VStr file_id);
        ("processing_time", VInt wait_time);
        ("timestamp", VStr (isoformat now));
        ("agent_used", VStr (Py.lit "orchestrator"))]))
    (fun e => mret (dict_of
       [("status", VStr (Py.lit "error"));
        ("error", VStr (Py.lit "Orchestrator processing failed: " ++ e))])).

End SowService.

(** ** [app.py] *)

Module App.

(** [sow_service]: an instance of one of the two service classes. *)
Inductive Service : Type :=
| UseSOWProposalService (self : SimpleSowService.SOWProposalService)
| UseMockSOWService.

Definition isinstance_MockSOWService (sow_service : Service) : bool :=
  match sow_service with
  | UseMockSOWService => true
  | UseSOWProposalService _ => false
  end.

Definition process_sow_document (sow_service : Service)
    (rt : Runtime) (now : Clock)
    (file_content : list Byte.byte) (filename : list N)
    : M (gmap string value) :=
  match sow_service with
  | UseSOWProposalService self =>
    SimpleSowService.process_sow_document self rt now file_content filename
  | UseMockSOWService =>
    SimpleSowService.mock_process_sow_document now file_content filename
  end.

(** An uploaded file: [file.filename] (possibly [None]) and the bytes of
    its stream. *)
Record FileStorage : Type := {
  filename : option (list N);
  stream : list Byte.byte
}.

(** [request.files], by form field. *)
Record Request : Type := { files : gmap string FileStorage }.

(** [jsonify(body), status_code]. *)
Record Response : Type := {
  body : gmap string value;
  status_code : Z
}.

(** The dictionary stored under a thread id. *)
Record ProposalData : Type := {
  proposal : value;
  proposal_filename : list N;
  timestamp : value
}.

(** The set [allowed_extensions].  Python iterates a set in an order that is
    not fixed; [elements] stands for that order in the error message. *)
Definition allowed_extensions : gset (list N) :=
  {[ Py.lit ".pdf"; Py.lit ".docx"; Py.lit ".doc"; Py.lit ".txt" ]}.

Definition error_payload (msg : list N) : gmap string value :=
  dict_of [("status", VStr (Py.lit "error")); ("error", VStr msg)].

(** [result["proposal"]]. *)
Definition getitem (d : gmap string value) (key : string) : result value :=
  match d !! key with
  | Some v => Ok v
  | None => Raise (Py.lit "'" ++ Py.lit key ++ Py.lit "'")
  end.

(** Use of a value as a dictionary key: a list is not hashable. *)
Definition hashable (v : value) : result value :=
  match v with
  | VList _ => Raise (Py.lit "unhashable type: 'list'")
  | _ => Ok v
  end.

(** [process_sow].  The second component of the result is
    [proposals_storage] after the request. *)
Definition process_sow (sow_service : Service) (rt : Runtime) (now : Clock)
    (request : Request) (proposals_storage : gmap value ProposalData)
    : M (Response * gmap value ProposalData) :=
  try_except
    (match files request !! "file" with
     | None =>
       mret ({| body := error_payload (Py.lit "No file uploaded");
                status_code := 400 |}, proposals_storage)
     | Some file =>
       match filename file with
       | None | Some [] =>
         mret ({| body := error_payload (Py.lit "No file selected");
                  status_code := 400 |}, proposals_storage)
       | Some name =>
         let file_extension := (Py.splitext (Py.lower name)).2 in
         if bool_decide (file_extension ∉ allowed_extensions) then
           mret ({| body := error_payload
                      (Py.lit "Unsupported file type: " ++ file_extension
                       ++ Py.lit ". Supported: "
                       ++ Py.join (Py.lit ", ") (elements allowed_extensions));
                    status_code := 400 |}, proposals_storage)
         else
           call (FileSeek 0) (Ok tt) ;;
           file_content ← call FileRead (Ok (stream file));
           if bool_decide (length file_content = 0%nat) then
             mret ({| body := error_payload (Py.lit "File is empty");
                      status_code := 400 |}, proposals_storage)
           else
             result ← process_sow_document sow_service rt now
                        file_content name;
             storage ←
               (if bool_decide (result !! "status"
                                = Some (VStr (Py.lit "success")))
                   && bool_decide (is_Some (result !! "thread_id"))
                then
                  proposal_text ← eval (getitem result "proposal");
                  key ← eval (match result !! "thread_id" with
                              | Some v => hashable v
                              | None => Raise (Py.lit "'thread_id'")
                              end);
                  mret (<[key :=
                          {| proposal := proposal_text;
                             proposal_filename := name;
                             timestamp :=
                               default (VStr (isoformat now))
                                       (result !! "timestamp") |}]>
                        proposals_storage)
                else mret proposals_storage);
             mret ({| body := result; status_code := 200 |}, storage)
       end
     end)
    (fun e =>
       mret ({| body := error_payload (Py.lit "Server error: " ++ e);
                status_code := 500 |}, proposals_storage)).

(** [process_sow] for an incoming request.  [request.files] is parsed when
    it is first read, which [process_sow] does inside its [try]: the parsing
    raises for a body larger than [MAX_CONTENT_LENGTH] or a form that
    cannot be read, and the [except] of [process_sow] answers it.
    [incoming] is the outcome of that parsing. *)
Definition process_sow_incoming (sow_service : Service) (rt : Runtime)
    (now : Clock) (incoming : result Request)
    (proposals_storage : gmap value ProposalData)
    : M (Response * gmap value ProposalData) :=
  try_except
    (request ← eval incoming;
     process_sow sow_service rt now request proposals_storage)
    (fun e =>
       mret ({| body := error_payload (Py.lit "Server error: " ++ e);
                status_code := 500 |}, proposals_storage)).

(** What [download_proposal] returns: a JSON error, or the file sent. *)
Inductive DownloadResponse : Type :=
| JsonResponse (body : gmap string value) (status_code : Z)
| SendFile (data : list Byte.byte) (as_attachment : bool)
           (download_name mimetype : list N).

Section Download.

(** [str.isalnum()] of one character, given by the Unicode tables. *)
Variable isalnum : N -> bool.

Definition safe_filename (name : list N) : list N :=
  Py.rstrip
    (filter (fun c => isalnum c || bool_decide (c ∈ [32%N; 45%N; 95%N])) name).

(** [output.write(x)] of [io.StringIO] followed by [getvalue()]. *)
Definition written (v : value) : result (list N) :=
  match v with
  | VStr s => Ok s
  | VInt _ => Raise (Py.lit "string argument expected, got 'int'")
  | VList _ => Raise (Py.lit "string argument expected, got 'list'")
  end.

Definition encode (s : list N) : result (list Byte.byte) :=
  match Py.encode_utf8 s with
  | Some b => Ok b
  | None => Raise (Py.encode_error s)
  end.

(** [download_proposal].  It only reads [proposals_storage]. *)
Definition download_proposal (thread : list N)
    (proposals_storage : gmap value ProposalData) : DownloadResponse :=
  match proposals_storage !! VStr thread with
  | None =>
    JsonResponse (dict_of [("error", VStr (Py.lit "Proposal not found"))]) 404
  | Some proposal_data =>
    match written (proposal proposal_data) with
    | Raise e => JsonResponse (dict_of [("error", VStr e)]) 500
    | Ok text =>
      let download_filename :=
        Py.lit "Azure-Proposal-"
        ++ safe_filename (proposal_filename proposal_data)
        ++ Py.lit ".txt" in
      match encode text with
      | Raise e => JsonResponse (dict_of [("error", VStr e)]) 500
      | Ok data => SendFile data true download_filename (Py.lit "text/plain")
      end
    end
  end.

End Download.

(** [get_stats]. *)
Definition get_stats (sow_service : Service)
    (proposals_storage : gmap value ProposalData) : gmap string value :=
  dict_of
    [("proposals_generated", VInt (Z.of_nat (size proposals_storage)));
     ("service_type",
      VStr (if isinstance_MockSOWService sow_service
            then Py.lit "mock" else Py.lit "azure"));
     ("uptime", VStr (Py.lit "running"))].

End App.

(** ** Vocabulary of the statements *)

Definition success : value := VStr (Py.lit "success").
Definition error : value := VStr (Py.lit "error").

(** [needle in hay]. *)
Definition contains (needle hay : list N) : Prop :=
  ∃ before after, hay = before ++ needle ++ after.

(** The events of a run of the polling loop that queried the runs [ids]. *)
Definition poll_events (thread : list N) (ids : list (list N)) : list event :=
  flat_map (fun id => [Sleep 10; RunsGet thread id]) ids.

(** The answer to a status query shows a run the loop keeps waiting for. *)
Definition polling (r : result ThreadRun) : Prop :=
  ∃ run, r = Ok run ∧ in_list (status run) SimpleSowService.polled_statuses = true.

Definition not_assistant (msg : ThreadMessage) : Prop :=
  is_assistant msg = false.

(** The entry of [debug_messages] for a message whose text is [text]. *)
Definition preview (msg : ThreadMessage) (text : list N) : list N :=
  role msg ++ Py.lit ": " ++ take 100 text ++ Py.lit "...".

(** The [proposal] of the dictionary a computation returns. *)
Definition proposal_of (m : M (gmap string value)) : option value :=
  match m.1 with
  | Ok d => d !! "proposal"
  | Raise _ => None
  end.

(** The contents of the messages sent to the runtime. *)
Definition sent_contents (evs : list event) : list (list N) :=
  omap (λ e, match e with MessagesCreate _ _ c => Some c | _ => None end) evs.

(** The error response of the façade. *)
Definition rejected (msg : list N) (code : Z) : App.Response :=
  {| App.body := App.error_payload msg; App.status_code := code |}.

Definition unsupported_message (file_extension : list N) : list N :=
  Py.lit "Unsupported file type: " ++ file_extension
  ++ Py.lit ". Supported: "
  ++ Py.join (Py.lit ", ") (elements App.allowed_extensions).

(** The job id of a response that reports a success. *)
Definition job_id_of (resp : App.Response) : option value :=
  if bool_decide (App.body resp !! "status" = Some success)
  then App.body resp !! "thread_id" else None.

(** What a request does to [proposals_storage]: it stores the proposal of a
    successful response under its thread id, or leaves the storage as it
    was. *)
Inductive effect_on_storage (storage : gmap value App.ProposalData)
    (resp : App.Response) (storage' : gmap value App.ProposalData) : Prop :=
| stored (tid text : list N) (data : App.ProposalData) :
    App.body resp !! "status" = Some success →
    App.body resp !! "thread_id" = Some (VStr tid) →
    App.body resp !! "proposal" = Some (VStr text) →
    App.proposal data = VStr text →
    storage' = <[VStr tid := data]> storage →
    effect_on_storage storage resp storage'
| untouched :
    App.body resp !! "status" = Some error →
    storage' = storage →
    effect_on_storage storage resp storage'.

(** A sequence of uploads, each with the answers of the runtime and the
    clock of its request, served one after the other. *)
Fixpoint serve (svc : App.Service)
    (requests : list (Runtime * Clock * App.Request))
    (storage : gmap value App.ProposalData)
    : list App.Response * gmap value App.ProposalData :=
  match requests with
  | [] => ([], storage)
  | (rt, now, request) :: rest =>
    match (App.process_sow svc rt now request storage).1 with
    | Ok (resp, storage') =>
      let (resps, final) := serve svc rest storage' in (resp :: resps, final)
    | Raise _ => serve svc rest storage
    end
  end.

(** ** Sample inputs *)

Module Example.

Definition clock0 : Clock :=
  {| isoformat := Py.lit "2025-01-01T00:00:00";
     strftime_ymd_hm := Py.lit "2025-01-01 00:00" |}.

Definition service0 : SimpleSowService.SOWProposalService :=
  {| SimpleSowService.orchestrator_agent_id := Py.lit "asst_1" |}.

Definition thread0 : AgentThread := {| thread_id := Py.lit "thread_1" |}.

Definition run_with (s : string) : ThreadRun :=
  {| run_id := Py.lit "run_1"; status := Py.lit s; last_error := None |}.

Definition message (r text : string) : ThreadMessage :=
  {| role := Py.lit r; content := [MessageTextContent (Py.lit text)] |}.

(** A runtime whose run is completed at once, with a given listing of
    messages. *)
Definition rt_completed (msgs : list ThreadMessage) : Runtime :=
  {| threads_create := Ok thread0;
     messages_create := Ok tt;
     runs_create := Ok (run_with "completed");
     runs_get := λ _, Ok (run_with "completed");
     messages_list := Ok {| items := msgs; one_shot := false |} |}.

(** The same, for a thread with another id. *)
Definition rt_completed_in (tid : string) (msgs : list ThreadMessage)
    : Runtime :=
  {| threads_create := Ok {| thread_id := Py.lit tid |};
     messages_create := Ok tt;
     runs_create := Ok (run_with "completed");
     runs_get := λ _, Ok (run_with "completed");
     messages_list := Ok {| items := msgs; one_shot := false |} |}.

(** A runtime whose run never leaves [queued]. *)
Definition rt_queued : Runtime :=
  {| threads_create := Ok thread0;
     messages_create := Ok tt;
     runs_create := Ok (run_with "queued");
     runs_get := λ _, Ok (run_with "queued");
     messages_list := Raise [] |}.

Definition upload (name : string) (data : list Byte.byte) : App.Request :=
  {| App.files := {[ "file" := {| App.filename := Some (Py.lit name);
                                 App.stream := data |} ]} |}.

Definition ten_bytes : list Byte.byte := repeat Byte.x61 10.

Definition long_text : list Byte.byte := repeat Byte.x61 (N.to_nat 10001).

Definition two_replies : list ThreadMessage :=
  [message "user" "request"; message "assistant" "first";
   message "assistant" "second"].

Definition no_reply : list ThreadMessage := [message "user" "request"].

(** [str.isalnum] on the letters and digits of ASCII. *)
Definition ascii_isalnum (c : N) : bool :=
  (((48 <=? c) && (c <=? 57)) || ((65 <=? c) && (c <=? 90))
   || ((97 <=? c) && (c <=? 122)))%N.

End Example.

(** ** [sow_service.py]: [_process_with_orchestrator] and
    [process_sow_document] *)

Module SowServiceFull.

(** The calls of this service: to the agent runtime, under the names of
    the client it uses, to the temporary file, and [asyncio.sleep]. *)
Inductive call_event : Type :=
| CreateThread
| TempFileCreate (suffix : list N)
| TempFileWrite (path : list N) (data : list Byte.byte)
| UploadFile (file_path purpose : list N)
| CreateMessage (thread role_ content_ : list N) (file_ids : list (list N))
| CreateRun (thread : list N) (agent_id : option (list N))
| AsyncSleep (seconds : Z)
| GetRun (thread run : list N)
| ListMessages (thread : list N)
| Unlink (path : list N).

(** What the host answers for the temporary file and for the upload:
    the name of the file [NamedTemporaryFile] creates, the outcome of
    writing to it, the id of the uploaded file, the outcome of
    [os.unlink].  The other calls are answered by the [Runtime] of the
    request: [threads_create] answers [create_thread], [messages_create]
    answers [create_message], [runs_create] answers [create_run],
    [runs_get k] answers the call number [k] of [get_run] and
    [messages_list] answers [list_messages]. *)
Record Host : Type := {
  temp_file : result (list N);
  temp_write : result unit;
  upload_file : result (list N);
  unlink : result unit
}.

(** A computation of this service: its outcome and its calls, in order. *)
Definition IO (A : Type) : Type := (result A * list call_event)%type.

Definition io_ret {A} (a : A) : IO A := (Ok a, []).

Definition io_bind {A B} (m : IO A) (k : A -> IO B) : IO B :=
  match m with
  | (Ok a, evs) => let (r, evs') := k a in (r, evs ++ evs')
  | (Raise e, evs) => (Raise e, evs)
  end.

#[global] Instance IO_ret : MRet IO := @io_ret.
#[global] Instance IO_bind : MBind IO := fun A B k m => io_bind m k.

Definition io_call {A} (e : call_event) (r : result A) : IO A := (r, [e]).

Definition io_eval {A} (r : result A) : IO A := (r, []).

(** [try: m  except Exception as e: handler(str(e))]. *)
Definition io_try_except {A} (m : IO A) (handler : list N -> IO A) : IO A :=
  match m with
  | (Ok a, evs) => (Ok a, evs)
  | (Raise e, evs) => let (r, evs') := handler e in (r, evs ++ evs')
  end.

(** [try: m  finally: final].  The final part runs after [m] whether [m]
    returned or raised; when it raises, its exception is the outcome. *)
Definition io_try_finally {A} (m : IO A) (final : IO unit) : IO A :=
  match m, final with
  | (r, evs), (Ok _, evs') => (r, evs ++ evs')
  | (_, evs), (Raise e, evs') => (Raise e, evs ++ evs')
  end.

(** [self.orchestrator_agent_id] is [os.environ.get(...)]: it may be
    [None]. *)
Record SOWProposalService : Type := {
  orchestrator_agent_id : option (list N)
}.

(** The constant parts of the [analysis_message] f-string: before and
    after [{filename}].  The quotation marks of the text are written as the
    code point 34. *)
Definition analysis_message_head : list N := Py.lit "
Please analyze the uploaded SOW document (".

Definition analysis_message_tail : list N :=
  Py.lit ") and generate a comprehensive "
  ++ [34%N]
  ++ Py.lit "Next Step Proposal"
  ++ [34%N]
  ++ Py.lit " with Azure upselling opportunities.

Execute the complete workflow:

1. **Document Analysis**: Extract and structure all key information from the SOW
2. **Opportunity Identification**: Identify prioritized Azure service opportunities  
3. **Market Intelligence**: Apply Azure competitive advantages and best practices
4. **Proposal Generation**: Create executive-ready proposal with ROI analysis

Focus on:
- Clear business value and ROI quantification
- Realistic implementation timelines
- Azure's competitive advantages
- Executive-level recommendations with concrete next steps

Deliver a complete "
  ++ [34%N]
  ++ Py.lit "Next Step Proposal"
  ++ [34%N]
  ++ Py.lit " ready for executive review.
                ".

Definition analysis_message (filename : list N) : list N :=
  analysis_message_head ++ filename ++ analysis_message_tail.

Definition max_wait_time : Z := 600.

Definition polled_statuses : list (list N) :=
  [Py.lit "queued"; Py.lit "in_progress"].

(** The [while] loop of [_process_with_orchestrator]. *)
Equations? poll_loop (rt : Runtime) (thread : list N) (run : ThreadRun)
    (wait_time : Z) (polls : nat) : IO (ThreadRun * Z)
    by wf (Z.to_nat (max_wait_time - wait_time)) lt :=
poll_loop rt thread run wait_time polls
  with SimpleSowService.inspect
         (in_list (status run) polled_statuses
          && (wait_time <? max_wait_time)%Z) := {
  | exist _ true _ =>
    io_call (AsyncSleep 10) (Ok tt) ;;
    run' ← io_call (GetRun thread (run_id run)) (runs_get rt polls);
    poll_loop rt thread run' (wait_time + 10)%Z (S polls)
  | exist _ false _ => mret (run, wait_time) }.
Proof.
  apply andb_true_iff in e as [_ e]. apply Z.ltb_lt in e. lia.
Qed.

Definition failure_message (run : ThreadRun) (wait_time : Z) : list N :=
  let error_msg := Py.lit "Processing failed with status: " ++ status run in
  match last_error run with
  | Some e => error_msg ++ Py.lit " - " ++ e
  | None =>
    if (max_wait_time <=? wait_time)%Z
    then error_msg ++ Py.lit " - Processing timeout (10 minutes exceeded)"
    else error_msg
  end.

(** The part of [_process_with_orchestrator] under [try ... finally]: from
    the upload of the file to the returned dictionary. *)
Definition with_temp_file (self : SOWProposalService) (rt : Runtime)
    (host : Host) (now : Clock) (thread : AgentThread)
    (temp_file_path filename : list N) : IO (gmap string value) :=
  uploaded_file ← io_call (UploadFile temp_file_path (Py.lit "assistants"))
                    (upload_file host);
  io_call (CreateMessage (thread_id thread) (Py.lit "user")
             (analysis_message filename) [uploaded_file])
          (messages_create rt) ;;
  run ← io_call (CreateRun (thread_id thread) (orchestrator_agent_id self))
          (runs_create rt);
  '(run, wait_time) ← poll_loop rt (thread_id thread) run 0 0;
  if bool_decide (status run = Py.lit "completed") then
    messages ← io_call (ListMessages (thread_id thread)) (messages_list rt);
    proposal_message ← io_eval (SowService.next_assistant (first_pass messages));
    proposal_text ← io_eval (content0_text_value proposal_message);
    mret (dict_of
      [("status", VStr (Py.lit "success"));
       ("proposal", VStr proposal_text);
       ("thread_id", VStr (thread_id thread));
       ("file_id", VStr uploaded_file);
       ("processing_time", VInt wait_time);
       ("timestamp", VStr (isoformat now));
       ("agent_used", VStr (Py.lit "orchestrator"))])
  else
    mret (dict_of
      [("status", VStr (Py.lit "error"));
       ("error", VStr (failure_message run wait_time));
       ("processing_time", VInt wait_time)]).

Definition _process_with_orchestrator (self : SOWProposalService)
    (rt : Runtime) (host : Host) (now : Clock)
    (file_content : list Byte.byte) (filename : list N)
    : IO (gmap string value) :=
  io_try_except
    (thread ← io_call CreateThread (threads_create rt);
     temp_file_path ←
       (path ← io_call (TempFileCreate (Py.lit "_" ++ filename))
                 (temp_file host);
        io_call (TempFileWrite path file_content) (temp_write host) ;;
        mret path);
     io_try_finally
       (with_temp_file self rt host now thread temp_file_path filename)
       (io_call (Unlink temp_file_path) (unlink host)))
    (fun e => mret (dict_of
       [("status", VStr (Py.lit "error"));
        ("error", VStr (Py.lit "Orchestrator processing failed: " ++ e))])).

Definition process_sow_document (self : SOWProposalService)
    (rt : Runtime) (host : Host) (now : Clock)
    (file_content : list Byte.byte) (filename : list N)
    : IO (gmap string value) :=
  io_try_except
    (_process_with_orchestrator self rt host now file_content filename)
    (fun e => mret (dict_of
       [("status", VStr (Py.lit "error"));
        ("error", VStr (Py.lit "Processing failed: " ++ e));
        ("timestamp", VStr (isoformat now))])).

End SowServiceFull.

(** ** [app.py]: the choice of the service and the health check *)

Module Startup.

(** The truth value of [os.environ.get(name)]: set and not empty. *)
Definition is_set (v : option (list N)) : bool :=
  match v with
  | Some (_ :: _) => true
  | _ => false
  end.

(** [SOWProposalService.__init__] of [simple_sow_service.py].  [client] is
    the outcome of building [AIProjectClient] with its credential. *)
Definition SOWProposalService_init (environ : gmap string (list N))
    (client : result unit) : result SimpleSowService.SOWProposalService :=
  match client with
  | Raise e => Raise e
  | Ok _ =>
    match environ !! "ORCHESTRATOR_AGENT_ID" with
    | Some (c :: id) =>
      Ok {| SimpleSowService.orchestrator_agent_id := c :: id |}
    | _ =>
      Raise (Py.lit "ORCHESTRATOR_AGENT_ID not found in environment variables")
    end
  end.

(** The assignment of [sow_service] when [app.py] is loaded. *)
Definition sow_service (environ : gmap string (list N))
    (client : result unit) : App.Service :=
  let chosen :=
    if is_set (environ !! "PROJECT_ENDPOINT")
       && is_set (environ !! "ORCHESTRATOR_AGENT_ID")
    then match SOWProposalService_init environ client with
         | Ok self => Ok (App.UseSOWProposalService self)
         | Raise e => Raise e
         end
    else Ok App.UseMockSOWService in
  match chosen with
  | Ok service => service
  | Raise _ => App.UseMockSOWService
  end.

(** [health_check]. *)
Definition health_check (service : App.Service) (now : Clock)
    : gmap string value :=
  dict_of
    [("status", VStr (Py.lit "healthy"));
     ("service", VStr (Py.lit "NSP Agent Portal"));
     ("timestamp", VStr (isoformat now));
     ("azure_integration",
      VStr (if App.isinstance_MockSOWService service
            then Py.lit "mock" else Py.lit "live"))].

End Startup.

(** ** Vocabulary of the further statements *)

(** Two spaces in a row somewhere in [s]. *)
Fixpoint has_double_space (s : list N) : bool :=
  match s with
  | [] => false
  | c1 :: r =>
    match r with
    | c2 :: _ => (c1 =? 32)%N && (c2 =? 32)%N
    | [] => false
    end || has_double_space r
  end.

(** The dictionary a computation returns, empty when it raises. *)
Definition returned (m : M (gmap string value)) : gmap string value :=
  match m.1 with
  | Ok d => d
  | Raise _ => ∅
  end.

(** The calls that submit a job, in the order of the source. *)
Definition submission (self : SimpleSowService.SOWProposalService)
    (thread : AgentThread) (file_content : list Byte.byte)
    (filename : list N) : list event :=
  [ThreadsCreate;
   MessagesCreate (thread_id thread) (Py.lit "user")
     (SimpleSowService.analysis_message filename
        (SimpleSowService._extract_text_content file_content filename));
   RunsCreate (thread_id thread)
     (SimpleSowService.orchestrator_agent_id self)
     SimpleSowService.additional_instructions].

(** The dictionary returned when an exception reaches the handler of
    [_process_with_orchestrator]. *)
Definition orchestrator_failed (e : list N) : gmap string value :=
  dict_of
    [("status", VStr (Py.lit "error"));
     ("error", VStr (Py.lit "Orchestrator processing failed: " ++ e))].

(** The upload of a request passes the checks of [process_sow]. *)
Definition accepted_file (request : App.Request) (file : App.FileStorage)
    (name : list N) : Prop :=
  App.files request !! "file" = Some file
  ∧ App.filename file = Some name
  ∧ name ≠ []
  ∧ (Py.splitext (Py.lower name)).2 ∈ App.allowed_extensions
  ∧ App.stream file ≠ [].

Definition not_found : App.DownloadResponse :=
  App.JsonResponse (dict_of [("error", VStr (Py.lit "Proposal not found"))]) 404.

(** The order in which the runtime lists the messages of a thread. *)
Inductive listing_order : Type :=
| NewestFirst
| OldestFirst.

(** The most recent assistant message of a listing given in that order. *)
Definition most_recent_assistant (order : listing_order)
    (msgs : list ThreadMessage) : option ThreadMessage :=
  match order with
  | NewestFirst => find is_assistant msgs
  | OldestFirst => find is_assistant (rev msgs)
  end.

(** The text of a chosen message, as a proposal. *)
Definition text_of (msg : option ThreadMessage) : option value :=
  match msg with
  | Some m =>
    match content0_text_value m with
    | Ok text => Some (VStr text)
    | Raise _ => None
    end
  | None => None
  end.

(** Every stored proposal is a text. *)
Definition holds_text (storage : gmap value App.ProposalData) : Prop :=
  ∀ k data, storage !! k = Some data → ∃ text, App.proposal data = VStr text.

(** The thread id of every answer of the mock service. *)
Definition mock_id : value := VStr (Py.lit "mock-o3-123").

(** The calls of a run of the polling loop of [sow_service.py] that queried
    the runs [ids]. *)
Definition poll_calls (thread : list N) (ids : list (list N))
    : list SowServiceFull.call_event :=
  flat_map (fun id => [SowServiceFull.AsyncSleep 10;
                       SowServiceFull.GetRun thread id]) ids.

(** The calls of [sow_service.py] up to the written temporary file. *)
Definition temp_file_calls (filename path : list N)
    (file_content : list Byte.byte) : list SowServiceFull.call_event :=
  [SowServiceFull.CreateThread;
   SowServiceFull.TempFileCreate (Py.lit "_" ++ filename);
   SowServiceFull.TempFileWrite path file_content].

Definition is_unlink (c : SowServiceFull.call_event) : bool :=
  match c with
  | SowServiceFull.Unlink _ => true
  | _ => false
  end.

(** The dictionary a computation of [sow_service.py] returns. *)
Definition io_returned (m : SowServiceFull.IO (gmap string value))
    : gmap string value :=
  match m.1 with
  | Ok d => d
  | Raise _ => ∅
  end.

(** ** Further sample inputs *)

Module Scenario.

(** A run the runtime reports as failed, with its error. *)
Definition failed_run : ThreadRun :=
  {| run_id := Py.lit "run_1"; status := Py.lit "failed";
     last_error := Some (Py.lit "rate_limit_exceeded") |}.

Definition rt_failed : Runtime :=
  {| threads_create := Ok Example.thread0;
     messages_create := Ok tt;
     runs_create := Ok failed_run;
     runs_get := λ _, Ok failed_run;
     messages_list := Raise [] |}.

(** A runtime whose run is completed at once and whose listing is an
    iterator: it yields its messages once. *)
Definition rt_one_shot (msgs : list ThreadMessage) : Runtime :=
  {| threads_create := Ok Example.thread0;
     messages_create := Ok tt;
     runs_create := Ok (Example.run_with "completed");
     runs_get := λ _, Ok (Example.run_with "completed");
     messages_list := Ok {| items := msgs; one_shot := true |} |}.

(** Runtimes that refuse the first, the second and the third call. *)
Definition rt_no_thread : Runtime :=
  {| threads_create := Raise (Py.lit "connection refused");
     messages_create := Ok tt;
     runs_create := Ok (Example.run_with "completed");
     runs_get := λ _, Ok (Example.run_with "completed");
     messages_list := Ok {| items := Example.two_replies; one_shot := false |} |}.

Definition rt_no_message : Runtime :=
  {| threads_create := Ok Example.thread0;
     messages_create := Raise (Py.lit "connection refused");
     runs_create := Ok (Example.run_with "completed");
     runs_get := λ _, Ok (Example.run_with "completed");
     messages_list := Ok {| items := Example.two_replies; one_shot := false |} |}.

Definition rt_no_run : Runtime :=
  {| threads_create := Ok Example.thread0;
     messages_create := Ok tt;
     runs_create := Raise (Py.lit "connection refused");
     runs_get := λ _, Ok (Example.run_with "completed");
     messages_list := Ok {| items := Example.two_replies; one_shot := false |} |}.

(** The bytes of a binary document: spaces, bytes that are not UTF-8,
    control characters and line ends around two words. *)
Definition word_bytes : list Byte.byte :=
  [Byte.x20; Byte.xd0; Byte.xcf; Byte.x11; Byte.x53; Byte.x4f; Byte.x57;
   Byte.x00; Byte.x0a; Byte.x0a; Byte.x20; Byte.x41; Byte.x09; Byte.x20].

Definition host0 : SowServiceFull.Host :=
  {| SowServiceFull.temp_file := Ok (Py.lit "/tmp/tmpk3x9_sow.pdf");
     SowServiceFull.temp_write := Ok tt;
     SowServiceFull.upload_file := Ok (Py.lit "file_1");
     SowServiceFull.unlink := Ok tt |}.

(** A host on which the temporary file cannot be removed. *)
Definition host_unlink_fails : SowServiceFull.Host :=
  {| SowServiceFull.temp_file := Ok (Py.lit "/tmp/tmpk3x9_sow.pdf");
     SowServiceFull.temp_write := Ok tt;
     SowServiceFull.upload_file := Ok (Py.lit "file_1");
     SowServiceFull.unlink := Raise (Py.lit "[Errno 13] Permission denied") |}.

(** A host on which the temporary file cannot be written. *)
Definition host_disk_full : SowServiceFull.Host :=
  {| SowServiceFull.temp_file := Ok (Py.lit "/tmp/tmpk3x9_sow.pdf");
     SowServiceFull.temp_write := Raise (Py.lit "[Errno 28] No space left on device");
     SowServiceFull.upload_file := Ok (Py.lit "file_1");
     SowServiceFull.unlink := Ok tt |}.

Definition service1 : SowServiceFull.SOWProposalService :=
  {| SowServiceFull.orchestrator_agent_id := Some (Py.lit "asst_1") |}.

Definition environ0 : gmap string (list N) :=
  {[ "PROJECT_ENDPOINT" := Py.lit "https://example.services.ai.azure.com";
     "ORCHESTRATOR_AGENT_ID" := Py.lit "asst_1" ]}.

End Scenario.

(** ** Properties *)

Ltac unfold_M :=
  unfold mbind, M_bind, bind, mret, M_ret, ret, call, eval, try_except in *.

(** *** The polling loop *)

Section Poller.
Import SimpleSowService.

Lemma poll_loop_step rt thread run wait_time polls :
  poll_loop rt thread run wait_time polls =
  if in_list (status run) polled_statuses && (wait_time <? max_wait_time)%Z
  then call (Sleep 10) (Ok tt) ;;
       run' ← call (RunsGet thread (run_id run)) (runs_get rt polls);
       poll_loop rt thread run' (wait_time + 10)%Z (S polls)
  else mret (run, wait_time).
Proof.
  simp poll_loop.
  destruct (inspect _) as [[] e]; simpl; rewrite e; reflexivity.
Qed.

Lemma poll_loop_stops rt thread run wait_time polls :
  in_list (status run) polled_statuses && (wait_time <? max_wait_time)%Z = false →
  poll_loop rt thread run wait_time polls = (Ok (run, wait_time), []).
Proof. intros H. rewrite poll_loop_step, H. reflexivity. Qed.

(** From any state, at most [n] queries are made when [wait_time] is within
    [10 * n] seconds of the ceiling; each query follows a sleep of 10
    seconds, and the loop is left with the status out of the polled ones or
    the ceiling reached. *)
Lemma poll_loop_trace rt thread (n : nat) :
  ∀ run wait_time polls,
    (max_wait_time - wait_time ≤ 10 * Z.of_nat n)%Z →
    ∃ ids r,
      poll_loop rt thread run wait_time polls = (r, poll_events thread ids)
      ∧ (length ids ≤ n)%nat
      ∧ ∀ run' wt', r = Ok (run', wt') →
          wt' = (wait_time + 10 * Z.of_nat (length ids))%Z
          ∧ (in_list (status run') polled_statuses = false
             ∨ (max_wait_time ≤ wt')%Z).
Proof.
  induction n as [|n IH]; intros run wait_time polls Hn;
    rewrite poll_loop_step.
  - destruct (Z.ltb_spec wait_time max_wait_time) as [Hlt|Hge]; [lia|].
    rewrite andb_false_r. exists [], (Ok (run, wait_time)).
    split; [reflexivity|]. split; [simpl; lia|].
    intros run' wt' [= <- <-]. simpl. split; [lia|right; lia].
  - destruct (in_list (status run) polled_statuses) eqn:Hst; cbn [andb].
    2:{ exists [], (Ok (run, wait_time)). split; [reflexivity|].
        split; [simpl; lia|]. intros run' wt' [= <- <-]. simpl.
        split; [lia|left; assumption]. }
    destruct (Z.ltb_spec wait_time max_wait_time) as [Hlt|Hge].
    2:{ exists [], (Ok (run, wait_time)). split; [reflexivity|].
        split; [simpl; lia|]. intros run' wt' [= <- <-]. simpl.
        split; [lia|right; lia]. }
    unfold_M. destruct (runs_get rt polls) as [run1|e].
    + destruct (IH run1 (wait_time + 10)%Z (S polls))
        as (ids & r & Heq & Hlen & Hr); [lia|].
      rewrite Heq. exists (run_id run :: ids), r. split; [reflexivity|].
      split; [simpl; lia|]. intros run' wt' Hok.
      destruct (Hr run' wt' Hok) as [-> Hex]. split; [simpl length; lia|].
      exact Hex.
    + exists [run_id run], (Raise e). split; [reflexivity|].
      split; [simpl; lia|]. intros ? ? [=].
Qed.

(** When every answer shows a polled status, the loop started [10 * n]
    seconds before the ceiling makes exactly [n] queries. *)
Lemma poll_loop_never_terminal rt thread :
  (∀ k, polling (runs_get rt k)) →
  ∀ (n : nat) run wait_time polls,
    in_list (status run) polled_statuses = true →
    wait_time = (max_wait_time - 10 * Z.of_nat n)%Z →
    ∃ ids run',
      poll_loop rt thread run wait_time polls
        = (Ok (run', max_wait_time), poll_events thread ids)
      ∧ length ids = n
      ∧ in_list (status run') polled_statuses = true.
Proof.
  intros Hrt. induction n as [|n IH]; intros run wait_time polls Hst ->;
    rewrite poll_loop_step, Hst; cbn [andb].
  - assert (Hw : (max_wait_time - 10 * Z.of_nat 0 = max_wait_time)%Z) by lia.
    rewrite Hw, Z.ltb_irrefl. exists [], run. auto.
  - destruct (Z.ltb_spec (max_wait_time - 10 * Z.of_nat (S n)) max_wait_time)
      as [_|?]; [|lia].
    unfold_M. destruct (Hrt polls) as (run1 & -> & Hst1).
    destruct (IH run1 (max_wait_time - 10 * Z.of_nat (S n) + 10)%Z (S polls) Hst1)
      as (ids & run' & Heq & Hlen & Hst'); [lia|].
    rewrite Heq. exists (run_id run :: ids), run'.
    split; [reflexivity|]. split; [simpl; lia|]. exact Hst'.
Qed.

Lemma failure_message_timeout run :
  last_error run = None →
  failure_message run max_wait_time
  = Py.lit "GPT-4o processing failed with status: " ++ status run
    ++ Py.lit " - Processing timeout (5 minutes exceeded)".
Proof.
  intros H. unfold failure_message. rewrite H.
  rewrite Z.leb_refl. rewrite <- app_assoc. reflexivity.
Qed.

Lemma polled_not_completed s :
  in_list s polled_statuses = true →
  bool_decide (s = Py.lit "completed") = false.
Proof.
  intros H. apply bool_decide_eq_false. intros ->. vm_compute in H.
  discriminate.
Qed.

(** C3.  The polling loop sleeps 10 seconds before each status query and
    goes on only while the status is one of [queued], [in_progress],
    [requires_action] and [wait_time] is below 300: it stops as soon as
    that fails; whatever the runtime answers it makes at most 30 queries
    and leaves with [wait_time] equal to ten times their number, at most
    300.  When the status never leaves the polled ones, it makes exactly 30
    queries, leaves with [wait_time = 300] (no overshoot beyond the
    ceiling), and [_process_with_orchestrator] returns an error whose
    [processing_time] is 300 and whose text, for a run without
    [last_error], ends with the timeout notice. *)
Theorem poller_stops_at_max_wait
    (self : SOWProposalService) (rt : Runtime) (now : Clock)
    (file_content : list Byte.byte) (name : list N)
    (thread : AgentThread) (run0 : ThreadRun) :
  (∀ run wait_time polls,
      in_list (status run) polled_statuses && (wait_time <? 300)%Z = false →
      poll_loop rt (thread_id thread) run wait_time polls
      = (Ok (run, wait_time), []))
  ∧ (∃ ids r,
      poll_loop rt (thread_id thread) run0 0 0
      = (r, poll_events (thread_id thread) ids)
      ∧ (length ids ≤ 30)%nat
      ∧ ∀ run wait_time, r = Ok (run, wait_time) →
          wait_time = (10 * Z.of_nat (length ids))%Z
          ∧ (0 ≤ wait_time ≤ 300)%Z
          ∧ (in_list (status run) polled_statuses = false ∨ wait_time = 300%Z))
  ∧ (threads_create rt = Ok thread → messages_create rt = Ok tt →
     runs_create rt = Ok run0 →
     in_list (status run0) polled_statuses = true →
     (∀ k, polling (runs_get rt k)) →
     ∃ ids run d evs,
       poll_loop rt (thread_id thread) run0 0 0
       = (Ok (run, 300%Z), poll_events (thread_id thread) ids)
       ∧ length ids = 30%nat
       ∧ in_list (status run) polled_statuses = true
       ∧ _process_with_orchestrator self rt now file_content name = (Ok d, evs)
       ∧ d !! "status" = Some error
       ∧ d !! "processing_time" = Some (VInt 300)
       ∧ d !! "run_status" = Some (VStr (status run))
       ∧ d !! "error" = Some (VStr (failure_message run 300))
       ∧ (last_error run = None →
          failure_message run 300
          = Py.lit "GPT-4o processing failed with status: " ++ status run
            ++ Py.lit " - Processing timeout (5 minutes exceeded)")).
Proof.
  split; [|split].
  - intros run wait_time polls H. apply poll_loop_stops. exact H.
  - destruct (poll_loop_trace rt (thread_id thread) 30 run0 0 0)
      as (ids & r & Heq & Hlen & Hr); [unfold max_wait_time; lia|].
    exists ids, r. split; [exact Heq|]. split; [exact Hlen|].
    intros run wt Hok. destruct (Hr run wt Hok) as [-> Hex].
    split; [lia|]. split; [lia|].
    destruct Hex as [Hex|Hex]; [left; exact Hex|right].
    unfold max_wait_time in Hex. lia.
  - intros Hth Hmsg Hrun Hst0 Hrt.
    destruct (poll_loop_never_terminal rt (thread_id thread) Hrt 30 run0 0 0 Hst0)
      as (ids & run & Heq & Hlen & Hst); [unfold max_wait_time; lia|].
    change max_wait_time with 300%Z in Heq.
    exists ids, run.
    unfold _process_with_orchestrator. unfold_M.
    rewrite Hth, Hmsg, Hrun, Heq. rewrite (polled_not_completed _ Hst).
    eexists _, _. split; [reflexivity|]. split; [exact Hlen|].
    split; [exact Hst|]. split; [reflexivity|].
    repeat split; try reflexivity.
    apply failure_message_timeout.
Qed.

Lemma poller_stops_at_max_wait_witness :
  (∀ k, polling (runs_get Example.rt_queued k))
  ∧ poll_loop Example.rt_queued (Py.lit "thread_1")
      (Example.run_with "completed") 120 12
    = (Ok (Example.run_with "completed", 120%Z), [])
  ∧ ∃ ids run d evs,
      poll_loop Example.rt_queued (Py.lit "thread_1")
        (Example.run_with "queued") 0 0
      = (Ok (run, 300%Z), poll_events (Py.lit "thread_1") ids)
      ∧ length ids = 30%nat
      ∧ in_list (status run) polled_statuses = true
      ∧ _process_with_orchestrator Example.service0 Example.rt_queued
          Example.clock0 Example.ten_bytes (Py.lit "sow.txt") = (Ok d, evs)
      ∧ d !! "status" = Some error
      ∧ d !! "processing_time" = Some (VInt 300)
      ∧ d !! "run_status" = Some (VStr (status run))
      ∧ d !! "error" = Some (VStr (failure_message run 300))
      ∧ (last_error run = None →
         failure_message run 300
         = Py.lit "GPT-4o processing failed with status: " ++ status run
           ++ Py.lit " - Processing timeout (5 minutes exceeded)").
Proof.
  assert (H : ∀ k, polling (runs_get Example.rt_queued k)).
  { intros k. exists (Example.run_with "queued"). split; reflexivity. }
  destruct (poller_stops_at_max_wait Example.service0 Example.rt_queued
              Example.clock0 Example.ten_bytes (Py.lit "sow.txt")
              Example.thread0 (Example.run_with "queued")) as (H1 & _ & H3).
  split; [exact H|]. split.
  - apply (H1 (Example.run_with "completed") 120%Z 12%nat). reflexivity.
  - apply H3; try reflexivity. exact H.
Defined.

End Poller.

(** *** What the services return *)

Section Service.
Import SimpleSowService.

Ltac error_outcome :=
  eexists _, _; split; [reflexivity|]; split; [right; reflexivity|intros [=]].

(** [_process_with_orchestrator] always returns a dictionary, never raises,
    and a dictionary reporting a success carries a thread id, a proposal
    and a timestamp. *)
Lemma orchestrator_result self rt now content name :
  ∃ d evs,
    _process_with_orchestrator self rt now content name = (Ok d, evs)
    ∧ (d !! "status" = Some success ∨ d !! "status" = Some error)
    ∧ (d !! "status" = Some success →
       ∃ tid text, d !! "thread_id" = Some (VStr tid)
                   ∧ d !! "proposal" = Some (VStr text)
                   ∧ is_Some (d !! "timestamp")).
Proof.
  unfold _process_with_orchestrator. unfold_M.
  destruct (threads_create rt) as [thread|e]; [|error_outcome].
  destruct (messages_create rt) as [[]|e]; [|error_outcome].
  destruct (runs_create rt) as [run0|e]; [|error_outcome].
  destruct (poll_loop rt (thread_id thread) run0 0 0) as [[[run wt]|e] pevs];
    [|error_outcome].
  destruct (bool_decide (status run = Py.lit "completed")); [|error_outcome].
  destruct (messages_list rt) as [listing|e]; [|error_outcome].
  destruct (find is_assistant (rev (first_pass listing))) as [m|].
  - destruct (content0_text_value m) as [text|e]; [|error_outcome].
    eexists _, _; split; [reflexivity|]. split; [left; reflexivity|].
    intros _. exists (thread_id thread), text.
    repeat split; try reflexivity. eexists; reflexivity.
  - destruct (for_each debug_message (second_pass listing)) as [dbg|e];
      error_outcome.
Qed.

Lemma service_result svc rt now content name :
  ∃ d evs,
    App.process_sow_document svc rt now content name = (Ok d, evs)
    ∧ (d !! "status" = Some success ∨ d !! "status" = Some error)
    ∧ (d !! "status" = Some success →
       ∃ tid text, d !! "thread_id" = Some (VStr tid)
                   ∧ d !! "proposal" = Some (VStr text)
                   ∧ is_Some (d !! "timestamp")).
Proof.
  destruct svc as [self|]; simpl.
  - unfold process_sow_document.
    destruct (orchestrator_result self rt now content name)
      as (d & evs & Heq & H). rewrite Heq. exists d, evs.
    split; [reflexivity|exact H].
  - unfold mock_process_sow_document. unfold_M.
    eexists _, _. split; [reflexivity|]. split; [left; reflexivity|].
    intros _. eexists _, _. repeat split; try reflexivity.
    eexists; reflexivity.
Qed.

End Service.

(** *** The façade *)

Section Facade.
Import App.

Lemma process_sow_no_file svc rt now request storage :
  files request !! "file" = None →
  process_sow svc rt now request storage
  = (Ok (rejected (Py.lit "No file uploaded") 400, storage), []).
Proof. intros H. unfold process_sow. rewrite H. unfold_M. reflexivity. Qed.

Lemma process_sow_no_name svc rt now request storage file :
  files request !! "file" = Some file →
  filename file = None ∨ filename file = Some [] →
  process_sow svc rt now request storage
  = (Ok (rejected (Py.lit "No file selected") 400, storage), []).
Proof.
  intros H [Hn|Hn]; unfold process_sow; rewrite H, Hn; unfold_M; reflexivity.
Qed.

Lemma process_sow_bad_extension svc rt now request storage file name :
  files request !! "file" = Some file →
  filename file = Some name → name ≠ [] →
  (Py.splitext (Py.lower name)).2 ∉ allowed_extensions →
  process_sow svc rt now request storage
  = (Ok (rejected (unsupported_message (Py.splitext (Py.lower name)).2) 400,
         storage), []).
Proof.
  intros H Hn Hne Hext. unfold process_sow. rewrite H, Hn.
  destruct name as [|c name]; [congruence|].
  case_bool_decide; [|contradiction].
  unfold_M. unfold rejected, unsupported_message. reflexivity.
Qed.

Lemma process_sow_empty_file svc rt now request storage file name :
  files request !! "file" = Some file →
  filename file = Some name → name ≠ [] →
  (Py.splitext (Py.lower name)).2 ∈ allowed_extensions →
  stream file = [] →
  process_sow svc rt now request storage
  = (Ok (rejected (Py.lit "File is empty") 400, storage),
     [FileSeek 0; FileRead]).
Proof.
  intros H Hn Hne Hext Hs. unfold process_sow. rewrite H, Hn.
  destruct name as [|c name]; [congruence|].
  case_bool_decide; [contradiction|].
  unfold_M. rewrite Hs. unfold rejected. reflexivity.
Qed.

Ltac nothing_stored :=
  unfold_M; eexists _, _, _; split; [reflexivity|apply untouched; reflexivity].

(** [process_sow] never raises, and a request either stores the proposal of
    its successful response or leaves the storage as it was. *)
Lemma process_sow_effect svc rt now request storage :
  ∃ resp storage' evs,
    process_sow svc rt now request storage = (Ok (resp, storage'), evs)
    ∧ effect_on_storage storage resp storage'.
Proof.
  unfold process_sow.
  destruct (files request !! "file") as [file|]; [|nothing_stored].
  destruct (filename file) as [[|c name]|]; try nothing_stored.
  case_bool_decide; [nothing_stored|].
  unfold_M.
  case_bool_decide;
    [eexists _, _, _; split; [reflexivity|apply untouched; reflexivity]|].
  destruct (service_result svc rt now (stream file) (c :: name))
    as (d & evs & Heq & Hst & Hok).
  rewrite Heq.
  destruct Hst as [Hst|Hst].
  - destruct (Hok Hst) as (tid & text & Htid & Hp & [ts Hts]).
    unfold success in Hst.
    rewrite Hst. rewrite Htid. unfold getitem. rewrite Hp, Hts.
    rewrite bool_decide_eq_true_2 by reflexivity.
    rewrite bool_decide_eq_true_2 by (eexists; reflexivity).
    cbn [andb hashable default from_option].
    eexists _, _, _. split; [reflexivity|].
    eapply stored; cbn [body];
      [exact Hst|exact Htid|exact Hp| |reflexivity]; reflexivity.
  - unfold error in Hst. rewrite Hst.
    rewrite bool_decide_eq_false_2 by (intros [=]). cbn [andb].
    eexists _, _, _. split; [reflexivity|].
    apply untouched; [exact Hst|reflexivity].
Qed.

Lemma error_payload_status msg : error_payload msg !! "status" = Some error.
Proof. reflexivity. Qed.

Lemma error_payload_error msg : error_payload msg !! "error" = Some (VStr msg).
Proof. reflexivity. Qed.

Lemma unsupported_message_contains ext :
  contains (Py.lit "Unsupported file type") (unsupported_message ext).
Proof.
  exists [], (Py.lit ": " ++ ext ++ Py.lit ". Supported: "
              ++ Py.join (Py.lit ", ") (elements allowed_extensions)).
  unfold unsupported_message. reflexivity.
Qed.

Lemma file_is_empty_contains :
  contains (Py.lit "empty") (Py.lit "File is empty").
Proof. exists (Py.lit "File is "), []. reflexivity. Qed.

Lemma unsupported_message_not_empty_error ext :
  unsupported_message ext ≠ Py.lit "File is empty".
Proof.
  intros Hc. apply (f_equal (take 1)) in Hc. unfold unsupported_message in Hc.
  vm_compute in Hc. discriminate.
Qed.

Lemma no_extension_not_allowed : [] ∉ allowed_extensions.
Proof. apply (bool_decide_eq_false_1 _). vm_compute. reflexivity. Qed.

(** C5.  An uploaded file (a file part with a name) whose extension, as
    [os.path.splitext] gives it for the lowered name, is missing or not one
    of [.pdf], [.docx], [.doc], [.txt] gets a 400 response whose [error]
    contains [Unsupported file type]; the request produces no event at all,
    so no call to the agent runtime is made, and the storage is left as it
    was. *)
Theorem unsupported_extension_rejected svc rt now request storage file name :
  files request !! "file" = Some file →
  filename file = Some name → name ≠ [] →
  (Py.splitext (Py.lower name)).2 = []
  ∨ (Py.splitext (Py.lower name)).2 ∉ allowed_extensions →
  ∃ resp msg,
    process_sow svc rt now request storage = (Ok (resp, storage), [])
    ∧ status_code resp = 400%Z
    ∧ body resp !! "status" = Some error
    ∧ body resp !! "error" = Some (VStr msg)
    ∧ contains (Py.lit "Unsupported file type") msg.
Proof.
  intros H Hn Hne Hext.
  assert (Hext' : (Py.splitext (Py.lower name)).2 ∉ allowed_extensions).
  { destruct Hext as [->|Hext]; [apply no_extension_not_allowed|exact Hext]. }
  exists (rejected (unsupported_message (Py.splitext (Py.lower name)).2) 400),
         (unsupported_message (Py.splitext (Py.lower name)).2).
  split; [apply (process_sow_bad_extension _ _ _ _ _ file); assumption|].
  split; [reflexivity|]. split; [apply error_payload_status|].
  split; [apply error_payload_error|]. apply unsupported_message_contains.
Qed.

Lemma unsupported_extension_rejected_witness :
  ∃ resp msg,
    process_sow (UseSOWProposalService Example.service0)
      (Example.rt_completed Example.two_replies) Example.clock0
      (Example.upload "report.XLS" Example.ten_bytes) ∅
    = (Ok (resp, ∅), [])
    ∧ status_code resp = 400%Z
    ∧ body resp !! "status" = Some error
    ∧ body resp !! "error" = Some (VStr msg)
    ∧ contains (Py.lit "Unsupported file type") msg.
Proof.
  apply (unsupported_extension_rejected _ _ _ _ _
           {| filename := Some (Py.lit "report.XLS");
              stream := Example.ten_bytes |} (Py.lit "report.XLS")).
  - reflexivity.
  - reflexivity.
  - vm_compute. discriminate.
  - right. apply (bool_decide_eq_false_1 _). vm_compute. reflexivity.
Defined.

(** C8.  An uploaded file with an allowed extension and no content gets a
    400 response whose [error] contains [empty]; the request reads the file
    and makes no call to the agent runtime. *)
Theorem empty_file_rejected svc rt now request storage file name :
  files request !! "file" = Some file →
  filename file = Some name → name ≠ [] →
  (Py.splitext (Py.lower name)).2 ∈ allowed_extensions →
  stream file = [] →
  ∃ resp msg evs,
    process_sow svc rt now request storage = (Ok (resp, storage), evs)
    ∧ status_code resp = 400%Z
    ∧ body resp !! "status" = Some error
    ∧ body resp !! "error" = Some (VStr msg)
    ∧ contains (Py.lit "empty") msg
    ∧ filter is_runtime_call evs = [].
Proof.
  intros H Hn Hne Hext Hs.
  exists (rejected (Py.lit "File is empty") 400), (Py.lit "File is empty"),
         [FileSeek 0; FileRead].
  split; [apply (process_sow_empty_file _ _ _ _ _ file name); assumption|].
  split; [reflexivity|]. split; [apply error_payload_status|].
  split; [apply error_payload_error|].
  split; [apply file_is_empty_contains|reflexivity].
Qed.

Lemma empty_file_rejected_witness :
  ∃ resp msg evs,
    process_sow (UseSOWProposalService Example.service0)
      (Example.rt_completed Example.two_replies) Example.clock0
      (Example.upload "sow.pdf" []) ∅
    = (Ok (resp, ∅), evs)
    ∧ status_code resp = 400%Z
    ∧ body resp !! "status" = Some error
    ∧ body resp !! "error" = Some (VStr msg)
    ∧ contains (Py.lit "empty") msg
    ∧ filter is_runtime_call evs = [].
Proof.
  apply (empty_file_rejected _ _ _ _ _
           {| filename := Some (Py.lit "sow.pdf"); stream := [] |}
           (Py.lit "sow.pdf")).
  - reflexivity.
  - reflexivity.
  - vm_compute. discriminate.
  - apply (bool_decide_eq_true_1 _). vm_compute. reflexivity.
  - reflexivity.
Defined.

(** C10.  The checks are made in this order: the [file] field, the name of
    the file, the extension, and only then the content.  A request without
    the field answers [No file uploaded]; a file without a name answers
    [No file selected]; a named file with an extension that is not allowed
    answers [Unsupported file type], whatever its content, also when it is
    empty, so not [File is empty], and without any event: the file is
    neither rewound nor read; a file with an allowed extension and no
    content answers [File is empty] after the file was read. *)
Theorem validation_order svc rt now request storage :
  (files request !! "file" = None →
   process_sow svc rt now request storage
   = (Ok (rejected (Py.lit "No file uploaded") 400, storage), []))
  ∧ (∀ file,
       files request !! "file" = Some file →
       filename file = None ∨ filename file = Some [] →
       process_sow svc rt now request storage
       = (Ok (rejected (Py.lit "No file selected") 400, storage), []))
  ∧ (∀ file name,
       files request !! "file" = Some file →
       filename file = Some name → name ≠ [] →
       (Py.splitext (Py.lower name)).2 ∉ allowed_extensions →
       let msg := unsupported_message (Py.splitext (Py.lower name)).2 in
       process_sow svc rt now request storage
       = (Ok (rejected msg 400, storage), [])
       ∧ contains (Py.lit "Unsupported file type") msg
       ∧ msg ≠ Py.lit "File is empty")
  ∧ (∀ file name,
       files request !! "file" = Some file →
       filename file = Some name → name ≠ [] →
       (Py.splitext (Py.lower name)).2 ∈ allowed_extensions →
       stream file = [] →
       process_sow svc rt now request storage
       = (Ok (rejected (Py.lit "File is empty") 400, storage),
          [FileSeek 0; FileRead])).
Proof.
  split; [apply process_sow_no_file|].
  split; [intros file; apply process_sow_no_name|].
  split.
  - intros file name H Hn Hne Hext msg.
    split; [apply (process_sow_bad_extension _ _ _ _ _ file); assumption|].
    split; [apply unsupported_message_contains
           |apply unsupported_message_not_empty_error].
  - intros file name. apply process_sow_empty_file.
Qed.

Lemma validation_order_witness :
  let svc := UseSOWProposalService Example.service0 in
  let rt := Example.rt_completed Example.two_replies in
  let msg := unsupported_message (Py.lit ".xls") in
  process_sow svc rt Example.clock0 {| files := ∅ |} ∅
  = (Ok (rejected (Py.lit "No file uploaded") 400, ∅), [])
  ∧ process_sow svc rt Example.clock0 (Example.upload "" []) ∅
    = (Ok (rejected (Py.lit "No file selected") 400, ∅), [])
  ∧ (process_sow svc rt Example.clock0 (Example.upload "data.xls" []) ∅
     = (Ok (rejected msg 400, ∅), [])
     ∧ contains (Py.lit "Unsupported file type") msg
     ∧ msg ≠ Py.lit "File is empty")
  ∧ process_sow svc rt Example.clock0 (Example.upload "sow.pdf" []) ∅
    = (Ok (rejected (Py.lit "File is empty") 400, ∅), [FileSeek 0; FileRead]).
Proof.
  intros svc rt msg. split; [|split; [|split]].
  - destruct (validation_order svc rt Example.clock0 {| files := ∅ |} ∅)
      as (H & _). apply H. reflexivity.
  - destruct (validation_order svc rt Example.clock0 (Example.upload "" []) ∅)
      as (_ & H & _).
    apply (H {| filename := Some (Py.lit ""); stream := [] |});
      [reflexivity|right; reflexivity].
  - destruct (validation_order svc rt Example.clock0
                (Example.upload "data.xls" []) ∅) as (_ & _ & H & _).
    apply (H {| filename := Some (Py.lit "data.xls"); stream := [] |}
             (Py.lit "data.xls")).
    + reflexivity.
    + reflexivity.
    + vm_compute. discriminate.
    + apply (bool_decide_eq_false_1 _). vm_compute. reflexivity.
  - destruct (validation_order svc rt Example.clock0
                (Example.upload "sow.pdf" []) ∅) as (_ & _ & _ & H).
    apply (H {| filename := Some (Py.lit "sow.pdf"); stream := [] |}
             (Py.lit "sow.pdf")).
    + reflexivity.
    + reflexivity.
    + vm_compute. discriminate.
    + apply (bool_decide_eq_true_1 _). vm_compute. reflexivity.
    + reflexivity.
Defined.

(** *** The storage of proposals *)

Lemma effect_lookup storage resp storage' k :
  effect_on_storage storage resp storage' →
  storage !! k = None →
  is_Some (storage' !! k)
  ↔ body resp !! "status" = Some success ∧ body resp !! "thread_id" = Some k.
Proof.
  intros [tid text data Hst Htid Hp Hd ->|Hst ->] Hk.
  - split.
    + intros Hs. destruct (decide (VStr tid = k)) as [<-|Hne]; [auto|].
      rewrite lookup_insert_ne, Hk in Hs by exact Hne. destruct Hs as [? [=]].
    + intros [_ Hk']. rewrite Htid in Hk'. injection Hk' as <-.
      rewrite lookup_insert_eq. eexists; reflexivity.
  - rewrite Hk. split; [intros [? [=]]|]. intros [Hs _]. rewrite Hst in Hs.
    discriminate.
Qed.

(** C4.  Every request is answered, and for a job id that was not in the
    storage before the request, an entry exists after it exactly when the
    response reports a success with that thread id.  A response that does
    not report a success leaves the storage as it was, and a successful one
    has its proposal stored under its thread id. *)
Theorem cache_entry_iff_success svc rt now request storage :
  ∃ resp storage' evs,
    process_sow svc rt now request storage = (Ok (resp, storage'), evs)
    ∧ (∀ k, storage !! k = None →
         is_Some (storage' !! k)
         ↔ body resp !! "status" = Some success
           ∧ body resp !! "thread_id" = Some k)
    ∧ (body resp !! "status" ≠ Some success → storage' = storage)
    ∧ (body resp !! "status" = Some success →
       ∃ tid text data,
         body resp !! "thread_id" = Some (VStr tid)
         ∧ body resp !! "proposal" = Some (VStr text)
         ∧ storage' !! VStr tid = Some data
         ∧ proposal data = VStr text).
Proof.
  destruct (process_sow_effect svc rt now request storage)
    as (resp & storage' & evs & Heq & Heff).
  exists resp, storage', evs. split; [exact Heq|].
  split; [intros k; apply effect_lookup; exact Heff|].
  destruct Heff as [tid text data Hst Htid Hp Hd ->|Hst ->].
  - split; [congruence|]. intros _. exists tid, text, data.
    rewrite lookup_insert_eq. auto.
  - split; [reflexivity|]. intros Hs. rewrite Hst in Hs. discriminate.
Qed.

Lemma cache_entry_iff_success_witness :
  ∃ resp storage' evs,
    process_sow (UseSOWProposalService Example.service0)
      (Example.rt_completed Example.two_replies) Example.clock0
      (Example.upload "sow.txt" Example.ten_bytes) ∅
    = (Ok (resp, storage'), evs)
    ∧ (is_Some (storage' !! VStr (Py.lit "thread_1"))
       ↔ body resp !! "status" = Some success
         ∧ body resp !! "thread_id" = Some (VStr (Py.lit "thread_1"))).
Proof.
  destruct (cache_entry_iff_success (UseSOWProposalService Example.service0)
              (Example.rt_completed Example.two_replies) Example.clock0
              (Example.upload "sow.txt" Example.ten_bytes) ∅)
    as (resp & storage' & evs & Heq & Hiff & _).
  exists resp, storage', evs. split; [exact Heq|].
  apply Hiff. reflexivity.
Defined.

Lemma omap_job_id_cons resp resps :
  omap job_id_of (resp :: resps)
  = match job_id_of resp with
    | Some k => k :: omap job_id_of resps
    | None => omap job_id_of resps
    end.
Proof. reflexivity. Qed.

(** Serving requests adds to the storage the job ids of the successful
    responses and nothing else; every successful response has a job id. *)
Lemma serve_dom svc requests :
  ∀ storage responses final,
    serve svc requests storage = (responses, final) →
    dom final = dom storage ∪ list_to_set (omap job_id_of responses)
    ∧ length (omap job_id_of responses)
      = length (filter (λ r, body r !! "status" = Some success) responses).
Proof.
  induction requests as [|[[rt now] request] rest IH];
    intros storage responses final.
  - cbn [serve]. intros Heq. injection Heq as <- <-. cbn [omap list_omap].
    rewrite list_to_set_nil, (right_id_L ∅ (∪)). split; reflexivity.
  - cbn [serve].
    destruct (process_sow_effect svc rt now request storage)
      as (resp & storage' & evs & Heq & Heff).
    rewrite Heq. cbn [fst].
    destruct (serve svc rest storage') as [resps final'] eqn:Hrest.
    intros Hpair. injection Hpair as <- <-.
    destruct (IH _ _ _ Hrest) as [Hdom Hlen].
    rewrite Hdom, omap_job_id_cons.
    destruct Heff as [tid text data Hst Htid Hp Hd ->|Hst ->].
    + assert (Hj : job_id_of resp = Some (VStr tid)).
      { unfold job_id_of. rewrite bool_decide_eq_true_2 by exact Hst.
        exact Htid. }
      rewrite Hj, filter_cons_True by exact Hst.
      rewrite dom_insert_L, list_to_set_cons. cbn [length].
      rewrite (comm_L (∪) {[VStr tid]} (dom storage)), <- (assoc_L (∪)).
      split; [reflexivity|]. f_equal. exact Hlen.
    + assert (Hj : job_id_of resp = None).
      { unfold job_id_of. rewrite bool_decide_eq_false_2; [reflexivity|].
        rewrite Hst. intros [=]. }
      rewrite Hj, filter_cons_False by (rewrite Hst; intros [=]).
      split; [reflexivity|exact Hlen].
Qed.

(** C9, as the code has it.  After a sequence of uploads served from an
    empty storage, [proposals_generated] is the number of distinct job ids
    among the successful responses: it equals the number of successful
    completions when their job ids are pairwise distinct. *)
Theorem stats_counts_distinct_job_ids svc requests responses storage :
  serve svc requests ∅ = (responses, storage) →
  let job_ids := omap job_id_of responses in
  length job_ids
  = length (filter (λ r, body r !! "status" = Some success) responses)
  ∧ get_stats svc storage !! "proposals_generated"
    = Some (VInt (Z.of_nat (size (list_to_set job_ids : gset value))))
  ∧ (NoDup job_ids →
     get_stats svc storage !! "proposals_generated"
     = Some (VInt (Z.of_nat (length job_ids)))).
Proof.
  intros Hserve job_ids. destruct (serve_dom _ _ _ _ _ Hserve) as [Hdom Hlen].
  split; [exact Hlen|].
  assert (Hsize : size storage = size (list_to_set job_ids : gset value)).
  { rewrite <- size_dom, Hdom, dom_empty_L, (left_id_L ∅ (∪)). reflexivity. }
  assert (Hstats : get_stats svc storage !! "proposals_generated"
                   = Some (VInt (Z.of_nat (size storage)))) by reflexivity.
  rewrite Hstats, Hsize. split; [reflexivity|].
  intros Hnd. rewrite size_list_to_set by exact Hnd. reflexivity.
Qed.

Lemma stats_counts_distinct_job_ids_witness :
  let svc := UseSOWProposalService Example.service0 in
  let out :=
    serve svc
      [(Example.rt_completed_in "thread_1" Example.two_replies,
        Example.clock0, Example.upload "a.txt" Example.ten_bytes);
       (Example.rt_completed_in "thread_2" Example.two_replies,
        Example.clock0, Example.upload "b.pdf" Example.ten_bytes)] ∅ in
  NoDup (omap job_id_of out.1)
  ∧ length (omap job_id_of out.1) = 2%nat
  ∧ get_stats svc out.2 !! "proposals_generated" = Some (VInt 2).
Proof.
  intros svc out.
  assert (Hnd : NoDup (omap job_id_of out.1)).
  { apply (bool_decide_unpack _). vm_compute. exact I. }
  split; [exact Hnd|]. split; [vm_compute; reflexivity|].
  destruct (stats_counts_distinct_job_ids svc _ out.1 out.2
              (surjective_pairing out)) as (_ & _ & H).
  rewrite (H Hnd). vm_compute. reflexivity.
Defined.

(** C9 as stated fails with the mock service, whose thread id is the same
    for every request: two successful completions, one proposal counted. *)
Lemma mock_completions_counted_once :
  let out :=
    serve UseMockSOWService
      [(Example.rt_queued, Example.clock0,
        Example.upload "a.txt" Example.ten_bytes);
       (Example.rt_queued, Example.clock0,
        Example.upload "b.pdf" Example.ten_bytes)] ∅ in
  length (filter (λ r, body r !! "status" = Some success) out.1) = 2%nat
  ∧ get_stats UseMockSOWService out.2 !! "proposals_generated"
    = Some (VInt 1)
  ∧ VInt 1 ≠ VInt 2.
Proof. vm_compute. repeat split. discriminate. Qed.

End Facade.

(** *** The choice of the proposal message *)

Section Extractor.
Import SimpleSowService.

Lemma find_first_match {A} (f : A → bool) (l : list A) (m : A) (r : list A) :
  Forall (λ x, f x = false) l → f m = true → find f (l ++ m :: r) = Some m.
Proof.
  intros Hl Hm. induction Hl as [|x l Hx Hl IH]; cbn.
  - rewrite Hm. reflexivity.
  - rewrite Hx. exact IH.
Qed.

Lemma find_no_match {A} (f : A → bool) (l : list A) :
  Forall (λ x, f x = false) l → find f l = None.
Proof.
  intros Hl. induction Hl as [|x l Hx Hl IH]; cbn; [reflexivity|].
  rewrite Hx. exact IH.
Qed.

Lemma find_last_match (older : list ThreadMessage) m newer :
  Forall not_assistant newer → is_assistant m = true →
  find is_assistant (rev (older ++ m :: newer)) = Some m.
Proof.
  intros Hn Hm. rewrite rev_app_distr. cbn [rev]. rewrite <- app_assoc.
  cbn [app]. apply find_first_match; [|exact Hm].
  apply Forall_rev. exact Hn.
Qed.

Lemma for_each_debug_message msgs texts :
  Forall2 (λ m t, content0_text_value m = Ok t) msgs texts →
  for_each debug_message msgs = Ok (zip_with preview msgs texts).
Proof.
  intros H. induction H as [|m t msgs texts Hm H IH]; cbn; [reflexivity|].
  unfold debug_message at 1. rewrite Hm, IH. reflexivity.
Qed.

Lemma completed_is_true run :
  status run = Py.lit "completed" →
  bool_decide (status run = Py.lit "completed") = true.
Proof. intros H. apply bool_decide_eq_true_2. exact H. Qed.

(** What each extractor returns.  For a completed run whose listing of
    messages has an assistant message, [simple_sow_service.py] goes through the
    listing from its last entry to its first and returns the text of the
    first assistant message it meets, the last one of the listing;
    [sow_service.py] goes through the listing from its first entry and
    returns the text of the first assistant message of the listing.  In
    both, the proposal is [content[0].text.value] of the chosen message. *)
Theorem extractor_scan_direction :
  (∀ self rt now file_content name thread run0 run wait_time evs
     listing older m newer text,
     threads_create rt = Ok thread → messages_create rt = Ok tt →
     runs_create rt = Ok run0 →
     poll_loop rt (thread_id thread) run0 0 0 = (Ok (run, wait_time), evs) →
     status run = Py.lit "completed" →
     messages_list rt = Ok listing →
     items listing = older ++ m :: newer →
     is_assistant m = true → Forall not_assistant newer →
     content0_text_value m = Ok text →
     ∃ d evs',
       _process_with_orchestrator self rt now file_content name = (Ok d, evs')
       ∧ d !! "status" = Some success
       ∧ d !! "proposal" = Some (VStr text))
  ∧ (∀ rt now thread file_id wait_time listing older m newer text,
     messages_list rt = Ok listing →
     items listing = older ++ m :: newer →
     is_assistant m = true → Forall not_assistant older →
     content0_text_value m = Ok text →
     ∃ d evs,
       SowService.completed_branch rt now thread file_id wait_time = (Ok d, evs)
       ∧ d !! "status" = Some success
       ∧ d !! "proposal" = Some (VStr text)).
Proof.
  split.
  - intros self rt now file_content name thread run0 run wait_time evs
      listing older m newer text Hth Hmsg Hrun Hpoll Hst Hlist Hitems Hm
      Hnew Htext.
    unfold _process_with_orchestrator. unfold_M.
    rewrite Hth, Hmsg, Hrun, Hpoll, (completed_is_true _ Hst), Hlist.
    unfold first_pass. rewrite Hitems, (find_last_match _ _ _ Hnew Hm), Htext.
    eexists _, _. split; [reflexivity|]. split; reflexivity.
  - intros rt now thread file_id wait_time listing older m newer text
      Hlist Hitems Hm Hold Htext.
    unfold SowService.completed_branch, SowService.next_assistant. unfold_M.
    rewrite Hlist. unfold first_pass.
    rewrite Hitems, (find_first_match _ _ _ _ Hold Hm), Htext.
    eexists _, _. split; [reflexivity|]. split; reflexivity.
Qed.

Lemma extractor_scan_direction_witness :
  (∃ d evs',
     _process_with_orchestrator Example.service0
       (Example.rt_completed Example.two_replies) Example.clock0
       Example.ten_bytes (Py.lit "sow.txt") = (Ok d, evs')
     ∧ d !! "status" = Some success
     ∧ d !! "proposal" = Some (VStr (Py.lit "second")))
  ∧ (∃ d evs,
       SowService.completed_branch
         (Example.rt_completed Example.two_replies) Example.clock0
         (Py.lit "thread_1") (Py.lit "file_1") 0 = (Ok d, evs)
       ∧ d !! "status" = Some success
       ∧ d !! "proposal" = Some (VStr (Py.lit "first"))).
Proof.
  destruct extractor_scan_direction as [Hsimple Hsow]. split.
  - apply (Hsimple Example.service0 (Example.rt_completed Example.two_replies)
             Example.clock0 Example.ten_bytes (Py.lit "sow.txt")
             Example.thread0 (Example.run_with "completed")
             (Example.run_with "completed") 0%Z []
             {| items := Example.two_replies; one_shot := false |}
             [Example.message "user" "request";
              Example.message "assistant" "first"]
             (Example.message "assistant" "second") []);
      try reflexivity.
    constructor.
  - apply (Hsow (Example.rt_completed Example.two_replies) Example.clock0
             (Py.lit "thread_1") (Py.lit "file_1") 0%Z
             {| items := Example.two_replies; one_shot := false |}
             [Example.message "user" "request"]
             (Example.message "assistant" "first")
             [Example.message "assistant" "second"]);
      try reflexivity.
    repeat constructor.
Defined.

(** On a listing with two assistant messages [sow_service.py] returns the
    text of the first of them, while the last entry of the listing, which
    [simple_sow_service.py] returns, is another assistant message. *)
Lemma sow_service_takes_first_listed :
  proposal_of (SowService.completed_branch
                 (Example.rt_completed Example.two_replies) Example.clock0
                 (Py.lit "thread_1") (Py.lit "file_1") 0)
  = Some (VStr (Py.lit "first"))
  ∧ proposal_of (_process_with_orchestrator Example.service0
                   (Example.rt_completed Example.two_replies)
                   Example.clock0 Example.ten_bytes (Py.lit "sow.txt"))
    = Some (VStr (Py.lit "second"))
  ∧ last Example.two_replies = Some (Example.message "assistant" "second")
  ∧ Py.lit "first" ≠ Py.lit "second".
Proof. vm_compute. repeat split. discriminate. Qed.

(** For a completed run whose listing has no assistant message,
    [_process_with_orchestrator] returns an error and no proposal.  When
    the listing can be gone through a second time and every message has a
    text as first content, the error is [No assistant response found in
    thread] and [debug_messages] holds, for each message of the listing,
    its role and the first 100 characters of its text. *)
Theorem no_assistant_reply_is_error
    self rt now file_content name thread run0 run wait_time evs listing :
  threads_create rt = Ok thread → messages_create rt = Ok tt →
  runs_create rt = Ok run0 →
  poll_loop rt (thread_id thread) run0 0 0 = (Ok (run, wait_time), evs) →
  status run = Py.lit "completed" →
  messages_list rt = Ok listing →
  Forall not_assistant (items listing) →
  ∃ d evs',
    _process_with_orchestrator self rt now file_content name = (Ok d, evs')
    ∧ d !! "status" = Some error
    ∧ d !! "proposal" = None
    ∧ ∀ texts,
        one_shot listing = false →
        Forall2 (λ m t, content0_text_value m = Ok t) (items listing) texts →
        d !! "error"
        = Some (VStr (Py.lit "No assistant response found in thread"))
        ∧ d !! "debug_messages"
          = Some (VList (zip_with preview (items listing) texts)).
Proof.
  intros Hth Hmsg Hrun Hpoll Hst Hlist Hnone.
  unfold _process_with_orchestrator. unfold_M.
  rewrite Hth, Hmsg, Hrun, Hpoll, (completed_is_true _ Hst), Hlist.
  unfold first_pass. rewrite find_no_match by (apply Forall_rev; exact Hnone).
  destruct (for_each debug_message (second_pass listing)) as [dbg|e] eqn:Hdbg.
  - eexists _, _. split; [reflexivity|]. split; [reflexivity|].
    split; [reflexivity|]. intros texts Hone Htexts.
    unfold second_pass in Hdbg. rewrite Hone in Hdbg.
    rewrite (for_each_debug_message _ _ Htexts) in Hdbg. injection Hdbg as <-.
    split; reflexivity.
  - eexists _, _. split; [reflexivity|]. split; [reflexivity|].
    split; [reflexivity|]. intros texts Hone Htexts.
    unfold second_pass in Hdbg. rewrite Hone in Hdbg.
    rewrite (for_each_debug_message _ _ Htexts) in Hdbg. discriminate.
Qed.

Lemma no_assistant_reply_is_error_witness :
  ∃ d evs',
    _process_with_orchestrator Example.service0
      (Example.rt_completed Example.no_reply) Example.clock0
      Example.ten_bytes (Py.lit "sow.txt") = (Ok d, evs')
    ∧ d !! "status" = Some error
    ∧ d !! "proposal" = None
    ∧ d !! "error"
      = Some (VStr (Py.lit "No assistant response found in thread"))
    ∧ d !! "debug_messages" = Some (VList [Py.lit "user: request..."]).
Proof.
  destruct (no_assistant_reply_is_error Example.service0
              (Example.rt_completed Example.no_reply) Example.clock0
              Example.ten_bytes (Py.lit "sow.txt") Example.thread0
              (Example.run_with "completed") (Example.run_with "completed")
              0%Z [] {| items := Example.no_reply; one_shot := false |})
    as (d & evs' & Heq & Hst & Hp & Hdbg); try reflexivity.
  { repeat constructor. }
  exists d, evs'. split; [exact Heq|]. split; [exact Hst|].
  split; [exact Hp|].
  apply (Hdbg [Py.lit "request"]); [reflexivity|].
  repeat constructor.
Defined.

(** C1 fails in one of the two files, whichever way the runtime orders its
    listing.  On a listing with two assistant messages
    [simple_sow_service.py] returns the text of the last listed and
    [sow_service.py] the text of the first listed.  When the listing is
    newest first, the most recent assistant message is the first listed
    and [simple_sow_service.py], whose comment says it gets the most
    recent assistant message, returns the oldest one; when the listing is
    oldest first, [sow_service.py] returns the oldest one. *)
Theorem one_extractor_returns_oldest_reply :
  let listing := Example.two_replies in
  let simple :=
    proposal_of (_process_with_orchestrator Example.service0
                   (Example.rt_completed listing) Example.clock0
                   Example.ten_bytes (Py.lit "sow.txt")) in
  let sow :=
    proposal_of (SowService.completed_branch (Example.rt_completed listing)
                   Example.clock0 (Py.lit "thread_1") (Py.lit "file_1") 0) in
  simple = Some (VStr (Py.lit "second"))
  ∧ sow = Some (VStr (Py.lit "first"))
  ∧ text_of (most_recent_assistant NewestFirst listing)
    = Some (VStr (Py.lit "first"))
  ∧ text_of (most_recent_assistant OldestFirst listing)
    = Some (VStr (Py.lit "second"))
  ∧ simple ≠ text_of (most_recent_assistant NewestFirst listing)
  ∧ sow ≠ text_of (most_recent_assistant OldestFirst listing).
Proof. vm_compute. repeat split; discriminate. Qed.

(** C7 fails for the listing the client returns, an iterator.  The source
    goes through [messages] once in [list(messages)] and a second time to
    build [debug_messages]; the second time an iterator yields nothing.
    For a completed run whose listing has no assistant message the result
    is still the error [No assistant response found in thread] without
    proposal, but [debug_messages] is empty whatever messages the listing
    has: there is no preview. *)
Theorem one_shot_listing_gives_empty_preview
    self rt now file_content name thread run0 run wait_time evs listing :
  threads_create rt = Ok thread → messages_create rt = Ok tt →
  runs_create rt = Ok run0 →
  poll_loop rt (thread_id thread) run0 0 0 = (Ok (run, wait_time), evs) →
  status run = Py.lit "completed" →
  messages_list rt = Ok listing →
  Forall not_assistant (items listing) →
  one_shot listing = true →
  ∃ d evs',
    _process_with_orchestrator self rt now file_content name = (Ok d, evs')
    ∧ d !! "status" = Some error
    ∧ d !! "proposal" = None
    ∧ d !! "error"
      = Some (VStr (Py.lit "No assistant response found in thread"))
    ∧ d !! "debug_messages" = Some (VList []).
Proof.
  intros Hth Hmsg Hrun Hpoll Hst Hlist Hnone Hone.
  unfold _process_with_orchestrator. unfold_M.
  rewrite Hth, Hmsg, Hrun, Hpoll, (completed_is_true _ Hst), Hlist.
  unfold first_pass. rewrite find_no_match by (apply Forall_rev; exact Hnone).
  unfold second_pass. rewrite Hone. cbn [for_each].
  eexists _, _. split; [reflexivity|]. repeat split; reflexivity.
Qed.

Lemma one_shot_listing_gives_empty_preview_witness :
  items {| items := Example.no_reply; one_shot := true |}
  = [Example.message "user" "request"]
  ∧ ∃ d evs',
      _process_with_orchestrator Example.service0
        (Scenario.rt_one_shot Example.no_reply) Example.clock0
        Example.ten_bytes (Py.lit "sow.txt") = (Ok d, evs')
      ∧ d !! "status" = Some error
      ∧ d !! "proposal" = None
      ∧ d !! "error"
        = Some (VStr (Py.lit "No assistant response found in thread"))
      ∧ d !! "debug_messages" = Some (VList []).
Proof.
  split; [reflexivity|].
  apply (one_shot_listing_gives_empty_preview Example.service0
           (Scenario.rt_one_shot Example.no_reply) Example.clock0
           Example.ten_bytes (Py.lit "sow.txt") Example.thread0
           (Example.run_with "completed") (Example.run_with "completed")
           0%Z [] {| items := Example.no_reply; one_shot := true |});
    try reflexivity.
  repeat constructor.
Defined.

(** C2 fails for text files: the text of a [.txt] upload is returned as
    decoded, without the cut at 10000 characters that every other extension
    gets, and goes whole into the message sent to the runtime.  Here a
    text file of 10001 characters. *)
Theorem txt_upload_not_truncated :
  N.of_nat (length (_extract_text_content Example.long_text
                      (Py.lit "sow.txt"))) = 10001%N
  ∧ N.of_nat (length (_extract_text_content Example.long_text
                        (Py.lit "sow.pdf"))) = 10000%N
  ∧ sent_contents (_process_with_orchestrator Example.service0
                     (Example.rt_completed Example.two_replies)
                     Example.clock0 Example.long_text (Py.lit "sow.txt")).2
    = [analysis_message (Py.lit "sow.txt")
         (Py.decode_utf8_ignore Example.long_text)].
Proof. vm_compute. repeat split. Qed.

(** What the code does for the other extensions, and for [.txt]. *)
Lemma extract_bounded_unless_txt file_content name :
  Py.endswith (Py.lower name) (Py.lit ".txt") = false →
  (N.of_nat (length (_extract_text_content file_content name)) <= 10000)%N.
Proof.
  intros H. unfold _extract_text_content. rewrite H.
  rewrite length_take. lia.
Qed.

Lemma extract_txt_is_whole_text file_content name :
  Py.endswith (Py.lower name) (Py.lit ".txt") = true →
  _extract_text_content file_content name = Py.decode_utf8_ignore file_content.
Proof. intros H. unfold _extract_text_content. rewrite H. reflexivity. Qed.

End Extractor.

(** *** Encoding and decoding of texts *)

Section Codec.
Import Py.

Ltac nlia := zify; Z.to_euclidean_division_equations; lia.

Ltac cmp_cases :=
  repeat match goal with
  | |- context [(?a <? ?b)%N] => destruct (N.ltb_spec a b); try nlia
  | |- context [(?a <=? ?b)%N] => destruct (N.leb_spec a b); try nlia
  | |- context [(?a =? ?b)%N] => destruct (N.eqb_spec a b); try nlia
  end.

Lemma to_N_byte_of_N n : (n < 256)%N → Byte.to_N (byte_of_N n) = n.
Proof.
  intros Hn. unfold byte_of_N. destruct (Byte.of_N n) as [b|] eqn:E.
  - apply Byte.to_of_N. exact E.
  - apply Byte.of_N_None_iff in E. lia.
Qed.

Lemma is_cont_low6 n : (n < 64)%N → is_cont (0x80 + n) = true.
Proof. intros Hn. unfold is_cont. cmp_cases; try reflexivity. Qed.

Lemma utf8_ignore_1 b r :
  (b < 0x80)%N → utf8_ignore (b :: r) = b :: utf8_ignore r.
Proof. intros Hb. cbn [utf8_ignore]. cmp_cases; try reflexivity. Qed.

Lemma utf8_ignore_2 b0 b1 r :
  (0xC2 <= b0 < 0xE0)%N → is_cont b1 = true →
  utf8_ignore (b0 :: b1 :: r)
  = ((b0 - 0xC0) * 64 + (b1 - 0x80))%N :: utf8_ignore r.
Proof.
  intros Hb H1. cbn [utf8_ignore].
  assert (H2 : second_ok b0 b1 = true)
    by (unfold second_ok; cmp_cases; try exact H1).
  rewrite H2. cmp_cases; try reflexivity.
Qed.

Lemma utf8_ignore_3 b0 b1 b2 r :
  (0xE0 <= b0 < 0xF0)%N → second_ok b0 b1 = true → is_cont b2 = true →
  utf8_ignore (b0 :: b1 :: b2 :: r)
  = ((b0 - 0xE0) * 4096 + (b1 - 0x80) * 64 + (b2 - 0x80))%N :: utf8_ignore r.
Proof.
  intros Hb H1 H2. cbn [utf8_ignore]. rewrite H1, H2.
  cmp_cases; try reflexivity.
Qed.

Lemma utf8_ignore_4 b0 b1 b2 b3 r :
  (0xF0 <= b0 <= 0xF4)%N → second_ok b0 b1 = true →
  is_cont b2 = true → is_cont b3 = true →
  utf8_ignore (b0 :: b1 :: b2 :: b3 :: r)
  = ((b0 - 0xF0) * 262144 + (b1 - 0x80) * 4096
     + (b2 - 0x80) * 64 + (b3 - 0x80))%N :: utf8_ignore r.
Proof.
  intros Hb H1 H2 H3. cbn [utf8_ignore]. rewrite H1, H2, H3.
  cmp_cases; try reflexivity.
Qed.

Lemma decode_encode_char c bs rest :
  encode_char c = Some bs →
  utf8_ignore (map Byte.to_N bs ++ rest) = c :: utf8_ignore rest.
Proof.
  unfold encode_char, is_surrogate.
  destruct (N.ltb_spec c 0x80) as [H1|H1].
  { intros [= <-]. cbn [map app]. rewrite to_N_byte_of_N by lia.
    apply utf8_ignore_1. exact H1. }
  destruct (N.ltb_spec c 0x800) as [H2|H2].
  { intros [= <-]. cbn [map app]. rewrite !to_N_byte_of_N by nlia.
    rewrite utf8_ignore_2; [|nlia|apply is_cont_low6; nlia].
    f_equal. nlia. }
  destruct (N.leb_spec 0xD800 c) as [H3|H3];
    destruct (N.leb_spec c 0xDFFF) as [H4|H4]; cbn [andb]; try discriminate.
  all: destruct (N.ltb_spec c 0x10000) as [H5|H5]; try lia.
  all: try (intros [= <-]; cbn [map app]; rewrite !to_N_byte_of_N by nlia;
            rewrite utf8_ignore_3;
            [f_equal; nlia | nlia
            | unfold second_ok, is_cont; cmp_cases; try reflexivity
            | apply is_cont_low6; nlia]).
  destruct (N.ltb_spec c 0x110000) as [H6|H6]; [|discriminate].
  intros [= <-]. cbn [map app]. rewrite !to_N_byte_of_N by nlia.
  rewrite utf8_ignore_4;
    [f_equal; nlia | nlia
    | unfold second_ok, is_cont; cmp_cases; try reflexivity
    | apply is_cont_low6; nlia | apply is_cont_low6; nlia].
Qed.

(** Decoding the bytes of an encoded text gives the text back. *)
Lemma decode_encode_utf8 s :
  ∀ data, encode_utf8 s = Some data → decode_utf8_ignore data = s.
Proof.
  unfold decode_utf8_ignore.
  induction s as [|c s IH]; intros data; cbn [encode_utf8].
  - intros [= <-]. reflexivity.
  - destruct (encode_char c) as [bs|] eqn:Hc; [|discriminate].
    destruct (encode_utf8 s) as [rest|]; [|discriminate].
    intros [= <-]. rewrite map_app, (decode_encode_char _ _ _ Hc).
    f_equal. apply IH. reflexivity.
Qed.

End Codec.

(** *** Retrieval *)

Section Retrieval.
Import App.

Lemma download_reads_entry isalnum tid storage storage' :
  storage' !! VStr tid = storage !! VStr tid →
  download_proposal isalnum tid storage' = download_proposal isalnum tid storage.
Proof. intros H. unfold download_proposal. rewrite H. reflexivity. Qed.

(** C6.  The download of a job id whose stored proposal is a text that can
    be encoded sends the UTF-8 bytes of that text, and decoding them gives
    the text back.  After a request answered with a success the text
    stored under its thread id is the proposal of the response.  The
    download only reads the storage, and a later request that is not a
    success for the same job id does not change what it sends: a second
    download sends the same bytes. *)
Theorem download_returns_stored_proposal (isalnum : N → bool) :
  (∀ storage tid data text bytes,
     storage !! VStr tid = Some data → proposal data = VStr text →
     Py.encode_utf8 text = Some bytes →
     download_proposal isalnum tid storage
     = SendFile bytes true
         (Py.lit "Azure-Proposal-"
          ++ safe_filename isalnum (proposal_filename data) ++ Py.lit ".txt")
         (Py.lit "text/plain")
     ∧ Py.decode_utf8_ignore bytes = text)
  ∧ (∀ svc rt now request storage resp storage' evs tid text,
       process_sow svc rt now request storage = (Ok (resp, storage'), evs) →
       body resp !! "status" = Some success →
       body resp !! "thread_id" = Some (VStr tid) →
       body resp !! "proposal" = Some (VStr text) →
       ∃ data, storage' !! VStr tid = Some data ∧ proposal data = VStr text)
  ∧ (∀ svc rt now request storage resp storage' evs tid,
       process_sow svc rt now request storage = (Ok (resp, storage'), evs) →
       job_id_of resp ≠ Some (VStr tid) →
       download_proposal isalnum tid storage'
       = download_proposal isalnum tid storage).
Proof.
  split; [|split].
  - intros storage tid data text bytes Hk Hp Henc.
    unfold download_proposal, written, encode. rewrite Hk, Hp, Henc.
    split; [reflexivity|]. apply decode_encode_utf8. exact Henc.
  - intros svc rt now request storage resp storage' evs tid text Heq Hst Htid Hp.
    destruct (process_sow_effect svc rt now request storage)
      as (resp0 & storage0 & evs0 & Heq0 & Heff).
    rewrite Heq in Heq0. injection Heq0 as <- <- <-.
    destruct Heff as [tid' text' data Hst' Htid' Hp' Hd ->|Hst' ->].
    + rewrite Htid in Htid'. injection Htid' as <-.
      rewrite Hp in Hp'. injection Hp' as <-.
      exists data. rewrite lookup_insert_eq. auto.
    + rewrite Hst in Hst'. discriminate.
  - intros svc rt now request storage resp storage' evs tid Heq Hne.
    destruct (process_sow_effect svc rt now request storage)
      as (resp0 & storage0 & evs0 & Heq0 & Heff).
    rewrite Heq in Heq0. injection Heq0 as <- <- <-.
    apply download_reads_entry.
    destruct Heff as [tid' text' data Hst' Htid' Hp' Hd ->|Hst' ->];
      [|reflexivity].
    apply lookup_insert_ne. intros Hk. apply Hne. unfold job_id_of.
    rewrite bool_decide_eq_true_2 by exact Hst'. rewrite Htid', Hk.
    reflexivity.
Qed.

Lemma download_returns_stored_proposal_witness :
  let svc := UseSOWProposalService Example.service0 in
  let first :=
    (process_sow svc (Example.rt_completed_in "thread_1" Example.two_replies)
       Example.clock0 (Example.upload "My SOW.txt" Example.ten_bytes) ∅).1 in
  let storage1 :=
    match first with Ok (_, st) => st | Raise _ => ∅ end in
  let second :=
    (process_sow svc (Example.rt_completed_in "thread_2" Example.no_reply)
       Example.clock0 (Example.upload "other.pdf" Example.ten_bytes)
       storage1).1 in
  let storage2 :=
    match second with Ok (_, st) => st | Raise _ => ∅ end in
  (∃ data, storage1 !! VStr (Py.lit "thread_1") = Some data
           ∧ proposal data = VStr (Py.lit "second"))
  ∧ download_proposal Example.ascii_isalnum (Py.lit "thread_1") storage1
    = SendFile (map Py.byte_of_N (Py.lit "second")) true
        (Py.lit "Azure-Proposal-My SOWtxt.txt") (Py.lit "text/plain")
  ∧ Py.decode_utf8_ignore (map Py.byte_of_N (Py.lit "second"))
    = Py.lit "second"
  ∧ download_proposal Example.ascii_isalnum (Py.lit "thread_1") storage2
    = download_proposal Example.ascii_isalnum (Py.lit "thread_1") storage1.
Proof.
  intros svc first storage1 second storage2.
  destruct (download_returns_stored_proposal Example.ascii_isalnum)
    as (Hread & Hstored & Hlater).
  assert (Hentry : ∃ data, storage1 !! VStr (Py.lit "thread_1") = Some data
                           ∧ proposal data = VStr (Py.lit "second")).
  { eapply (Hstored svc
              (Example.rt_completed_in "thread_1" Example.two_replies)
              Example.clock0 (Example.upload "My SOW.txt" Example.ten_bytes) ∅);
      [vm_compute; reflexivity|reflexivity..]. }
  split; [exact Hentry|].
  destruct Hentry as (data & Hk & Hp).
  destruct (Hread storage1 (Py.lit "thread_1") data (Py.lit "second")
              (map Py.byte_of_N (Py.lit "second")) Hk Hp) as [Hsend Hdec];
    [vm_compute; reflexivity|].
  split; [|split; [exact Hdec|]].
  - rewrite Hsend. f_equal.
    assert (Hname : proposal_filename data = Py.lit "My SOW.txt").
    { vm_compute in Hk. injection Hk as <-. reflexivity. }
    rewrite Hname. vm_compute. reflexivity.
  - eapply (Hlater svc
              (Example.rt_completed_in "thread_2" Example.no_reply)
              Example.clock0 (Example.upload "other.pdf" Example.ten_bytes)
              storage1); [vm_compute; reflexivity|].
    vm_compute. discriminate.
Defined.

End Retrieval.

(** *** Texts *)

Section Texts.
Import Py.

Ltac nlia := zify; Z.to_euclidean_division_equations; lia.

Ltac cmp_cases :=
  repeat match goal with
  | |- context [(?a <? ?b)%N] => destruct (N.ltb_spec a b); try nlia
  | |- context [(?a <=? ?b)%N] => destruct (N.leb_spec a b); try nlia
  | |- context [(?a =? ?b)%N] => destruct (N.eqb_spec a b); try nlia
  end.

Lemma utf8_ignore_length_upto (n : nat) :
  ∀ bs, (length bs ≤ n)%nat → (length (utf8_ignore bs) ≤ length bs)%nat.
Proof.
  induction n as [|n IH]; intros bs Hn.
  - destruct bs; [simpl; lia|simpl in Hn; lia].
  - destruct bs as [|b0 r0]; [simpl; lia|]. cbn [utf8_ignore].
    repeat match goal with
    | |- context [if ?c then _ else _] => destruct c
    | |- context [match ?l with [] => _ | _ :: _ => _ end] => destruct l
    end;
    cbn [length] in *;
    try match goal with
    | |- context [utf8_ignore ?x] =>
      pose proof (IH x ltac:(cbn [length]; lia)); cbn [length] in *
    end; lia.
Qed.

Lemma decode_length b :
  (length (decode_utf8_ignore b) ≤ length b)%nat.
Proof.
  unfold decode_utf8_ignore.
  pose proof (utf8_ignore_length_upto (length (map Byte.to_N b))
                (map Byte.to_N b) ltac:(lia)) as H.
  rewrite length_map in H. exact H.
Qed.

Lemma sub_spaces_from_length b s :
  (length (sub_spaces_from b s) ≤ length s)%nat.
Proof.
  revert b. induction s as [|c s IH]; intros b; cbn [sub_spaces_from length].
  - lia.
  - destruct (isspace c); [destruct b|]; cbn [length];
      match goal with |- context [sub_spaces_from ?x s] =>
        pose proof (IH x) end; lia.
Qed.

Lemma lstrip_drop s : ∃ k, lstrip s = drop k s.
Proof.
  induction s as [|c s [k IH]]; [exists 0%nat; reflexivity|].
  cbn [lstrip]. destruct (isspace c); [exists (S k); exact IH|].
  exists 0%nat. reflexivity.
Qed.

Lemma rstrip_take s : ∃ k, rstrip s = take k s.
Proof.
  unfold rstrip. destruct (lstrip_drop (rev s)) as [k ->].
  exists (length s - k)%nat. rewrite skipn_rev, rev_involutive. reflexivity.
Qed.

Lemma strip_length s : (length (strip s) ≤ length s)%nat.
Proof.
  unfold strip. destruct (rstrip_take (lstrip s)) as [k ->].
  destruct (lstrip_drop s) as [j ->].
  rewrite length_take, length_drop. lia.
Qed.

Lemma lstrip_head s c : head (lstrip s) = Some c → isspace c = false.
Proof.
  induction s as [|x s IH]; cbn [lstrip]; [discriminate|].
  destruct (isspace x) eqn:Hx; [exact IH|]. cbn. intros [= <-]. exact Hx.
Qed.

Lemma lstrip_snoc s c :
  isspace c = false → lstrip (s ++ [c]) = lstrip s ++ [c].
Proof.
  intros Hc. induction s as [|x s IH]; cbn [lstrip app].
  - rewrite Hc. reflexivity.
  - destruct (isspace x); [exact IH|reflexivity].
Qed.

Lemma rstrip_head s c :
  head s = Some c → isspace c = false → head (rstrip s) = Some c.
Proof.
  destruct s as [|x s]; [discriminate|]. cbn. intros [= ->] Hc.
  unfold rstrip. cbn [rev]. rewrite lstrip_snoc by exact Hc.
  rewrite rev_app_distr. reflexivity.
Qed.

Lemma strip_head s c : head (strip s) = Some c → isspace c = false.
Proof.
  unfold strip. intros H.
  destruct (lstrip s) as [|x l] eqn:Hl.
  - discriminate.
  - assert (Hx : isspace x = false) by (apply (lstrip_head s); rewrite Hl; reflexivity).
    rewrite (rstrip_head (x :: l) x eq_refl Hx) in H. injection H as <-.
    exact Hx.
Qed.

Lemma has_double_space_drop k s :
  has_double_space s = false → has_double_space (drop k s) = false.
Proof.
  revert s. induction k as [|k IH]; intros s H; [exact H|].
  destruct s as [|c s]; [reflexivity|]. cbn [drop skipn]. apply IH.
  cbn [has_double_space] in H. apply orb_false_iff in H as [_ H]. exact H.
Qed.

Lemma has_double_space_take k s :
  has_double_space s = false → has_double_space (take k s) = false.
Proof.
  revert s. induction k as [|k IH]; intros s H; [reflexivity|].
  destruct s as [|c1 s]; [reflexivity|]. cbn [take firstn].
  cbn [has_double_space] in H. apply orb_false_iff in H as [H1 H2].
  cbn [has_double_space]. rewrite (IH s H2), orb_false_r.
  destruct s as [|c2 s]; [destruct k; reflexivity|].
  destruct k; [reflexivity|]. exact H1.
Qed.

Lemma not_space_32 : isspace 32 = true.
Proof. reflexivity. Qed.

Lemma sub_spaces_from_single b s :
  has_double_space (sub_spaces_from b s) = false
  ∧ (b = true → head (sub_spaces_from b s) ≠ Some 32%N).
Proof.
  revert b. induction s as [|c s IH]; intros b; cbn [sub_spaces_from].
  - split; [reflexivity|discriminate].
  - destruct (isspace c) eqn:Hc.
    + destruct b.
      * exact (IH true).
      * destruct (IH true) as [H1 H2]. split; [|discriminate].
        cbn [has_double_space]. rewrite H1, orb_false_r.
        destruct (sub_spaces_from true s) as [|c2 r] eqn:Hr; [reflexivity|].
        cbn. destruct (N.eqb_spec c2 32) as [->|]; [|reflexivity].
        exfalso. apply H2; reflexivity.
    + destruct (IH false) as [H1 _]. split.
      * cbn [has_double_space]. rewrite H1, orb_false_r.
        destruct (N.eqb_spec c 32) as [->|]; [discriminate|].
        destruct (sub_spaces_from false s); reflexivity.
      * intros _. cbn. intros [= ->]. discriminate.
Qed.

Lemma sub_spaces_visible s :
  Forall (λ c, printable c = true) s →
  Forall (λ c, (0x20 <= c <= 0x7E)%N) (sub_spaces s).
Proof.
  unfold sub_spaces. generalize false. intros b H. revert b.
  induction H as [|c s Hc H IH]; intros b; cbn [sub_spaces_from];
    [constructor|].
  destruct (isspace c) eqn:Hs.
  - destruct b; [apply IH|]. constructor; [lia|apply IH].
  - constructor; [|apply IH].
    unfold printable in Hc. unfold isspace in Hs.
    revert Hc Hs. cmp_cases; cbn; intros; try discriminate; lia.
Qed.

Lemma sub_nonprintable_printable s :
  Forall (λ c, printable c = true) (sub_nonprintable s).
Proof.
  unfold sub_nonprintable. apply Forall_map. apply Forall_forall.
  intros c _. cbn. destruct (printable c) eqn:H; [exact H|reflexivity].
Qed.

Lemma strip_visible (P : N → Prop) s : Forall P s → Forall P (strip s).
Proof.
  intros H. unfold strip. destruct (rstrip_take (lstrip s)) as [k ->].
  destruct (lstrip_drop s) as [j ->].
  apply Forall_take, Forall_drop. exact H.
Qed.

Lemma strip_single s :
  has_double_space s = false → has_double_space (strip s) = false.
Proof.
  intros H. unfold strip. destruct (rstrip_take (lstrip s)) as [k ->].
  destruct (lstrip_drop s) as [j ->].
  apply has_double_space_take, has_double_space_drop. exact H.
Qed.

End Texts.

(** *** File names and extensions *)

Section Names.
Import Py.

Lemma endswith_drop s n : endswith s (drop n s) = true.
Proof.
  unfold endswith. apply bool_decide_eq_true_2.
  rewrite length_drop.
  destruct (decide (n ≤ length s)%nat) as [H|H].
  - replace (length s - (length s - n))%nat with n by lia. reflexivity.
  - rewrite !drop_ge by lia. reflexivity.
Qed.

Lemma endswith_last s suffix c :
  endswith s suffix = true → last suffix = Some c → last s = Some c.
Proof.
  unfold endswith. intros H Hc. apply bool_decide_eq_true_1 in H.
  rewrite <- (take_drop (length s - length suffix) s), H.
  rewrite last_app, Hc. reflexivity.
Qed.

Lemma endswith_differ s suffix1 suffix2 c1 c2 :
  endswith s suffix1 = true → last suffix1 = Some c1 →
  last suffix2 = Some c2 → c1 ≠ c2 → endswith s suffix2 = false.
Proof.
  intros H1 Hc1 Hc2 Hne. destruct (endswith s suffix2) eqn:H2; [|reflexivity].
  pose proof (endswith_last _ _ _ H1 Hc1) as Ha.
  pose proof (endswith_last _ _ _ H2 Hc2) as Hb. congruence.
Qed.

Lemma rfind_from_absent c s : ∀ i found, c ∉ s → rfind_from c s i found = found.
Proof.
  induction s as [|x s IH]; intros i found H; cbn [rfind_from]; [reflexivity|].
  apply not_elem_of_cons in H as [Hx Hs].
  destruct (N.eqb_spec x c) as [->|_]; [congruence|]. apply IH. exact Hs.
Qed.

Lemma rfind_from_range c s :
  ∀ i found, (found < i)%Z →
    rfind_from c s i found = found
    ∨ (i ≤ rfind_from c s i found < i + Z.of_nat (length s))%Z.
Proof.
  induction s as [|x s IH]; intros i found H; cbn [rfind_from length];
    [left; reflexivity|].
  destruct (N.eqb_spec x c) as [->|_].
  - destruct (IH (i + 1)%Z i ltac:(lia)) as [->|Hr]; right; lia.
  - destruct (IH (i + 1)%Z found ltac:(lia)) as [->|Hr]; [left; reflexivity|].
    right; lia.
Qed.

Lemma splitext_ext_suffix p : ∃ n, (splitext p).2 = drop n p.
Proof.
  unfold splitext.
  destruct (_ <? _)%Z; [|exists (length p); rewrite drop_all; reflexivity].
  cbv zeta. destruct (existsb _ _); [eexists; reflexivity|].
  exists (length p). rewrite drop_all. reflexivity.
Qed.

Lemma splitext_ext_endswith p : endswith p (splitext p).2 = true.
Proof. destruct (splitext_ext_suffix p) as [n ->]. apply endswith_drop. Qed.

Lemma splitext_no_dot p : dot ∉ p → (splitext p).2 = [].
Proof.
  intros H. unfold splitext. unfold rfind at 2.
  rewrite (rfind_from_absent dot p 0 (-1) H).
  destruct (rfind_from_range slash p 0 (-1) ltac:(lia)) as [Hr|Hr];
    unfold rfind; destruct (Z.ltb_spec (rfind_from slash p 0 (-1)) (-1));
    try lia; reflexivity.
Qed.

Lemma splitext_leading_dot e :
  dot ∉ e → slash ∉ e → (splitext (dot :: e)).2 = [].
Proof.
  intros Hd Hs. unfold splitext, rfind. cbn [rfind_from].
  change ((dot =? slash)%N) with false. change ((dot =? dot)%N) with true.
  rewrite (rfind_from_absent slash e _ _ Hs), (rfind_from_absent dot e _ _ Hd).
  reflexivity.
Qed.

Lemma lower_char_dot c : lower_char c = dot ↔ c = dot.
Proof.
  unfold lower_char, dot.
  destruct (N.leb_spec 65 c); destruct (N.leb_spec c 90); cbn; lia.
Qed.

Lemma lower_char_slash c : lower_char c = slash ↔ c = slash.
Proof.
  unfold lower_char, slash.
  destruct (N.leb_spec 65 c); destruct (N.leb_spec c 90); cbn; lia.
Qed.

Lemma lower_no_dot s : dot ∉ s → dot ∉ lower s.
Proof.
  intros H Hc. apply H. unfold lower in Hc.
  apply list_elem_of_fmap in Hc as (c & Hc & Hin).
  symmetry in Hc. apply (proj1 (lower_char_dot c)) in Hc. rewrite <- Hc.
  exact Hin.
Qed.

Lemma lower_no_slash s : slash ∉ s → slash ∉ lower s.
Proof.
  intros H Hc. apply H. unfold lower in Hc.
  apply list_elem_of_fmap in Hc as (c & Hc & Hin).
  symmetry in Hc. apply (proj1 (lower_char_slash c)) in Hc. rewrite <- Hc.
  exact Hin.
Qed.

Lemma allowed_extension_cases ext :
  ext ∈ App.allowed_extensions →
  ext = lit ".pdf" ∨ ext = lit ".docx" ∨ ext = lit ".doc" ∨ ext = lit ".txt".
Proof.
  unfold App.allowed_extensions. rewrite !elem_of_union, !elem_of_singleton.
  tauto.
Qed.

End Names.

(** *** The text extracted from an upload *)

Section ExtractedText.
Import SimpleSowService.

Lemma not_txt_when_other_extension s ext :
  Py.endswith s ext = true →
  ext = Py.lit ".pdf" ∨ ext = Py.lit ".docx" ∨ ext = Py.lit ".doc" →
  Py.endswith s (Py.lit ".txt") = false.
Proof.
  intros H [->|[->| ->]];
    eapply (endswith_differ s _ (Py.lit ".txt") _ 116%N); eauto;
    first [reflexivity|discriminate].
Qed.

(** X1.  For a name whose extension [process_sow] accepts, the text
    extracted from the upload has at most 10000 characters unless the
    extension is [.txt]; for [.txt] it is the whole decoded content. *)
Theorem accepted_upload_text_bound file_content name :
  (Py.splitext (Py.lower name)).2 ∈ App.allowed_extensions →
  ((Py.splitext (Py.lower name)).2 ≠ Py.lit ".txt" →
   (N.of_nat (length (_extract_text_content file_content name)) <= 10000)%N)
  ∧ ((Py.splitext (Py.lower name)).2 = Py.lit ".txt" →
     _extract_text_content file_content name
     = Py.decode_utf8_ignore file_content).
Proof.
  intros Hext. pose proof (splitext_ext_endswith (Py.lower name)) as Hend.
  split.
  - intros Hne. apply extract_bounded_unless_txt.
    apply (not_txt_when_other_extension _ _ Hend).
    destruct (allowed_extension_cases _ Hext) as [H|[H|[H|H]]]; auto.
    contradiction.
  - intros Heq. apply extract_txt_is_whole_text. rewrite Heq in Hend.
    exact Hend.
Qed.

Lemma accepted_upload_text_bound_witness :
  (N.of_nat (length (_extract_text_content Example.long_text
                       (Py.lit "Plan.DOCX"))) <= 10000)%N
  ∧ _extract_text_content Example.long_text (Py.lit "notes.txt")
    = Py.decode_utf8_ignore Example.long_text.
Proof.
  split.
  - apply (accepted_upload_text_bound Example.long_text (Py.lit "Plan.DOCX")).
    + apply (bool_decide_eq_true_1 _). vm_compute. reflexivity.
    + vm_compute. discriminate.
  - apply (accepted_upload_text_bound Example.long_text (Py.lit "notes.txt")).
    + apply (bool_decide_eq_true_1 _). vm_compute. reflexivity.
    + vm_compute. reflexivity.
Defined.

Lemma word_name_is_not_txt s :
  Py.endswith_any s [Py.lit ".doc"; Py.lit ".docx"] = true →
  Py.endswith s (Py.lit ".txt") = false.
Proof.
  unfold Py.endswith_any. cbn [existsb]. rewrite orb_false_r.
  intros H. apply orb_true_iff in H as [H|H];
    apply (not_txt_when_other_extension _ _ H); auto.
Qed.

(** X2.  The text extracted from a [.doc] or [.docx] upload holds only
    the characters U+0020 to U+007E, never two spaces in a row, does not
    start with a space and has at most 10000 characters. *)
Theorem word_text_is_clean file_content name :
  Py.endswith_any (Py.lower name) [Py.lit ".doc"; Py.lit ".docx"] = true →
  let text := _extract_text_content file_content name in
  Forall (λ c, (0x20 <= c <= 0x7E)%N) text
  ∧ has_double_space text = false
  ∧ head text ≠ Some 32%N
  ∧ (N.of_nat (length text) <= 10000)%N.
Proof.
  intros Hdoc text. subst text. unfold _extract_text_content.
  rewrite (word_name_is_not_txt _ Hdoc), Hdoc.
  set (clean := Py.strip (Py.sub_spaces
                 (Py.sub_nonprintable (Py.decode_utf8_ignore file_content)))).
  assert (Hvis : Forall (λ c, (0x20 <= c <= 0x7E)%N) clean).
  { apply strip_visible, sub_spaces_visible, sub_nonprintable_printable. }
  assert (Hsingle : has_double_space clean = false).
  { apply strip_single, sub_spaces_from_single. }
  split; [apply Forall_take; exact Hvis|].
  split; [apply has_double_space_take; exact Hsingle|].
  split; [|rewrite length_take; lia].
  intros Hh. destruct clean as [|c r] eqn:Hc; [discriminate|].
  cbn in Hh. injection Hh as ->.
  assert (Hs : Py.isspace 32 = false).
  { apply (strip_head (Py.sub_spaces (Py.sub_nonprintable
             (Py.decode_utf8_ignore file_content)))).
    fold clean. rewrite Hc. reflexivity. }
  discriminate.
Qed.

Lemma word_text_is_clean_witness :
  let text :=
    _extract_text_content Scenario.word_bytes (Py.lit "Plan.DOCX") in
  Forall (λ c, (0x20 <= c <= 0x7E)%N) text
  ∧ has_double_space text = false
  ∧ head text ≠ Some 32%N
  ∧ (N.of_nat (length text) <= 10000)%N.
Proof.
  apply (word_text_is_clean Scenario.word_bytes (Py.lit "Plan.DOCX")).
  vm_compute. reflexivity.
Defined.

End ExtractedText.

Section DocumentLength.
Import SimpleSowService.

(** X3.  A [.txt] upload (in any letter case) that is the UTF-8 encoding
    of a text is extracted as exactly that text. *)
Theorem txt_upload_read_back text data name :
  Py.encode_utf8 text = Some data →
  Py.endswith (Py.lower name) (Py.lit ".txt") = true →
  _extract_text_content data name = text.
Proof.
  intros Henc Htxt. rewrite (extract_txt_is_whole_text _ _ Htxt).
  apply decode_encode_utf8. exact Henc.
Qed.

Lemma txt_upload_read_back_witness :
  _extract_text_content
    (list_byte_of_string "Budget: 10 000 € – équipe α") (Py.lit "Offre.TXT")
  = Py.lit "Budget: 10 000 € – équipe α".
Proof.
  apply txt_upload_read_back.
  - vm_compute. reflexivity.
  - vm_compute. reflexivity.
Defined.

Lemma extract_length file_content name :
  (length (_extract_text_content file_content name) ≤ length file_content)%nat.
Proof.
  unfold _extract_text_content.
  pose proof (decode_length file_content) as Hd.
  destruct (Py.endswith _ _); [exact Hd|].
  rewrite length_take. etransitivity; [apply Nat.le_min_r|].
  destruct (Py.endswith_any _ _); [|exact Hd].
  etransitivity; [apply strip_length|].
  etransitivity; [apply sub_spaces_from_length|].
  unfold Py.sub_nonprintable. rewrite length_map. exact Hd.
Qed.

Lemma returned_inv {A} (a b : A) (evs evs' : list event) :
  (Ok a, evs) = (Ok b, evs') → a = b.
Proof. intros H. congruence. Qed.

Lemma orchestrator_document_length self rt now file_content name :
  ∃ d evs,
    _process_with_orchestrator self rt now file_content name = (Ok d, evs)
    ∧ (d !! "document_length" = None
       ∨ d !! "document_length"
         = Some (VInt (Z.of_nat
                   (length (_extract_text_content file_content name))))).
Proof.
  unfold _process_with_orchestrator. unfold_M.
  destruct (threads_create rt) as [thread|e];
    [|eexists _, _; split; [reflexivity|left; reflexivity]].
  destruct (messages_create rt) as [[]|e];
    [|eexists _, _; split; [reflexivity|left; reflexivity]].
  destruct (runs_create rt) as [run0|e];
    [|eexists _, _; split; [reflexivity|left; reflexivity]].
  destruct (poll_loop rt (thread_id thread) run0 0 0) as [[[run wt]|e] pevs];
    [|eexists _, _; split; [reflexivity|left; reflexivity]].
  destruct (bool_decide (status run = Py.lit "completed"));
    [|eexists _, _; split; [reflexivity|left; reflexivity]].
  destruct (messages_list rt) as [listing|e];
    [|eexists _, _; split; [reflexivity|left; reflexivity]].
  destruct (find is_assistant (rev (first_pass listing))) as [m|].
  - destruct (content0_text_value m) as [text|e];
      [|eexists _, _; split; [reflexivity|left; reflexivity]].
    eexists _, _; split; [reflexivity|right; reflexivity].
  - destruct (for_each debug_message (second_pass listing)) as [dbg|e];
      eexists _, _; (split; [reflexivity|left; reflexivity]).
Qed.

(** X4.  The extracted text never has more characters than the file has
    bytes, so a [document_length] reported by [_process_with_orchestrator]
    lies between 0 and the size of the file. *)
Theorem text_no_longer_than_file self rt now file_content name d evs :
  _process_with_orchestrator self rt now file_content name = (Ok d, evs) →
  (length (_extract_text_content file_content name) ≤ length file_content)%nat
  ∧ ∀ n, d !! "document_length" = Some (VInt n) →
      (0 ≤ n ≤ Z.of_nat (length file_content))%Z.
Proof.
  intros Heq. pose proof (extract_length file_content name) as Hlen.
  split; [exact Hlen|].
  destruct (orchestrator_document_length self rt now file_content name)
    as (d0 & evs0 & Heq0 & Hd).
  rewrite Heq in Heq0. apply returned_inv in Heq0. subst d0.
  intros n Hn. rewrite Hn in Hd. destruct Hd as [Hd|Hd]; [discriminate|].
  assert (n = Z.of_nat (length (_extract_text_content file_content name)))
    by congruence.
  lia.
Qed.

Lemma text_no_longer_than_file_witness :
  let out :=
    _process_with_orchestrator Example.service0
      (Example.rt_completed Example.two_replies) Example.clock0
      Example.ten_bytes (Py.lit "sow.docx") in
  (length (_extract_text_content Example.ten_bytes (Py.lit "sow.docx"))
   ≤ length Example.ten_bytes)%nat
  ∧ ∀ n, returned out !! "document_length" = Some (VInt n) →
      (0 ≤ n ≤ Z.of_nat (length Example.ten_bytes))%Z.
Proof.
  intros out.
  apply (text_no_longer_than_file Example.service0
           (Example.rt_completed Example.two_replies) Example.clock0
           Example.ten_bytes (Py.lit "sow.docx") (returned out) out.2).
  vm_compute. reflexivity.
Defined.

End DocumentLength.

(** *** Names without extension *)

Section Extensions.
Import App.

(** X5.  A file whose name has no dot, or only a leading dot (such as
    [.txt]), has the empty extension and is answered 400
    [Unsupported file type], without any event. *)
Theorem name_without_extension_rejected
    svc rt now request storage file name :
  files request !! "file" = Some file →
  filename file = Some name → name ≠ [] →
  Py.dot ∉ name
  ∨ (∃ e, name = cons Py.dot e ∧ (Py.dot ∉ e) ∧ (Py.slash ∉ e)) →
  process_sow svc rt now request storage
  = (Ok (rejected (unsupported_message []) 400, storage), []).
Proof.
  intros H Hn Hne Hdot.
  assert (Hext : (Py.splitext (Py.lower name)).2 = []).
  { destruct Hdot as [Hdot|(e & -> & Hd & Hs)].
    - apply splitext_no_dot, lower_no_dot. exact Hdot.
    - change (Py.lower (Py.dot :: e)) with (Py.dot :: Py.lower e).
      apply splitext_leading_dot; [apply lower_no_dot|apply lower_no_slash];
        assumption. }
  rewrite <- Hext.
  apply (process_sow_bad_extension _ _ _ _ _ file); try assumption.
  rewrite Hext. apply no_extension_not_allowed.
Qed.

Lemma name_without_extension_rejected_witness :
  process_sow UseMockSOWService Example.rt_queued Example.clock0
    (Example.upload "README" Example.ten_bytes) ∅
  = (Ok (rejected (unsupported_message []) 400, ∅), [])
  ∧ process_sow UseMockSOWService Example.rt_queued Example.clock0
      (Example.upload ".txt" Example.ten_bytes) ∅
    = (Ok (rejected (unsupported_message []) 400, ∅), []).
Proof.
  split.
  - apply (name_without_extension_rejected _ _ _ _ _
             {| filename := Some (Py.lit "README");
                stream := Example.ten_bytes |} (Py.lit "README"));
      [reflexivity|reflexivity|vm_compute; discriminate|].
    left. apply (bool_decide_eq_false_1 _). vm_compute. reflexivity.
  - apply (name_without_extension_rejected _ _ _ _ _
             {| filename := Some (Py.lit ".txt");
                stream := Example.ten_bytes |} (Py.lit ".txt"));
      [reflexivity|reflexivity|vm_compute; discriminate|].
    right. exists (Py.lit "txt"). split; [reflexivity|].
    split; apply (bool_decide_eq_false_1 _); vm_compute; reflexivity.
Defined.

End Extensions.

(** *** The calls of a job *)

Section Calls.
Import SimpleSowService.



Ltac full_trace :=
  eexists _, _; (split; [reflexivity|]); right;
  match goal with
  | Hlen : (length ?ids ≤ 30)%nat |- ∃ t i, Ok ?thread = Ok t ∧ _ =>
    exists thread, ids; (split; [reflexivity|]); (split; [exact Hlen|]);
    exists []; cbn [app]; rewrite ?app_nil_r; reflexivity
  end.

(** X6.  [_process_with_orchestrator] always returns a dictionary, and
    its calls are [threads.create] alone or an initial part of: the thread,
    the message and the run created, at most 30 rounds of a sleep of 10
    seconds followed by a status query, and one listing of the messages. *)
Theorem runtime_calls_in_order self rt now file_content name :
  ∃ d evs,
    _process_with_orchestrator self rt now file_content name = (Ok d, evs)
    ∧ (evs = [ThreadsCreate]
       ∨ ∃ thread ids,
           threads_create rt = Ok thread
           ∧ (length ids ≤ 30)%nat
           ∧ evs `prefix_of`
               (submission self thread file_content name
                ++ poll_events (thread_id thread) ids
                ++ [MessagesList (thread_id thread)])).
Proof.
  unfold _process_with_orchestrator, submission. unfold_M.
  destruct (threads_create rt) as [thread|e];
    [|eexists _, _; split; [reflexivity|left; reflexivity]].
  destruct (poll_loop_trace rt (thread_id thread) 30
              (match runs_create rt with Ok r => r | Raise _ =>
                 {| run_id := []; status := []; last_error := None |} end)
              0 0) as (ids & r & Heq & Hlen & _);
    [unfold max_wait_time; lia|].
  destruct (messages_create rt) as [[]|e].
  2:{ eexists _, _; split; [reflexivity|]. right. exists thread, [].
      split; [reflexivity|]. split; [cbn; lia|].
      eexists. cbn [app]. reflexivity. }
  destruct (runs_create rt) as [run0|e].
  2:{ eexists _, _; split; [reflexivity|]. right. exists thread, [].
      split; [reflexivity|]. split; [cbn; lia|].
      eexists. cbn [app]. reflexivity. }
  rewrite Heq.
  destruct r as [[run wt]|e].
  2:{ eexists _, _; split; [reflexivity|]. right. exists thread, ids.
      split; [reflexivity|]. split; [exact Hlen|].
      exists [MessagesList (thread_id thread)]. cbn [app].
      rewrite app_nil_r. reflexivity. }
  destruct (bool_decide (status run = Py.lit "completed")).
  2:{ eexists _, _; split; [reflexivity|]. right. exists thread, ids.
      split; [reflexivity|]. split; [exact Hlen|].
      exists [MessagesList (thread_id thread)]. cbn [app].
      rewrite !app_nil_r. reflexivity. }
  destruct (messages_list rt) as [listing|e]; [|full_trace].
  destruct (find is_assistant (rev (first_pass listing))) as [m|].
  - destruct (content0_text_value m) as [text|e]; full_trace.
  - destruct (for_each debug_message (second_pass listing)) as [dbg|e];
      full_trace.
Qed.

(** X7.  When creating the thread, the message or the run raises [e],
    the job returns the error [Orchestrator processing failed: e] and stops
    at the failing call: nothing is polled and no messages are listed. *)
Theorem submission_failure_stops_the_job self rt now file_content name e :
  (threads_create rt = Raise e →
   _process_with_orchestrator self rt now file_content name
   = (Ok (orchestrator_failed e), [ThreadsCreate]))
  ∧ (∀ thread,
       threads_create rt = Ok thread → messages_create rt = Raise e →
       _process_with_orchestrator self rt now file_content name
       = (Ok (orchestrator_failed e),
          take 2 (submission self thread file_content name)))
  ∧ (∀ thread,
       threads_create rt = Ok thread → messages_create rt = Ok tt →
       runs_create rt = Raise e →
       _process_with_orchestrator self rt now file_content name
       = (Ok (orchestrator_failed e),
          submission self thread file_content name)).
Proof.
  unfold _process_with_orchestrator, orchestrator_failed, submission.
  unfold_M. split; [|split].
  - intros ->. reflexivity.
  - intros thread -> ->. reflexivity.
  - intros thread -> -> ->. reflexivity.
Qed.

Lemma submission_failure_stops_the_job_witness :
  let e := Py.lit "connection refused" in
  let run rt :=
    _process_with_orchestrator Example.service0 rt Example.clock0
      Example.ten_bytes (Py.lit "sow.pdf") in
  let sent :=
    submission Example.service0 Example.thread0 Example.ten_bytes
      (Py.lit "sow.pdf") in
  run Scenario.rt_no_thread = (Ok (orchestrator_failed e), [ThreadsCreate])
  ∧ run Scenario.rt_no_message = (Ok (orchestrator_failed e), take 2 sent)
  ∧ run Scenario.rt_no_run = (Ok (orchestrator_failed e), sent).
Proof.
  intros e run sent. split; [|split].
  - apply (submission_failure_stops_the_job Example.service0
             Scenario.rt_no_thread Example.clock0 Example.ten_bytes
             (Py.lit "sow.pdf") e). reflexivity.
  - apply (submission_failure_stops_the_job Example.service0
             Scenario.rt_no_message Example.clock0 Example.ten_bytes
             (Py.lit "sow.pdf") e); reflexivity.
  - apply (submission_failure_stops_the_job Example.service0
             Scenario.rt_no_run Example.clock0 Example.ten_bytes
             (Py.lit "sow.pdf") e); reflexivity.
Defined.

(** X8.  When polling ends with a status other than [completed], the
    messages are not listed and the result is an error that carries the
    status of the run and the time waited, no proposal and no thread id;
    its text ends with [last_error] when the run has one, and is the bare
    status text when it has none and fewer than 300 seconds were waited. *)
Theorem failed_run_is_reported
    self rt now file_content name thread run0 run wait_time pevs :
  threads_create rt = Ok thread → messages_create rt = Ok tt →
  runs_create rt = Ok run0 →
  poll_loop rt (thread_id thread) run0 0 0 = (Ok (run, wait_time), pevs) →
  status run ≠ Py.lit "completed" →
  ∃ d,
    _process_with_orchestrator self rt now file_content name
    = (Ok d, submission self thread file_content name ++ pevs)
    ∧ d !! "status" = Some error
    ∧ d !! "run_status" = Some (VStr (status run))
    ∧ d !! "processing_time" = Some (VInt wait_time)
    ∧ d !! "proposal" = None
    ∧ d !! "thread_id" = None
    ∧ (∀ e, last_error run = Some e →
         d !! "error"
         = Some (VStr (Py.lit "GPT-4o processing failed with status: "
                       ++ status run ++ Py.lit " - " ++ e)))
    ∧ (last_error run = None → (wait_time < 300)%Z →
       d !! "error"
       = Some (VStr (Py.lit "GPT-4o processing failed with status: "
                     ++ status run))).
Proof.
  intros Hth Hmsg Hrun Hpoll Hst.
  unfold _process_with_orchestrator, submission. unfold_M.
  rewrite Hth, Hmsg, Hrun, Hpoll.
  rewrite bool_decide_eq_false_2 by exact Hst.
  eexists. split; [cbn [app]; rewrite ?app_nil_r; reflexivity|].
  do 5 (split; [reflexivity|]).
  assert (Herr : ∀ m, dict_of
            [("status", VStr (Py.lit "error"));
             ("error", VStr m);
             ("processing_time", VInt wait_time);
             ("run_status", VStr (status run));
             ("model_used", VStr (Py.lit "gpt-4o"))] !! "error"
          = Some (VStr m)) by reflexivity.
  rewrite Herr. unfold failure_message. split.
  - intros e ->. rewrite <- app_assoc. reflexivity.
  - intros -> Hlt. unfold max_wait_time.
    destruct (Z.leb_spec 300 wait_time) as [?|_]; [lia|reflexivity].
Qed.

Lemma failed_run_is_reported_witness :
  ∃ d,
    _process_with_orchestrator Example.service0 Scenario.rt_failed
      Example.clock0 Example.ten_bytes (Py.lit "sow.pdf")
    = (Ok d, submission Example.service0 Example.thread0 Example.ten_bytes
               (Py.lit "sow.pdf") ++ [])
    ∧ d !! "status" = Some error
    ∧ d !! "run_status" = Some (VStr (Py.lit "failed"))
    ∧ d !! "processing_time" = Some (VInt 0)
    ∧ d !! "proposal" = None
    ∧ d !! "thread_id" = None
    ∧ d !! "error"
      = Some (VStr (Py.lit "GPT-4o processing failed with status: failed - rate_limit_exceeded")).
Proof.
  destruct (failed_run_is_reported Example.service0 Scenario.rt_failed
              Example.clock0 Example.ten_bytes (Py.lit "sow.pdf")
              Example.thread0 Scenario.failed_run Scenario.failed_run 0 [])
    as (d & Heq & H1 & H2 & H3 & H4 & H5 & H6 & _).
  - reflexivity.
  - reflexivity.
  - reflexivity.
  - apply poll_loop_stops. reflexivity.
  - vm_compute. discriminate.
  - exists d. repeat (split; [assumption|]).
    rewrite (H6 (Py.lit "rate_limit_exceeded") eq_refl).
    vm_compute. reflexivity.
Defined.


End Calls.

(** *** The answers of the façade *)

Section Answers.
Import App.

Ltac refused Hf :=
  unfold_M; eexists _, _, _; (split; [reflexivity|]); left;
  (split; [reflexivity|]); (split; [reflexivity|]);
  (split; [reflexivity|]); (split; [reflexivity|]);
  intros (f & n & H1 & H2 & H3 & H4 & H5); rewrite Hf in H1;
  try discriminate.

(** The answers of [process_sow] to a request whose form was parsed. *)
Lemma process_sow_cases svc rt now request storage :
  ∃ resp storage' evs,
    process_sow svc rt now request storage = (Ok (resp, storage'), evs)
    ∧ ((status_code resp = 400%Z
        ∧ body resp !! "status" = Some error
        ∧ storage' = storage
        ∧ filter is_runtime_call evs = []
        ∧ ¬ ∃ file name, accepted_file request file name)
       ∨ (status_code resp = 200%Z
          ∧ ∃ file name sevs,
              accepted_file request file name
              ∧ process_sow_document svc rt now (stream file) name
                = (Ok (body resp), sevs)
              ∧ evs = [FileSeek 0; FileRead] ++ sevs)).
Proof.
  unfold process_sow.
  destruct (files request !! "file") as [file|] eqn:Hf; [|refused Hf].
  destruct (filename file) as [[|c name]|] eqn:Hn.
  3:{ refused Hf. injection H1 as <-. congruence. }
  1:{ refused Hf. injection H1 as <-. congruence. }
  case_bool_decide as Hext.
  { refused Hf. injection H1 as <-. rewrite Hn in H2. injection H2 as <-.
    contradiction. }
  unfold_M. case_bool_decide as Hlen.
  { eexists _, _, _; (split; [reflexivity|]); left.
    do 4 (split; [reflexivity|]).
    intros (f & n & H1 & H2 & H3 & H4 & H5). rewrite Hf in H1.
    injection H1 as <-. apply H5. apply nil_length_inv. exact Hlen. }
  assert (Hacc : accepted_file request file (c :: name)).
  { split; [exact Hf|]. split; [exact Hn|]. split; [discriminate|].
    split; [destruct (decide ((Py.splitext (Py.lower (c :: name))).2
                              ∈ allowed_extensions)); [assumption|contradiction]|].
    intros Hs. apply Hlen. rewrite Hs. reflexivity. }
  destruct (service_result svc rt now (stream file) (c :: name))
    as (d & evs & Heq & Hst & Hok).
  rewrite Heq.
  destruct Hst as [Hst|Hst].
  - destruct (Hok Hst) as (tid & text & Htid & Hp & [ts Hts]).
    unfold success in Hst.
    rewrite Hst. rewrite Htid. unfold getitem. rewrite Hp, Hts.
    rewrite bool_decide_eq_true_2 by reflexivity.
    rewrite bool_decide_eq_true_2 by (eexists; reflexivity).
    cbn [andb hashable default from_option].
    eexists _, _, _. split; [reflexivity|]. right.
    split; [reflexivity|]. exists file, (c :: name), evs.
    split; [exact Hacc|]. split; [exact Heq|].
    cbn [app]. rewrite ?app_nil_r. reflexivity.
  - unfold error in Hst. rewrite Hst.
    rewrite bool_decide_eq_false_2 by (intros [=]). cbn [andb].
    eexists _, _, _. split; [reflexivity|]. right.
    split; [reflexivity|]. exists file, (c :: name), evs.
    split; [exact Hacc|]. split; [exact Heq|].
    cbn [app]. rewrite ?app_nil_r. reflexivity.
Qed.

(** X10.  [process_sow] answers 500 exactly when reading [request.files]
    raises [e] (a body over [MAX_CONTENT_LENGTH], a form that cannot be
    read): the body is the error [Server error: e], the storage is
    unchanged and nothing else happens.  For a parsed request it answers
    400 with an error body, the storage unchanged and no call to the agent
    runtime exactly when the upload fails one of the checks; otherwise it
    answers 200 with the dictionary of the service as body, whatever that
    dictionary reports, after rewinding and reading the file. *)
Theorem response_codes svc rt now incoming storage :
  ∃ resp storage' evs,
    process_sow_incoming svc rt now incoming storage
    = (Ok (resp, storage'), evs)
    ∧ ((status_code resp = 500%Z
        ∧ storage' = storage
        ∧ evs = []
        ∧ ∃ e, incoming = Raise e
               ∧ body resp = error_payload (Py.lit "Server error: " ++ e))
       ∨ (status_code resp = 400%Z
          ∧ body resp !! "status" = Some error
          ∧ storage' = storage
          ∧ filter is_runtime_call evs = []
          ∧ ∃ request,
              incoming = Ok request
              ∧ ¬ ∃ file name, accepted_file request file name)
       ∨ (status_code resp = 200%Z
          ∧ ∃ request file name sevs,
              incoming = Ok request
              ∧ accepted_file request file name
              ∧ process_sow_document svc rt now (stream file) name
                = (Ok (body resp), sevs)
              ∧ evs = [FileSeek 0; FileRead] ++ sevs)).
Proof.
  unfold process_sow_incoming.
  destruct incoming as [request|e].
  - destruct (process_sow_cases svc rt now request storage)
      as (resp & storage' & evs & Heq & Hcase).
    unfold_M. rewrite Heq. exists resp, storage', evs.
    split; [reflexivity|]. right.
    destruct Hcase
      as [(H4 & Hst & Hs & Hevs & Hno)
         |(H2 & file & name & sevs & Hacc & Hdoc & Hevs)].
    + left. repeat (split; [assumption|]). exists request. auto.
    + right. split; [exact H2|]. exists request, file, name, sevs. auto.
  - unfold_M. eexists _, _, _. split; [reflexivity|]. left.
    repeat (split; [reflexivity|]). exists e. split; reflexivity.
Qed.

Lemma process_sow_effect_of svc rt now request storage resp storage' evs :
  process_sow svc rt now request storage = (Ok (resp, storage'), evs) →
  effect_on_storage storage resp storage'.
Proof.
  intros Heq.
  destruct (process_sow_effect svc rt now request storage)
    as (resp0 & storage0 & evs0 & Heq0 & Heff).
  rewrite Heq in Heq0.
  assert (H1 : resp = resp0) by congruence.
  assert (H2 : storage' = storage0) by congruence.
  subst. exact Heff.
Qed.

Lemma stored_job_id resp tid :
  body resp !! "status" = Some success →
  body resp !! "thread_id" = Some (VStr tid) →
  job_id_of resp = Some (VStr tid).
Proof.
  intros Hst Htid. unfold job_id_of.
  rewrite bool_decide_eq_true_2 by exact Hst. exact Htid.
Qed.

(** X11.  A request never removes a stored proposal: the keys of the
    storage are kept, at most one entry is added, only the entry of the job
    id of the response can change, and a response without job id leaves
    the storage as it was. *)
Theorem storage_only_grows svc rt now request storage resp storage' evs :
  process_sow svc rt now request storage = (Ok (resp, storage'), evs) →
  dom storage ⊆ dom storage'
  ∧ (size storage ≤ size storage' ≤ S (size storage))%nat
  ∧ (∀ k, job_id_of resp ≠ Some k → storage' !! k = storage !! k)
  ∧ (job_id_of resp = None → storage' = storage).
Proof.
  intros Heq. apply process_sow_effect_of in Heq.
  destruct Heq as [tid text data Hst Htid Hp Hd ->|Hst ->].
  - pose proof (stored_job_id resp tid Hst Htid) as Hj.
    split; [rewrite dom_insert_L; apply union_subseteq_r|].
    split.
    + rewrite map_size_insert. destruct (storage !! VStr tid); cbn; lia.
    + split.
      * intros k Hk. apply lookup_insert_ne. intros <-. apply Hk. exact Hj.
      * rewrite Hj. discriminate.
  - split; [reflexivity|]. split; [lia|]. split; reflexivity.
Qed.

Lemma storage_only_grows_witness :
  let out :=
    process_sow (UseSOWProposalService Example.service0)
      (Example.rt_completed Example.two_replies) Example.clock0
      (Example.upload "sow.txt" Example.ten_bytes) ∅ in
  let storage' := match out.1 with Ok (_, st) => st | Raise _ => ∅ end in
  let resp :=
    match out.1 with
    | Ok (r, _) => r
    | Raise _ => rejected [] 500
    end in
  let storage : gmap value ProposalData := ∅ in
  dom storage ⊆ dom storage'
  ∧ (size storage ≤ size storage' ≤ S (size storage))%nat
  ∧ (∀ k, job_id_of resp ≠ Some k → storage' !! k = storage !! k)
  ∧ (job_id_of resp = None → storage' = storage).
Proof.
  intros out storage' resp storage.
  apply (storage_only_grows (UseSOWProposalService Example.service0)
           (Example.rt_completed Example.two_replies) Example.clock0
           (Example.upload "sow.txt" Example.ten_bytes) ∅ resp storage' out.2).
  vm_compute. reflexivity.
Defined.

End Answers.

(** *** What a download answers *)

Section Downloads.
Import App.

Lemma served_proposals_are_text svc requests :
  ∀ storage responses final,
    serve svc requests storage = (responses, final) →
    holds_text storage → holds_text final.
Proof.
  induction requests as [|[[rt now] request] rest IH];
    intros storage responses final.
  - cbn [serve]. intros Heq Hinv.
    assert (final = storage) by congruence. subst. exact Hinv.
  - cbn [serve].
    destruct (process_sow_effect svc rt now request storage)
      as (resp & storage' & evs & Heq & Heff).
    rewrite Heq. cbn [fst].
    destruct (serve svc rest storage') as [resps final'] eqn:Hrest.
    intros Hpair Hinv.
    assert (final = final') by congruence. subst final'.
    apply (IH _ _ _ Hrest).
    destruct Heff as [tid text data Hst Htid Hp Hd ->|Hst ->]; [|exact Hinv].
    intros k data' Hk. destruct (decide (VStr tid = k)) as [<-|Hne].
    + rewrite lookup_insert_eq in Hk. exists text. congruence.
    + rewrite lookup_insert_ne in Hk by exact Hne. exact (Hinv k data' Hk).
Qed.

(** X12.  After any sequence of uploads served from an empty storage, a
    download answers 404 [Proposal not found] exactly for the ids that are
    not the job id of a successful response; for the others the stored
    proposal is a text, and the download sends its UTF-8 bytes as
    [Azure-Proposal-<safe name>.txt], or answers 500 with the encoding
    error when the text cannot be encoded. *)
Theorem download_after_serving
    (isalnum : N → bool) svc requests responses storage tid :
  serve svc requests ∅ = (responses, storage) →
  (download_proposal isalnum tid storage = not_found
   ↔ VStr tid ∉ omap job_id_of responses)
  ∧ (VStr tid ∈ omap job_id_of responses →
     ∃ data text,
       storage !! VStr tid = Some data
       ∧ proposal data = VStr text
       ∧ download_proposal isalnum tid storage
         = match Py.encode_utf8 text with
           | Some bytes =>
             SendFile bytes true
               (Py.lit "Azure-Proposal-"
                ++ safe_filename isalnum (proposal_filename data)
                ++ Py.lit ".txt")
               (Py.lit "text/plain")
           | None =>
             JsonResponse (dict_of [("error", VStr (Py.encode_error text))])
               500
           end).
Proof.
  intros Hserve.
  destruct (serve_dom _ _ _ _ _ Hserve) as [Hdom _].
  rewrite dom_empty_L, (left_id_L ∅ (∪)) in Hdom.
  assert (Hinv : holds_text storage).
  { apply (served_proposals_are_text _ _ _ _ _ Hserve).
    intros k data Hk. rewrite lookup_empty in Hk. discriminate. }
  assert (Hin : VStr tid ∈ omap job_id_of responses
                ↔ is_Some (storage !! VStr tid)).
  { rewrite <- elem_of_dom, Hdom, elem_of_list_to_set. reflexivity. }
  assert (Hknown : ∀ data, storage !! VStr tid = Some data →
            ∃ text, proposal data = VStr text
              ∧ download_proposal isalnum tid storage
                = match Py.encode_utf8 text with
                  | Some bytes =>
                    SendFile bytes true
                      (Py.lit "Azure-Proposal-"
                       ++ safe_filename isalnum (proposal_filename data)
                       ++ Py.lit ".txt")
                      (Py.lit "text/plain")
                  | None =>
                    JsonResponse
                      (dict_of [("error", VStr (Py.encode_error text))]) 500
                  end).
  { intros data Hk. destruct (Hinv _ _ Hk) as [text Hp]. exists text.
    split; [exact Hp|]. unfold download_proposal, written, encode.
    rewrite Hk, Hp. destruct (Py.encode_utf8 text); reflexivity. }
  split.
  - rewrite Hin. split.
    + intros Hnf [data Hk]. destruct (Hknown data Hk) as (text & _ & Hd).
      rewrite Hd in Hnf. unfold not_found in Hnf.
      destruct (Py.encode_utf8 text); discriminate.
    + intros Hno. unfold download_proposal, not_found.
      destruct (storage !! VStr tid) as [data|]; [|reflexivity].
      exfalso. apply Hno. eexists; reflexivity.
  - intros Hk. apply Hin in Hk as [data Hk].
    destruct (Hknown data Hk) as (text & Hp & Hd). exists data, text. auto.
Qed.

Lemma download_after_serving_witness :
  let out :=
    serve (UseSOWProposalService Example.service0)
      [(Example.rt_completed_in "thread_1" Example.two_replies,
        Example.clock0, Example.upload "a.txt" Example.ten_bytes);
       (Scenario.rt_failed, Example.clock0,
        Example.upload "b.pdf" Example.ten_bytes)] ∅ in
  (download_proposal Example.ascii_isalnum (Py.lit "thread_2") out.2
   = not_found
   ↔ VStr (Py.lit "thread_2") ∉ omap job_id_of out.1)
  ∧ (VStr (Py.lit "thread_2") ∈ omap job_id_of out.1 →
     ∃ data text,
       out.2 !! VStr (Py.lit "thread_2") = Some data
       ∧ proposal data = VStr text
       ∧ download_proposal Example.ascii_isalnum (Py.lit "thread_2") out.2
         = match Py.encode_utf8 text with
           | Some bytes =>
             SendFile bytes true
               (Py.lit "Azure-Proposal-"
                ++ safe_filename Example.ascii_isalnum (proposal_filename data)
                ++ Py.lit ".txt")
               (Py.lit "text/plain")
           | None =>
             JsonResponse (dict_of [("error", VStr (Py.encode_error text))])
               500
           end).
Proof.
  intros out.
  exact (download_after_serving Example.ascii_isalnum _ _ out.1 out.2
           (Py.lit "thread_2") (surjective_pairing out)).
Defined.

Lemma last_rev {A} (l : list A) : last (rev l) = head l.
Proof.
  destruct l as [|x l]; [reflexivity|]. cbn [rev]. apply last_snoc.
Qed.

Lemma rstrip_last s c : last (Py.rstrip s) = Some c → Py.isspace c = false.
Proof. unfold Py.rstrip. rewrite last_rev. apply lstrip_head. Qed.

Lemma rstrip_fixed s :
  (∀ c, last s = Some c → Py.isspace c = false) → Py.rstrip s = s.
Proof.
  intros H. unfold Py.rstrip.
  destruct (rev s) as [|x l] eqn:Hr.
  - apply (f_equal (@rev N)) in Hr. rewrite rev_involutive in Hr.
    rewrite Hr. reflexivity.
  - assert (Hs : s = rev l ++ [x]).
    { rewrite <- (rev_involutive s), Hr. reflexivity. }
    assert (Hx : Py.isspace x = false).
    { apply H. rewrite Hs. apply last_snoc. }
    cbn [Py.lstrip]. rewrite Hx, Hs. reflexivity.
Qed.

Lemma filter_fixed {A} (P : A → Prop) `{!∀ x, Decision (P x)} (l : list A) :
  Forall P l → filter P l = l.
Proof.
  induction 1 as [|x l Hx Hl IH]; [reflexivity|].
  rewrite filter_cons_True by exact Hx. rewrite IH. reflexivity.
Qed.

Lemma rstrip_sublist s : Py.rstrip s `sublist_of` s.
Proof. destruct (rstrip_take s) as [k ->]. apply sublist_take. Qed.

Lemma rstrip_Forall (P : N → Prop) s : Forall P s → Forall P (Py.rstrip s).
Proof. intros H. destruct (rstrip_take s) as [k ->]. apply Forall_take, H. Qed.

Lemma filter_Forall {A} (P : A → Prop) `{!∀ x, Decision (P x)} (l : list A) :
  Forall P (filter P l).
Proof.
  apply Forall_forall. intros x Hx. apply list_elem_of_filter in Hx as [Hx _].
  exact Hx.
Qed.

(** X13.  The name used for the download keeps, in their order, only
    characters of the stored file name that are alphanumeric, a space, [-]
    or [_], does not end with white space, and cleaning it again changes
    nothing. *)
Theorem download_name_is_safe (isalnum : N → bool) (name : list N) :
  let safe := safe_filename isalnum name in
  Forall (λ c, isalnum c = true ∨ c = 32%N ∨ c = 45%N ∨ c = 95%N) safe
  ∧ safe `sublist_of` name
  ∧ (∀ c, last safe = Some c → Py.isspace c = false)
  ∧ safe_filename isalnum safe = safe.
Proof.
  intros safe. subst safe. unfold safe_filename.
  split; [|split; [|split]].
  - apply rstrip_Forall. eapply Forall_impl; [apply filter_Forall|].
    intros c Hc. cbv beta in Hc.
    apply orb_True in Hc as [Hc|Hc]; [left; apply Is_true_eq_true; exact Hc|].
    right. apply bool_decide_unpack in Hc.
    repeat (apply elem_of_cons in Hc as [->|Hc]; [auto|]).
    apply elem_of_nil in Hc. contradiction.
  - etransitivity; [apply rstrip_sublist|apply sublist_filter].
  - apply rstrip_last.
  - rewrite filter_fixed; [apply rstrip_fixed, rstrip_last|].
    apply rstrip_Forall, filter_Forall.
Qed.

End Downloads.

(** *** The mock service *)

Section Mock.
Import App.

Ltac mock_refused H :=
  unfold_M; intros H;
  match type of H with
  | (Ok (?r, _), ?e) = (Ok (?resp, _), ?evs) =>
    assert (resp = r) by congruence; assert (evs = e) by congruence;
    subst resp evs; (split; [reflexivity|left; vm_compute; reflexivity])
  end.

Lemma mock_result now file_content name :
  ∃ d text ts,
    SimpleSowService.mock_process_sow_document now file_content name
    = (Ok d, [Sleep 8])
    ∧ d !! "status" = Some success
    ∧ d !! "thread_id" = Some mock_id
    ∧ d !! "proposal" = Some (VStr text)
    ∧ d !! "timestamp" = Some ts.
Proof.
  unfold SimpleSowService.mock_process_sow_document. unfold_M.
  eexists _, _, _. split; [reflexivity|]. repeat split; reflexivity.
Qed.

Lemma mock_job_id rt now request storage resp storage' evs :
  process_sow UseMockSOWService rt now request storage
  = (Ok (resp, storage'), evs) →
  filter is_runtime_call evs = []
  ∧ (job_id_of resp = None ∨ job_id_of resp = Some mock_id).
Proof.
  unfold process_sow.
  destruct (files request !! "file") as [file|]; [|mock_refused Heq].
  destruct (filename file) as [[|c name]|]; try mock_refused Heq.
  case_bool_decide as Hc; [mock_refused Heq|].
  unfold_M. case_bool_decide as Hl; [mock_refused Heq|].
  cbn [process_sow_document].
  destruct (mock_result now (stream file) (c :: name))
    as (d & text & ts & Hd & Hs & Ht & Hp & Hts).
  rewrite Hd. unfold success in Hs. unfold mock_id in Ht.
  rewrite Hs, Ht. unfold getitem. rewrite Hp, Hts.
  rewrite bool_decide_eq_true_2 by reflexivity.
  rewrite bool_decide_eq_true_2 by (eexists; reflexivity).
  cbn [andb hashable default from_option app].
  intros Heq.
  assert (Hr : resp = {| body := d; status_code := 200 |}) by congruence.
  assert (He : evs = [FileSeek 0; FileRead; Sleep 8]) by congruence.
  rewrite Hr, He. split; [reflexivity|]. right. unfold job_id_of.
  cbn [body]. rewrite bool_decide_eq_true_2 by exact Hs. exact Ht.
Qed.

Lemma mock_served_ids requests :
  ∀ storage responses final,
    serve UseMockSOWService requests storage = (responses, final) →
    Forall (λ k, k = mock_id) (omap job_id_of responses).
Proof.
  induction requests as [|[[rt now] request] rest IH];
    intros storage responses final.
  - cbn [serve]. intros Heq. assert (responses = []) by congruence. subst.
    constructor.
  - cbn [serve].
    destruct (process_sow_effect UseMockSOWService rt now request storage)
      as (resp & storage' & evs & Heq & _).
    rewrite Heq. cbn [fst].
    destruct (serve UseMockSOWService rest storage') as [resps final'] eqn:Hrest.
    intros Hpair. assert (responses = resp :: resps) by congruence. subst.
    rewrite omap_job_id_cons.
    destruct (mock_job_id _ _ _ _ _ _ _ Heq) as [_ [Hj|Hj]]; rewrite Hj.
    + exact (IH _ _ _ Hrest).
    + constructor; [reflexivity|exact (IH _ _ _ Hrest)].
Qed.

(** X14.  With the mock service the storage never holds more than one
    proposal, under the key [mock-o3-123], however many uploads succeed;
    it holds one exactly when some response reports a success. *)
Theorem mock_service_keeps_one_proposal requests responses storage :
  serve UseMockSOWService requests ∅ = (responses, storage) →
  (∀ k, is_Some (storage !! k) → k = mock_id)
  ∧ (size storage ≤ 1)%nat
  ∧ (size storage = 1%nat
     ↔ ∃ r, r ∈ responses ∧ body r !! "status" = Some success).
Proof.
  intros Hserve.
  destruct (serve_dom _ _ _ _ _ Hserve) as [Hdom Hlen].
  rewrite dom_empty_L, (left_id_L ∅ (∪)) in Hdom.
  pose proof (mock_served_ids _ _ _ _ Hserve) as Hids.
  assert (Hkeys : ∀ k, is_Some (storage !! k) → k = mock_id).
  { intros k Hk. apply elem_of_dom in Hk. rewrite Hdom in Hk.
    apply elem_of_list_to_set in Hk.
    exact (proj1 (Forall_forall _ _) Hids k Hk). }
  assert (Hsub : dom storage ⊆ ({[mock_id]} : gset value)).
  { intros k Hk. apply elem_of_dom in Hk. apply Hkeys in Hk. subst.
    apply elem_of_singleton. reflexivity. }
  assert (Hsize : (size storage ≤ 1)%nat).
  { rewrite <- size_dom. etransitivity; [apply subseteq_size, Hsub|].
    rewrite size_singleton. reflexivity. }
  split; [exact Hkeys|]. split; [exact Hsize|].
  assert (Hpos : (0 < size storage)%nat
                 ↔ ∃ r, r ∈ responses ∧ body r !! "status" = Some success).
  { rewrite <- size_dom, Hdom. split.
    - intros Hs.
      destruct (omap job_id_of responses) as [|k ids] eqn:Hk.
      { cbn in Hs. rewrite size_empty in Hs. lia. }
      destruct (filter (λ r, body r !! "status" = Some success) responses)
        as [|r rs] eqn:Hf; [discriminate|].
      exists r.
      assert (Hin : r ∈ filter (λ r, body r !! "status" = Some success)
                        responses) by (rewrite Hf; left).
      apply list_elem_of_filter in Hin as [H1 H2]. split; assumption.
    - intros (r & Hr & Hst).
      destruct (omap job_id_of responses) as [|k ids] eqn:Hk.
      + exfalso.
        assert (Hin : r ∈ filter (λ r, body r !! "status" = Some success)
                          responses).
        { apply list_elem_of_filter. split; assumption. }
        destruct (filter _ responses); [inversion Hin|discriminate].
      + rewrite list_to_set_cons.
        assert (Hne : size ({[k]} ∪ list_to_set ids : gset value) ≠ 0%nat).
        { apply size_non_empty_iff. intros He.
          apply (not_elem_of_empty (C:=gset value) k).
          rewrite <- He. apply elem_of_union_l, elem_of_singleton.
          reflexivity. }
        lia. }
  rewrite <- Hpos. lia.
Qed.

Lemma mock_service_keeps_one_proposal_witness :
  let out :=
    serve UseMockSOWService
      [(Example.rt_queued, Example.clock0,
        Example.upload "a.txt" Example.ten_bytes);
       (Example.rt_queued, Example.clock0,
        Example.upload "b.xls" Example.ten_bytes);
       (Example.rt_queued, Example.clock0,
        Example.upload "c.pdf" Example.ten_bytes)] ∅ in
  (∀ k, is_Some (out.2 !! k) → k = mock_id)
  ∧ (size out.2 ≤ 1)%nat
  ∧ (size out.2 = 1%nat
     ↔ ∃ r, r ∈ out.1 ∧ body r !! "status" = Some success).
Proof.
  intros out.
  exact (mock_service_keeps_one_proposal _ out.1 out.2
           (surjective_pairing out)).
Defined.

End Mock.

(** *** [sow_service.py]: the temporary file and the polling loop *)

Section SowServiceCalls.
Import SowServiceFull.

Ltac unfold_IO :=
  unfold mbind, IO_bind, io_bind, mret, IO_ret, io_ret, io_call, io_eval,
    io_try_except, io_try_finally in *.

Lemma sow_poll_loop_step rt thread run wait_time polls :
  poll_loop rt thread run wait_time polls =
  if in_list (status run) polled_statuses && (wait_time <? max_wait_time)%Z
  then io_call (AsyncSleep 10) (Ok tt) ;;
       run' ← io_call (GetRun thread (run_id run)) (runs_get rt polls);
       poll_loop rt thread run' (wait_time + 10)%Z (S polls)
  else mret (run, wait_time).
Proof.
  simp poll_loop.
  destruct (SimpleSowService.inspect _) as [[] e]; simpl; rewrite e;
    reflexivity.
Qed.

Lemma sow_poll_loop_trace rt thread (n : nat) :
  ∀ run wait_time polls,
    (max_wait_time - wait_time ≤ 10 * Z.of_nat n)%Z →
    ∃ ids r,
      poll_loop rt thread run wait_time polls = (r, poll_calls thread ids)
      ∧ (length ids ≤ n)%nat
      ∧ ∀ run' wt', r = Ok (run', wt') →
          wt' = (wait_time + 10 * Z.of_nat (length ids))%Z
          ∧ (in_list (status run') polled_statuses = false
             ∨ (max_wait_time ≤ wt')%Z).
Proof.
  induction n as [|n IH]; intros run wait_time polls Hn;
    rewrite sow_poll_loop_step.
  - destruct (Z.ltb_spec wait_time max_wait_time) as [Hlt|Hge]; [lia|].
    rewrite andb_false_r. exists [], (Ok (run, wait_time)).
    split; [reflexivity|]. split; [simpl; lia|].
    intros run' wt' [= <- <-]. simpl. split; [lia|right; lia].
  - destruct (in_list (status run) polled_statuses) eqn:Hst; cbn [andb].
    2:{ exists [], (Ok (run, wait_time)). split; [reflexivity|].
        split; [simpl; lia|]. intros run' wt' [= <- <-]. simpl.
        split; [lia|left; assumption]. }
    destruct (Z.ltb_spec wait_time max_wait_time) as [Hlt|Hge].
    2:{ exists [], (Ok (run, wait_time)). split; [reflexivity|].
        split; [simpl; lia|]. intros run' wt' [= <- <-]. simpl.
        split; [lia|right; lia]. }
    unfold_IO. destruct (runs_get rt polls) as [run1|e].
    + destruct (IH run1 (wait_time + 10)%Z (S polls))
        as (ids & r & Heq & Hlen & Hr); [lia|].
      rewrite Heq. exists (run_id run :: ids), r. split; [reflexivity|].
      split; [simpl; lia|]. intros run' wt' Hok.
      destruct (Hr run' wt' Hok) as [-> Hex]. split; [simpl length; lia|].
      exact Hex.
    + exists [run_id run], (Raise e). split; [reflexivity|].
      split; [simpl; lia|]. intros ? ? [=].
Qed.

Lemma poll_calls_no_unlink thread ids :
  Forall (λ c, is_unlink c = false) (poll_calls thread ids).
Proof.
  induction ids as [|id ids IH]; [constructor|].
  cbn [poll_calls flat_map app]. repeat constructor. exact IH.
Qed.

Ltac no_unlink :=
  eexists _, _; (split; [reflexivity|]);
  cbn [app]; rewrite ?app_nil_r;
  repeat first
    [ apply Forall_nil_2
    | apply Forall_cons_2; [reflexivity|]
    | apply Forall_app_2
    | apply poll_calls_no_unlink ].

Lemma with_temp_file_calls self rt host now thread path filename :
  ∃ r calls,
    with_temp_file self rt host now thread path filename
    = (r, UploadFile path (Py.lit "assistants") :: calls)
    ∧ Forall (λ c, is_unlink c = false) calls.
Proof.
  unfold with_temp_file. unfold_IO.
  destruct (upload_file host) as [file_id|e]; [|no_unlink].
  destruct (messages_create rt) as [[]|e]; [|no_unlink].
  destruct (runs_create rt) as [run0|e]; [|no_unlink].
  destruct (sow_poll_loop_trace rt (thread_id thread) 60 run0 0 0)
    as (ids & r & Heq & _); [unfold max_wait_time; lia|].
  rewrite Heq. destruct r as [[run wt]|e]; [|no_unlink].
  destruct (bool_decide (status run = Py.lit "completed")); [|no_unlink].
  destruct (messages_list rt) as [listing|e]; [|no_unlink].
  destruct (SowService.next_assistant (first_pass listing)) as [m|e];
    [|no_unlink].
  destruct (content0_text_value m) as [text|e]; no_unlink.
Qed.

(** X15.  In [sow_service.py], once the temporary file is written, the
    job uploads it first and removes it last: whatever the runtime answers,
    [os.unlink] is called on that file once, as the final call, and the
    function returns a dictionary. *)
Theorem temp_file_is_removed
    self rt host now file_content filename thread path :
  threads_create rt = Ok thread → temp_file host = Ok path →
  temp_write host = Ok tt →
  ∃ d calls,
    _process_with_orchestrator self rt host now file_content filename
    = (Ok d,
       temp_file_calls filename path file_content
       ++ UploadFile path (Py.lit "assistants") :: calls ++ [Unlink path])
    ∧ Forall (λ c, is_unlink c = false) calls.
Proof.
  intros Hth Htmp Hw. unfold _process_with_orchestrator, temp_file_calls.
  destruct (with_temp_file_calls self rt host now thread path filename)
    as (r & calls & Heq & Hall).
  unfold_IO. rewrite Hth, Htmp, Hw. cbn [app]. rewrite Heq.
  destruct r as [d|e], (unlink host) as [[]|e'];
    eexists _, calls; (split; [|exact Hall]); cbn [app];
    rewrite ?app_nil_r; reflexivity.
Qed.

Lemma temp_file_is_removed_witness :
  ∃ d calls,
    _process_with_orchestrator Scenario.service1
      (Example.rt_completed Example.two_replies) Scenario.host0
      Example.clock0 Example.ten_bytes (Py.lit "sow.pdf")
    = (Ok d,
       temp_file_calls (Py.lit "sow.pdf") (Py.lit "/tmp/tmpk3x9_sow.pdf")
         Example.ten_bytes
       ++ UploadFile (Py.lit "/tmp/tmpk3x9_sow.pdf") (Py.lit "assistants")
          :: calls ++ [Unlink (Py.lit "/tmp/tmpk3x9_sow.pdf")])
    ∧ Forall (λ c, is_unlink c = false) calls.
Proof.
  apply (temp_file_is_removed Scenario.service1
           (Example.rt_completed Example.two_replies) Scenario.host0
           Example.clock0 Example.ten_bytes (Py.lit "sow.pdf")
           Example.thread0 (Py.lit "/tmp/tmpk3x9_sow.pdf"));
    reflexivity.
Defined.

(** X16.  In [sow_service.py], a failure before the upload is reported
    as [Orchestrator processing failed: e] and makes no further call; when
    writing the temporary file raises, the file that was created is not
    removed. *)
Theorem failure_before_upload_leaves_no_cleanup
    self rt host now file_content filename e :
  (threads_create rt = Raise e →
   _process_with_orchestrator self rt host now file_content filename
   = (Ok (orchestrator_failed e), [CreateThread]))
  ∧ (∀ thread,
       threads_create rt = Ok thread → temp_file host = Raise e →
       _process_with_orchestrator self rt host now file_content filename
       = (Ok (orchestrator_failed e),
          [CreateThread; TempFileCreate (Py.lit "_" ++ filename)]))
  ∧ (∀ thread path,
       threads_create rt = Ok thread → temp_file host = Ok path →
       temp_write host = Raise e →
       _process_with_orchestrator self rt host now file_content filename
       = (Ok (orchestrator_failed e),
          temp_file_calls filename path file_content)).
Proof.
  unfold _process_with_orchestrator, orchestrator_failed, temp_file_calls.
  unfold_IO. split; [|split].
  - intros ->. reflexivity.
  - intros thread -> ->. reflexivity.
  - intros thread path -> -> ->. reflexivity.
Qed.

Lemma failure_before_upload_leaves_no_cleanup_witness :
  _process_with_orchestrator Scenario.service1
    (Example.rt_completed Example.two_replies) Scenario.host_disk_full
    Example.clock0 Example.ten_bytes (Py.lit "sow.pdf")
  = (Ok (orchestrator_failed (Py.lit "[Errno 28] No space left on device")),
     temp_file_calls (Py.lit "sow.pdf") (Py.lit "/tmp/tmpk3x9_sow.pdf")
       Example.ten_bytes).
Proof.
  apply (failure_before_upload_leaves_no_cleanup Scenario.service1
           (Example.rt_completed Example.two_replies) Scenario.host_disk_full
           Example.clock0 Example.ten_bytes (Py.lit "sow.pdf")
           (Py.lit "[Errno 28] No space left on device")
         ) with (thread := Example.thread0); reflexivity.
Defined.

(** X17.  In [sow_service.py], when removing the temporary file raises
    [e], the result of the job is the error
    [Orchestrator processing failed: e], also when the analysis had
    succeeded. *)
Theorem unlink_failure_replaces_the_result
    self rt host now file_content filename thread path e :
  threads_create rt = Ok thread → temp_file host = Ok path →
  temp_write host = Ok tt → unlink host = Raise e →
  (_process_with_orchestrator self rt host now file_content filename).1
  = Ok (orchestrator_failed e).
Proof.
  intros Hth Htmp Hw Hun. unfold _process_with_orchestrator.
  destruct (with_temp_file_calls self rt host now thread path filename)
    as (r & calls & Heq & _).
  unfold_IO. rewrite Hth, Htmp, Hw, Hun. cbn [app]. rewrite Heq.
  destruct r; reflexivity.
Qed.

Lemma unlink_failure_replaces_the_result_witness :
  io_returned
    (with_temp_file Scenario.service1
       (Example.rt_completed Example.two_replies) Scenario.host_unlink_fails
       Example.clock0 Example.thread0 (Py.lit "/tmp/tmpk3x9_sow.pdf")
       (Py.lit "sow.pdf")) !! "status"
  = Some success
  ∧ (_process_with_orchestrator Scenario.service1
       (Example.rt_completed Example.two_replies) Scenario.host_unlink_fails
       Example.clock0 Example.ten_bytes (Py.lit "sow.pdf")).1
    = Ok (orchestrator_failed (Py.lit "[Errno 13] Permission denied")).
Proof.
  split; [vm_compute; reflexivity|].
  apply (unlink_failure_replaces_the_result Scenario.service1
           (Example.rt_completed Example.two_replies)
           Scenario.host_unlink_fails Example.clock0 Example.ten_bytes
           (Py.lit "sow.pdf") Example.thread0 (Py.lit "/tmp/tmpk3x9_sow.pdf"));
    reflexivity.
Defined.

Lemma sow_poll_loop_stops rt thread run wait_time polls :
  in_list (status run) polled_statuses && (wait_time <? max_wait_time)%Z = false →
  poll_loop rt thread run wait_time polls = (Ok (run, wait_time), []).
Proof. intros H. rewrite sow_poll_loop_step, H. reflexivity. Qed.

(** X18.  In [sow_service.py], a job whose submission succeeds and whose
    run is completed returns a success with the text of the first
    assistant message of the listing, the thread id, the id of the
    uploaded file, the time waited and the clock's timestamp, without
    [filename] or [document_length]; its calls end with the listing of the
    messages and the removal of the temporary file. *)
Theorem completed_run_returns_first_reply
    self rt host now file_content filename thread path file_id run0 run
    wait_time pcalls listing older m newer text :
  threads_create rt = Ok thread → temp_file host = Ok path →
  temp_write host = Ok tt → upload_file host = Ok file_id →
  messages_create rt = Ok tt → runs_create rt = Ok run0 →
  poll_loop rt (thread_id thread) run0 0 0 = (Ok (run, wait_time), pcalls) →
  status run = Py.lit "completed" →
  messages_list rt = Ok listing →
  items listing = older ++ m :: newer →
  Forall not_assistant older → is_assistant m = true →
  content0_text_value m = Ok text →
  unlink host = Ok tt →
  ∃ d,
    _process_with_orchestrator self rt host now file_content filename
    = (Ok d,
       temp_file_calls filename path file_content
       ++ [UploadFile path (Py.lit "assistants");
           CreateMessage (thread_id thread) (Py.lit "user")
             (analysis_message filename) [file_id];
           CreateRun (thread_id thread) (orchestrator_agent_id self)]
       ++ pcalls ++ [ListMessages (thread_id thread); Unlink path])
    ∧ d !! "status" = Some success
    ∧ d !! "proposal" = Some (VStr text)
    ∧ d !! "thread_id" = Some (VStr (thread_id thread))
    ∧ d !! "file_id" = Some (VStr file_id)
    ∧ d !! "processing_time" = Some (VInt wait_time)
    ∧ d !! "timestamp" = Some (VStr (isoformat now))
    ∧ d !! "filename" = None
    ∧ d !! "document_length" = None.
Proof.
  intros Hth Htmp Hw Hup Hmsg Hrun Hpoll Hst Hlist Hitems Hold Hm Htext Hun.
  unfold _process_with_orchestrator, with_temp_file, temp_file_calls.
  unfold_IO.
  rewrite Hth, Htmp, Hw, Hup, Hmsg, Hrun, Hpoll, Hun, Hlist.
  rewrite bool_decide_eq_true_2 by exact Hst.
  unfold SowService.next_assistant, first_pass.
  rewrite Hitems, (find_first_match _ _ _ _ Hold Hm), Htext.
  eexists. split.
  - cbn [app]. rewrite ?app_nil_r, <- ?app_assoc. reflexivity.
  - repeat split; reflexivity.
Qed.

Lemma completed_run_returns_first_reply_witness :
  ∃ d,
    _process_with_orchestrator Scenario.service1
      (Example.rt_completed Example.two_replies) Scenario.host0
      Example.clock0 Example.ten_bytes (Py.lit "sow.pdf")
    = (Ok d,
       temp_file_calls (Py.lit "sow.pdf") (Py.lit "/tmp/tmpk3x9_sow.pdf")
         Example.ten_bytes
       ++ [UploadFile (Py.lit "/tmp/tmpk3x9_sow.pdf") (Py.lit "assistants");
           CreateMessage (Py.lit "thread_1") (Py.lit "user")
             (analysis_message (Py.lit "sow.pdf")) [Py.lit "file_1"];
           CreateRun (Py.lit "thread_1") (Some (Py.lit "asst_1"))]
       ++ [] ++ [ListMessages (Py.lit "thread_1");
                 Unlink (Py.lit "/tmp/tmpk3x9_sow.pdf")])
    ∧ d !! "status" = Some success
    ∧ d !! "proposal" = Some (VStr (Py.lit "first"))
    ∧ d !! "thread_id" = Some (VStr (Py.lit "thread_1"))
    ∧ d !! "file_id" = Some (VStr (Py.lit "file_1"))
    ∧ d !! "processing_time" = Some (VInt 0)
    ∧ d !! "timestamp" = Some (VStr (isoformat Example.clock0))
    ∧ d !! "filename" = None
    ∧ d !! "document_length" = None.
Proof.
  apply (completed_run_returns_first_reply Scenario.service1
           (Example.rt_completed Example.two_replies) Scenario.host0
           Example.clock0 Example.ten_bytes (Py.lit "sow.pdf")
           Example.thread0 (Py.lit "/tmp/tmpk3x9_sow.pdf") (Py.lit "file_1")
           (Example.run_with "completed") (Example.run_with "completed")
           0 [] {| items := Example.two_replies; one_shot := false |}
           [Example.message "user" "request"]
           (Example.message "assistant" "first")
           [Example.message "assistant" "second"]);
    try reflexivity.
  repeat constructor.
Defined.

(** X19.  In [sow_service.py], a completed run whose listing has no
    assistant message gives the error [Orchestrator processing failed: ]
    with an empty detail, after the listing was read and the temporary
    file removed. *)
Theorem completed_run_without_reply
    self rt host now file_content filename thread path file_id run0 run
    wait_time pcalls listing :
  threads_create rt = Ok thread → temp_file host = Ok path →
  temp_write host = Ok tt → upload_file host = Ok file_id →
  messages_create rt = Ok tt → runs_create rt = Ok run0 →
  poll_loop rt (thread_id thread) run0 0 0 = (Ok (run, wait_time), pcalls) →
  status run = Py.lit "completed" →
  messages_list rt = Ok listing → Forall not_assistant (items listing) →
  unlink host = Ok tt →
  _process_with_orchestrator self rt host now file_content filename
  = (Ok (orchestrator_failed []),
     temp_file_calls filename path file_content
     ++ [UploadFile path (Py.lit "assistants");
         CreateMessage (thread_id thread) (Py.lit "user")
           (analysis_message filename) [file_id];
         CreateRun (thread_id thread) (orchestrator_agent_id self)]
     ++ pcalls ++ [ListMessages (thread_id thread); Unlink path]).
Proof.
  intros Hth Htmp Hw Hup Hmsg Hrun Hpoll Hst Hlist Hno Hun.
  unfold _process_with_orchestrator, with_temp_file, orchestrator_failed,
    temp_file_calls.
  unfold_IO.
  rewrite Hth, Htmp, Hw, Hup, Hmsg, Hrun, Hpoll, Hun, Hlist.
  rewrite bool_decide_eq_true_2 by exact Hst.
  unfold SowService.next_assistant, first_pass.
  rewrite (find_no_match is_assistant (items listing) Hno).
  cbn [app]. rewrite ?app_nil_r, <- ?app_assoc. reflexivity.
Qed.

Lemma completed_run_without_reply_witness :
  _process_with_orchestrator Scenario.service1
    (Example.rt_completed Example.no_reply) Scenario.host0
    Example.clock0 Example.ten_bytes (Py.lit "sow.pdf")
  = (Ok (orchestrator_failed []),
     temp_file_calls (Py.lit "sow.pdf") (Py.lit "/tmp/tmpk3x9_sow.pdf")
       Example.ten_bytes
     ++ [UploadFile (Py.lit "/tmp/tmpk3x9_sow.pdf") (Py.lit "assistants");
         CreateMessage (Py.lit "thread_1") (Py.lit "user")
           (analysis_message (Py.lit "sow.pdf")) [Py.lit "file_1"];
         CreateRun (Py.lit "thread_1") (Some (Py.lit "asst_1"))]
     ++ [] ++ [ListMessages (Py.lit "thread_1");
               Unlink (Py.lit "/tmp/tmpk3x9_sow.pdf")]).
Proof.
  apply (completed_run_without_reply Scenario.service1
           (Example.rt_completed Example.no_reply) Scenario.host0
           Example.clock0 Example.ten_bytes (Py.lit "sow.pdf")
           Example.thread0 (Py.lit "/tmp/tmpk3x9_sow.pdf") (Py.lit "file_1")
           (Example.run_with "completed") (Example.run_with "completed")
           0 [] {| items := Example.no_reply; one_shot := false |});
    try reflexivity.
  repeat constructor.
Defined.

(** X20.  The polling loop of [sow_service.py] makes at most 60 status
    queries, each after a sleep of 10 seconds, and leaves with the time
    waited equal to ten times their number, at most 600.  A run that
    [requires_action] ends it at once, while [simple_sow_service.py] keeps
    polling such a run. *)
Theorem sow_service_poller rt thread run0 :
  (∃ ids r,
     poll_loop rt thread run0 0 0 = (r, poll_calls thread ids)
     ∧ (length ids ≤ 60)%nat
     ∧ ∀ run wait_time, r = Ok (run, wait_time) →
         wait_time = (10 * Z.of_nat (length ids))%Z
         ∧ (0 ≤ wait_time ≤ 600)%Z
         ∧ (in_list (status run) polled_statuses = false
            ∨ wait_time = 600%Z))
  ∧ (∀ id err wait_time polls,
       let run := {| run_id := id; status := Py.lit "requires_action";
                     last_error := err |} in
       poll_loop rt thread run wait_time polls = (Ok (run, wait_time), [])
       ∧ in_list (status run) SimpleSowService.polled_statuses = true).
Proof.
  split.
  - destruct (sow_poll_loop_trace rt thread 60 run0 0 0)
      as (ids & r & Heq & Hlen & Hr); [unfold max_wait_time; lia|].
    exists ids, r. split; [exact Heq|]. split; [exact Hlen|].
    intros run wt Hok. destruct (Hr run wt Hok) as [-> Hex].
    split; [lia|]. split; [lia|].
    destruct Hex as [Hex|Hex]; [left; exact Hex|right].
    unfold max_wait_time in Hex. lia.
  - intros id err wait_time polls run. split; [|reflexivity].
    apply sow_poll_loop_stops. reflexivity.
Qed.

End SowServiceCalls.

(** *** The choice of the service when the application is loaded *)

Section Choice.
Import App Startup.

(** X21.  When [app.py] is loaded the Azure service is chosen exactly
    when [PROJECT_ENDPOINT] and [ORCHESTRATOR_AGENT_ID] are set and not
    empty and the client can be built, and its agent id is the value of
    [ORCHESTRATOR_AGENT_ID]; in every other case the mock service is
    chosen.  The health check reports [live] exactly when the statistics
    report [azure]. *)
Theorem service_choice environ client :
  (∀ self,
     sow_service environ client = UseSOWProposalService self
     ↔ client = Ok tt
       ∧ is_set (environ !! "PROJECT_ENDPOINT") = true
       ∧ environ !! "ORCHESTRATOR_AGENT_ID"
         = Some (SimpleSowService.orchestrator_agent_id self)
       ∧ SimpleSowService.orchestrator_agent_id self ≠ [])
  ∧ (sow_service environ client = UseMockSOWService
     ↔ is_set (environ !! "PROJECT_ENDPOINT") = false
       ∨ is_set (environ !! "ORCHESTRATOR_AGENT_ID") = false
       ∨ ∃ e, client = Raise e)
  ∧ (∀ now storage,
       health_check (sow_service environ client) now !! "azure_integration"
       = Some (VStr (Py.lit "live"))
       ↔ get_stats (sow_service environ client) storage !! "service_type"
         = Some (VStr (Py.lit "azure"))).
Proof.
  unfold sow_service, SOWProposalService_init.
  split; [|split].
  - intros [id]. cbn [SimpleSowService.orchestrator_agent_id].
    destruct (is_set (environ !! "PROJECT_ENDPOINT")); cbn [andb].
    2:{ split; [discriminate|]. intros (_ & H & _). discriminate. }
    destruct (environ !! "ORCHESTRATOR_AGENT_ID") as [[|c v]|]; cbn [is_set].
    1:{ split; [discriminate|]. intros (_ & _ & H & Hne). congruence. }
    2:{ split; [discriminate|]. intros (_ & _ & H & _). discriminate. }
    destruct client as [[]|e].
    + split.
      * intros H. assert (id = c :: v) by congruence. subst.
        repeat split; discriminate.
      * intros (_ & _ & H & _). congruence.
    + split; [discriminate|]. intros (H & _). discriminate.
  - destruct (is_set (environ !! "PROJECT_ENDPOINT")); cbn [andb].
    2:{ split; [auto|reflexivity]. }
    destruct (environ !! "ORCHESTRATOR_AGENT_ID") as [[|c v]|]; cbn [is_set].
    1:{ split; [auto|reflexivity]. }
    2:{ split; [auto|reflexivity]. }
    destruct client as [[]|e].
    + split; [discriminate|]. intros [H|[H|[e H]]]; discriminate.
    + split; [eauto|reflexivity].
  - intros now storage.
    destruct (match _ with Ok service => service | Raise _ => _ end);
      cbn [isinstance_MockSOWService]; split; intros H;
      first [reflexivity|vm_compute in H; discriminate].
Qed.

End Choice.
